(** * The GAN and LeNet practical notebooks: model and verified properties

    The repository holds two Jupyter notebooks.  [gan_practical_local.ipynb]
    trains generative adversarial networks (a 1D toy problem, then MNIST
    with a multilayer perceptron and with a convolutional network) and
    interpolates in the latent space; [mnist_practical_keras.ipynb] loads
    MNIST, one-hot encodes the labels and builds LeNet.

    The notebooks are embedded cell by cell.  NumPy arrays are lists
    (two-dimensional arrays are lists of rows) and the mutable interpreter
    state (network weights, Keras flags, random generators, loss histories)
    is threaded through a state monad.  Floating point numbers are
    idealised as real numbers in the networks and the losses; in the
    interpolation of the latent space, where what is stored depends on
    rounding, they are IEEE 754 numbers, see [Float].  What Keras and NumPy do behind their API (the
    optimiser, the random generators, the forward pass of a network under
    training) is a parameter of the development, see [Backend]. *)

From Stdlib Require Import Reals Lra Lia ZArith List.
From Stdlib Require SpecFloat.
From stdpp Require Import base list strings pretty.
Import ListNotations.

Open Scope R_scope.

(** ** NumPy arrays *)

Definition vec := list R.
Definition batch := list vec.

(** [np.zeros(n)] and [np.ones(n)]. *)
Definition np_zeros (n : nat) : vec := replicate n 0.
Definition np_ones (n : nat) : vec := replicate n 1.

(** [np.zeros((rows, cols))]. *)
Definition np_zeros2 {A} (zero : A) (rows cols : nat) : list (list A) :=
  replicate rows (replicate cols zero).

(** [np.concatenate([a, b])] along the first axis. *)
Definition np_concatenate {A} (a b : list A) : list A := a ++ b.

(** [y[:n] = v]: the first [n] entries (fewer if the array is shorter)
    are overwritten by the scalar [v]. *)
Definition assign_prefix {A} (n : nat) (v : A) (y : list A) : list A :=
  replicate (min n (length y)) v ++ drop n y.

(** Scalar times vector and vector plus vector, entry by entry. *)
Definition vscale (c : R) (v : vec) : vec := map (Rmult c) v.
Definition vadd (u v : vec) : vec := zip_with Rplus u v.

(** ** One-hot encoding (classifier notebook, section 4)

<<
train_set_labels_output = np.zeros((len(train_set_labels),10),dtype=np.int16)
for n in range(10):
    train_set_labels_output[:,n] = train_set_labels==n
>> *)

Module OneHot.

(** [labels == n], entry by entry. *)
Definition labels_eq (labels : list Z) (n : nat) : list bool :=
  map (fun l => Z.eqb l (Z.of_nat n)) labels.

(** [out[:,n] = col]: entry [n] of every row is overwritten; the booleans
    are stored in an int16 array as 1 and 0. *)
Definition assign_column (n : nat) (col : list bool) (out : list (list Z))
  : list (list Z) :=
  zip_with (fun row (b : bool) => <[n := Z.b2z b]> row) out col.

Definition train_set_labels_output (train_set_labels : list Z) : list (list Z) :=
  foldl (fun out n => assign_column n (labels_eq train_set_labels n) out)
        (np_zeros2 0%Z (length train_set_labels) 10)
        (seq 0 10).

Definition row_sum (row : list Z) : Z := foldr Z.add 0%Z row.

(** What the loop does to one row. *)
Definition encode_row (l : Z) : list Z :=
  foldl (fun row n => <[n := Z.b2z (Z.eqb l (Z.of_nat n))]> row)
        (replicate 10 0%Z) (seq 0 10).

End OneHot.

(** ** Floating-point numbers

    Where a property depends on rounding, numbers are IEEE 754 values:
    [spec_float] of the standard library, with its operations at the
    precision of float64 (53 bits, exponents below 1024) and float32 (24
    bits, exponents below 128), all rounding to nearest, ties to even. *)

Module Float.
Import SpecFloat.

Definition float := spec_float.

Definition f64_add : float -> float -> float := SFadd 53 1024.
Definition f64_sub : float -> float -> float := SFsub 53 1024.
Definition f64_mul : float -> float -> float := SFmul 53 1024.
Definition f64_div : float -> float -> float := SFdiv 53 1024.
Definition f64_eqb : float -> float -> bool := SFeqb.
Definition f64_ltb : float -> float -> bool := SFltb.

(** [float(n)] for a Python integer. *)
Definition f64_of_Z (n : Z) : float := binary_normalize 53 1024 n 0 false.

(** Storing a float64 into a float32 array rounds it. *)
Definition f32_of_f64 (x : float) : float :=
  match x with
  | S754_finite s m e => binary_round 24 128 s m e
  | _ => x
  end.

(** A float32 as a float64, which is exact. *)
Definition f64_of_f32 (x : float) : float :=
  match x with
  | S754_finite s m e => binary_round 53 1024 s m e
  | _ => x
  end.

(** The float64 values that are numbers, and those other than zero. *)
Definition finite64 (x : float) : bool :=
  match x with
  | S754_zero _ => true
  | S754_finite _ m e => bounded 53 1024 m e
  | _ => false
  end.

Definition nonzero64 (x : float) : bool :=
  match x with
  | S754_finite _ m e => bounded 53 1024 m e
  | _ => false
  end.

End Float.

(** ** Interpolation in the latent space

<<
noise_a = np.random.normal(0, 1, size=[1, latent_dim])
noise_b = np.random.normal(0, 1, size=[1, latent_dim])
noise = np.zeros((10, latent_dim), dtype='float32')
for ni in range(10):
  noise[ni, :] = float(ni)/10. * noise_a + (1 - float(ni)/10.) * noise_b
>>
    The two draws are float64, and so is the right-hand side of the
    assignment; the array it is stored into is float32. *)

Module Interpolation.
Import Float.

(** [float(ni)/10.] *)
Definition weight (ni : nat) : float :=
  f64_div (f64_of_Z (Z.of_nat ni)) (f64_of_Z 10).

(** One entry of the right-hand side, computed in float64. *)
Definition combine (ni : nat) (x y : float) : float :=
  f64_add (f64_mul (weight ni) x)
          (f64_mul (f64_sub (f64_of_Z 1) (weight ni)) y).

(** The row stored at [noise[ni, :]]: the array is float32. *)
Definition point (ni : nat) (noise_a noise_b : list float) : list float :=
  map f32_of_f64 (zip_with (combine ni) noise_a noise_b).

Definition noise (latent_dim : nat) (noise_a noise_b : list float)
  : list (list float) :=
  foldl (fun m ni => <[ni := point ni noise_a noise_b]> m)
        (np_zeros2 (SpecFloat.S754_zero false) 10 latent_dim)
        (seq 0 10).

(** [row == v] for a float32 row and a float64 vector: NumPy converts the
    row to float64 and compares entry by entry. *)
Definition same_values (row v : list float) : bool :=
  Nat.eqb (length row) (length v)
  && forallb (fun p : float * float => f64_eqb (f64_of_f32 p.1) p.2) (zip row v).

End Interpolation.

(** ** Keras layers and the discriminator networks

    The forward pass of the layers the discriminators are built from, for
    one sample.  A [Dense] layer holds a kernel of shape
    (input_dim, units), stored as [input_dim] rows of [units] entries, and a
    bias of [units] entries; a sample whose length is not the kernel's
    number of rows is rejected, as Keras raises on it. *)

Module Keras.

Inductive activation := Linear | Sigmoid | Tanh.

Definition sigmoid (x : R) : R := 1 / (1 + exp (- x)).

Definition apply_activation (a : activation) (x : R) : R :=
  match a with
  | Linear => x
  | Sigmoid => sigmoid x
  | Tanh => tanh x
  end.

Record dense_weights := { kernel : list vec; bias : vec }.

Inductive layer :=
| Dense (units : nat) (act : activation) (w : dense_weights)
| LeakyReLU (alpha : R)
| Dropout (rate : R).

Definition sequential := list layer.

(** [x . kernel + bias]: the bias, plus each row of the kernel scaled by
    the matching input entry. *)
Definition affine (w : dense_weights) (x : vec) : vec :=
  foldl (fun acc xr => vadd acc (vscale xr.1 xr.2)) (bias w) (zip x (kernel w)).

Definition leaky_relu (alpha x : R) : R :=
  if Rle_dec 0 x then x else alpha * x.

(** Inference: [Dropout] passes its input through. *)
Definition layer_forward (l : layer) (x : vec) : option vec :=
  match l with
  | Dense _ act w =>
      if Nat.eqb (length x) (length (kernel w))
      then Some (map (apply_activation act) (affine w x))
      else None
  | LeakyReLU alpha => Some (map (leaky_relu alpha) x)
  | Dropout _ => Some x
  end.

Fixpoint forward (net : sequential) (x : vec) : option vec :=
  match net with
  | [] => Some x
  | l :: rest =>
      match layer_forward l x with
      | Some y => forward rest y
      | None => None
      end
  end.

(** [model.predict(batch)]. *)
Fixpoint predict (net : sequential) (b : batch) : option batch :=
  match b with
  | [] => Some []
  | x :: rest =>
      match forward net x, predict net rest with
      | Some y, Some ys => Some (y :: ys)
      | _, _ => None
      end
  end.

(** The kernel and bias of a layer built with [Dense(units, input_dim=...)]. *)
Definition dense_shape (input_dim units : nat) (w : dense_weights) : Prop :=
  length (kernel w) = input_dim /\
  Forall (fun row => length row = units) (kernel w) /\
  length (bias w) = units.

(** [get_discriminator_1D] and [get_discriminator_MLP]; the arguments are
    the current values of the layers' weights.  [LeakyReLU()] has Keras'
    default slope 0.3. *)
Definition get_discriminator_1D (d1 d2 : dense_weights) : sequential :=
  [ Dense 32 Linear d1; LeakyReLU (3 / 10); Dense 1 Sigmoid d2 ].

Definition get_discriminator_MLP (d1 d2 d3 d4 : dense_weights) : sequential :=
  [ Dense 1024 Linear d1; LeakyReLU (2 / 10); Dropout (3 / 10);
    Dense 512 Linear d2; LeakyReLU (2 / 10); Dropout (3 / 10);
    Dense 256 Linear d3; LeakyReLU (2 / 10);
    Dense 1 Sigmoid d4 ].

Definition get_generator_1D (d1 d2 : dense_weights) : sequential :=
  [ Dense 32 Linear d1; LeakyReLU (3 / 10); Dense 1 Linear d2 ].

(** All-zero weights of a given shape. *)
Definition zero_weights (input_dim units : nat) : dense_weights :=
  {| kernel := replicate input_dim (replicate units 0);
     bias := replicate units 0 |}.

Definition probability (p : R) : Prop := 0 <= p <= 1.

(** A batch of discriminator outputs: one probability per sample. *)
Definition probability_batch (out : batch) : Prop :=
  Forall (fun y => exists p, y = [p] /\ probability p) out.

End Keras.

(** ** The loss: binary cross-entropy

    Keras clips the prediction to [[epsilon, 1 - epsilon]] before taking
    logarithms, and [train_on_batch] returns the mean over the batch. *)

Module Loss.

Definition epsilon : R := / 10000000.

Definition clip (x lo hi : R) : R := Rmin (Rmax x lo) hi.

Definition binary_crossentropy (y p : R) : R :=
  let q := clip p epsilon (1 - epsilon) in
  - (y * ln q + (1 - y) * ln (1 - q)).

Definition sum (l : list R) : R := foldr Rplus 0 l.

Definition mean (l : list R) : R := sum l / INR (length l).

Definition batch_loss (Y P : list R) : R :=
  mean (zip_with binary_crossentropy Y P).

End Loss.

(** ** The adversarial trainer *)

Module Trainer.

(** The two networks that own weights, and the three compiled Keras
    models; [gan] is [discriminator] applied to [generator] and shares the
    weights of both. *)
Inductive net := Gen | Dis.
Inductive model := generator | discriminator | gan.

#[global] Instance net_eq_dec : EqDecision net.
Proof. solve_decision. Defined.

#[global] Instance model_eq_dec : EqDecision model.
Proof. solve_decision. Defined.

Definition nets_of (m : model) : list net :=
  match m with
  | generator => [Gen]
  | discriminator => [Dis]
  | gan => [Gen; Dis]
  end.

(** What a run leaves behind for inspection: the batches drawn from
    NumPy's generator and the calls of [train_on_batch], the latter with
    the networks whose weights the call updated. *)
Inductive draw_kind := Latent | Real.

Inductive event :=
| EvDraw (k : draw_kind) (b : batch)
| EvTrain (m : model) (X : batch) (Y : vec) (updated : list net) (loss : R).

Inductive exn := NameError | ValueError.

(** The state of Python's [random] module. *)
Inductive py_random := PyUnseeded | PySeeded (seed : Z).

(** What lies behind the API of NumPy and Keras.  [np_normal loc scale n d]
    is [np.random.normal(loc, scale, size=[n, d])] and [np_randint lo hi n]
    is [np.random.randint(lo, hi, size=n)], both on NumPy's global
    generator.  [forward] is the inference pass of a network on one sample,
    [train_output] the prediction of a model on one sample while training
    (dropout active), [optimizer_step] the new weights Adam proposes for
    every network.  [collects_at_compile] tells whether the weights a model
    trains are fixed when it is compiled or looked up from the [trainable]
    flags at each call. *)
Class Backend := {
  NpState : Type;
  np_normal : R -> R -> nat -> nat -> NpState -> batch * NpState;
  np_normal_rows : forall loc scale n d s,
    length (np_normal loc scale n d s).1 = n;
  np_randint : nat -> nat -> nat -> NpState -> list nat * NpState;
  np_randint_size : forall lo hi n s,
    length (np_randint lo hi n s).1 = n;
  np_randint_range : forall lo hi n s,
    (lo < hi)%nat ->
    Forall (fun i => (lo <= i < hi)%nat) (np_randint lo hi n s).1;
  Weights : Type;
  KState : Type;
  forward : net -> Weights -> vec -> vec;
  train_output : model -> KState -> (net -> Weights) -> vec -> R;
  optimizer_step :
    model -> KState -> (net -> Weights) -> batch -> vec ->
    (net -> Weights) * KState;
  collects_at_compile : bool
}.

Section WithBackend.
Context `{Backend}.

Record trainer := {
  weights : net -> Weights;
  trainable : net -> bool;
  collected : model -> list net;
  kstate : KState;
  np_rng : NpState;
  py_rng : py_random;
  d_loss : option R;
  g_loss : option R;
  d_losses : list R;
  g_losses : list R;
  trace : list event
}.

Inductive result (A : Type) :=
| Ok (a : A) (s : trainer)
| Raise (e : exn).
Arguments Ok {A} a s.
Arguments Raise {A} e.

Definition M (A : Type) : Type := trainer -> result A.

Definition ret {A} (a : A) : M A := fun s => Ok a s.

Definition bind {A B} (c : M A) (k : A -> M B) : M B :=
  fun s => match c s with
           | Ok a s' => k a s'
           | Raise e => Raise e
           end.

Definition raise {A} (e : exn) : M A := fun _ => Raise e.

End WithBackend.

Arguments Ok {_ A} a s.
Arguments Raise {_ A} e.

Declare Scope trainer_scope.
Delimit Scope trainer_scope with trainer.
Notation "'let*' x := c 'in' k" := (bind c (fun x => k))
  (at level 10, x name, c at level 100, k at level 200,
   format "'[v' 'let*'  x  :=  c  'in' '/' k ']'") : trainer_scope.
Open Scope trainer_scope.

Section Notebook.
Context `{Backend}.

(** *** The primitive operations *)

(** [random.seed(seed)]. *)
Definition random_seed (seed : Z) : M unit := fun s =>
  Ok tt {| weights := weights s; trainable := trainable s;
           collected := collected s; kstate := kstate s;
           np_rng := np_rng s; py_rng := PySeeded seed;
           d_loss := d_loss s; g_loss := g_loss s;
           d_losses := d_losses s; g_losses := g_losses s;
           trace := trace s |}.

Definition set_np_rng (r : NpState) (ev : list event) (s : trainer) : trainer :=
  {| weights := weights s; trainable := trainable s;
     collected := collected s; kstate := kstate s;
     np_rng := r; py_rng := py_rng s;
     d_loss := d_loss s; g_loss := g_loss s;
     d_losses := d_losses s; g_losses := g_losses s;
     trace := trace s ++ ev |}.

(** [np.random.normal(loc, scale, size=[n, d])]. *)
Definition np_random_normal (k : draw_kind) (loc scale : R) (n d : nat)
  : M batch := fun s =>
  let r := np_normal loc scale n d (np_rng s) in
  Ok r.1 (set_np_rng r.2 [EvDraw k r.1] s).

(** [X_train[np.random.randint(0, X_train.shape[0], size=n)]]: the rows at
    [n] random indices. *)
Definition np_random_rows (X_train : batch) (n : nat) : M batch := fun s =>
  let r := np_randint 0 (length X_train) n (np_rng s) in
  let rows := map (fun i => X_train !!! i) r.1 in
  Ok rows (set_np_rng r.2 [EvDraw Real rows] s).

(** [model.predict(b)] for a network. *)
Definition predict (n : net) (b : batch) : M batch := fun s =>
  Ok (map (forward n (weights s n)) b) s.

(** [discriminator.trainable = b] and [model.compile(...)]. *)
Definition set_trainable (n : net) (b : bool) : M unit := fun s =>
  Ok tt {| weights := weights s;
           trainable := fun n' => if decide (n' = n) then b else trainable s n';
           collected := collected s; kstate := kstate s;
           np_rng := np_rng s; py_rng := py_rng s;
           d_loss := d_loss s; g_loss := g_loss s;
           d_losses := d_losses s; g_losses := g_losses s;
           trace := trace s |}.

Definition compile (m : model) : M unit := fun s =>
  Ok tt {| weights := weights s; trainable := trainable s;
           collected := fun m' => if decide (m' = m)
                                  then filter (fun n => trainable s n = true) (nets_of m)
                                  else collected s m';
           kstate := kstate s;
           np_rng := np_rng s; py_rng := py_rng s;
           d_loss := d_loss s; g_loss := g_loss s;
           d_losses := d_losses s; g_losses := g_losses s;
           trace := trace s |}.

(** The networks whose weights a call of [m.train_on_batch] updates. *)
Definition trained_nets (m : model) (s : trainer) : list net :=
  if collects_at_compile
  then collected s m
  else filter (fun n => trainable s n = true) (nets_of m).

(** [m.train_on_batch(X, Y)]: returns the mean binary cross-entropy of the
    model's predictions on [X] against [Y], and replaces the weights of the
    trained networks by what the optimiser proposes. *)
Definition train_on_batch (m : model) (X : batch) (Y : vec) : M R := fun s =>
  let loss := Loss.batch_loss Y (map (train_output m (kstate s) (weights s)) X) in
  let step := optimizer_step m (kstate s) (weights s) X Y in
  let upd := trained_nets m s in
  Ok loss
     {| weights := fun n => if decide (n ∈ upd) then step.1 n else weights s n;
        trainable := trainable s; collected := collected s;
        kstate := step.2;
        np_rng := np_rng s; py_rng := py_rng s;
        d_loss := d_loss s; g_loss := g_loss s;
        d_losses := d_losses s; g_losses := g_losses s;
        trace := trace s ++ [EvTrain m X Y upd loss] |}.

(** The Python variables [d_loss], [g_loss] and the two histories. *)
Definition set_d_loss (l : R) : M unit := fun s =>
  Ok tt {| weights := weights s; trainable := trainable s;
           collected := collected s; kstate := kstate s;
           np_rng := np_rng s; py_rng := py_rng s;
           d_loss := Some l; g_loss := g_loss s;
           d_losses := d_losses s; g_losses := g_losses s;
           trace := trace s |}.

Definition set_g_loss (l : R) : M unit := fun s =>
  Ok tt {| weights := weights s; trainable := trainable s;
           collected := collected s; kstate := kstate s;
           np_rng := np_rng s; py_rng := py_rng s;
           d_loss := d_loss s; g_loss := Some l;
           d_losses := d_losses s; g_losses := g_losses s;
           trace := trace s |}.

Definition set_losses (d g : list R) (s : trainer) : trainer :=
  {| weights := weights s; trainable := trainable s;
     collected := collected s; kstate := kstate s;
     np_rng := np_rng s; py_rng := py_rng s;
     d_loss := d_loss s; g_loss := g_loss s;
     d_losses := d; g_losses := g;
     trace := trace s |}.

(** [d_losses.append(d_loss)]: reading a variable that was never assigned
    raises [NameError]. *)
Definition d_losses_append_d_loss : M unit := fun s =>
  match d_loss s with
  | Some l => Ok tt (set_losses (d_losses s ++ [l]) (g_losses s) s)
  | None => Raise NameError
  end.

Definition g_losses_append_g_loss : M unit := fun s =>
  match g_loss s with
  | Some l => Ok tt (set_losses (d_losses s) (g_losses s ++ [l]) s)
  | None => Raise NameError
  end.

(** [d_losses = []] and [g_losses = []]. *)
Definition reset_losses : M unit := fun s => Ok tt (set_losses [] [] s).

(** [for x in xs: body(x)]. *)
Fixpoint for_each {A} (xs : list A) (body : A -> M unit) : M unit :=
  match xs with
  | [] => ret tt
  | x :: rest => let* _ := body x in for_each rest body
  end.

(** [for i in range(n): body(i)]. *)
Definition for_range (n : nat) (body : nat -> M unit) : M unit :=
  for_each (seq 0 n) body.

(** *** Import cell and model cell

    The networks are created with [trainable] set and not yet compiled;
    that state is [boot] below.  The model cell is the same for the 1D
    problem and for the MNIST perceptrons. *)

Definition import_cell : M unit := random_seed 0.

Definition model_cell : M unit :=
  let* _ := compile discriminator in
  let* _ := compile generator in
  let* _ := set_trainable Dis false in
  compile gan.

(** *** Training loop of the 1D problem *)

Definition real_mean : R := 8.
Definition n_samples : nat := 100.
Definition epochs_1D : nat := Z.to_nat 10000.

Definition discriminator_update_1D (latent_dim : nat) : M unit :=
  let* noise := np_random_normal Latent 0 1 n_samples latent_dim in
  let* real := np_random_normal Real real_mean 1 n_samples latent_dim in
  let* fake := predict Gen noise in
  let X := np_concatenate real fake in
  let Y_dis := np_zeros (2 * n_samples) in
  let Y_dis := assign_prefix n_samples 1 Y_dis in
  let* _ := set_trainable Dis true in
  let* l := train_on_batch discriminator X Y_dis in
  let* _ := set_d_loss l in
  d_losses_append_d_loss.

Definition generator_update_1D (latent_dim : nat) : M unit :=
  let* _ := set_trainable Dis false in
  let* noise := np_random_normal Latent 0 1 n_samples latent_dim in
  let Y_gen := np_ones n_samples in
  let* l := train_on_batch gan noise Y_gen in
  let* _ := set_g_loss l in
  g_losses_append_g_loss.

(** [np.arange(-20, 20, 0.5).reshape((80, 1))]. *)
Definition plot_grid : batch := map (fun i => [-20 + INR i / 2]) (seq 0 80).

(** The periodic plot: it draws from the generator and predicts, and has
    no other effect on the interpreter state. *)
Definition plot_1D (latent_dim : nat) : M unit :=
  let* noise := np_random_normal Latent 0 1 n_samples latent_dim in
  let* fake := predict Gen noise in
  let* real := np_random_normal Real real_mean 1 n_samples latent_dim in
  let* pred := predict Dis plot_grid in
  ret tt.

Definition step_1D (latent_dim : nat) (e : nat) : M unit :=
  let* _ := discriminator_update_1D latent_dim in
  let* _ := generator_update_1D latent_dim in
  if Nat.eqb (e mod 100) 0 then plot_1D latent_dim else ret tt.

Definition training_loop_1D (latent_dim epochs : nat) : M unit :=
  for_range epochs (step_1D latent_dim).

Definition training_cell_1D (latent_dim : nat) : M unit :=
  let* _ := reset_losses in
  training_loop_1D latent_dim epochs_1D.

(** *** Training loop of the MNIST perceptrons *)

Definition epochs_MNIST : nat := 200.
Definition batch_size : nat := 128.

(** [flat.reshape(count, width)] for entries in row-major order. *)
Fixpoint reshape_rows (width count : nat) (flat : vec) : batch :=
  match count with
  | O => []
  | S k => take width flat :: reshape_rows width k (drop width flat)
  end.

(** [train_set_images.reshape(50000, 784)]; the images are given as the
    list of their pixel rows, which is the array in row-major order.
    NumPy needs the array to hold 50000 * 784 entries, however they are
    arranged, and keeps their order; an array of another size cannot be
    reshaped. *)
Definition reshape_50000_784 (train_set_images : batch) : M batch :=
  let flat := concat train_set_images in
  if (Z.of_nat (length flat) =? 50000 * 784)%Z
  then ret (reshape_rows 784 (Z.to_nat 50000) flat)
  else raise ValueError.

(** [(images - 0.5)/0.5]. *)
Definition rescale (images : batch) : batch :=
  map (map (fun x => (x - 5 / 10) / (5 / 10))) images.

Definition discriminator_update_MNIST (latent_dim : nat) (X_train : batch)
  : M unit :=
  let* noise := np_random_normal Latent 0 1 batch_size latent_dim in
  let* image_batch := np_random_rows X_train batch_size in
  let* generated_images := predict Gen noise in
  let X := np_concatenate image_batch generated_images in
  let y_dis := np_zeros (2 * batch_size) in
  let y_dis := assign_prefix batch_size (9 / 10) y_dis in
  let* _ := set_trainable Dis true in
  let* l := train_on_batch discriminator X y_dis in
  set_d_loss l.

Definition generator_update_MNIST (latent_dim : nat) : M unit :=
  let* noise := np_random_normal Latent 0 1 batch_size latent_dim in
  let y_gen := np_ones batch_size in
  let* _ := set_trainable Dis false in
  let* l := train_on_batch gan noise y_gen in
  set_g_loss l.

Definition step_MNIST (latent_dim : nat) (X_train : batch) : M unit :=
  let* _ := discriminator_update_MNIST latent_dim X_train in
  generator_update_MNIST latent_dim.

(** [plotGeneratedImages(epoch)] with its default of 100 examples;
    [saveModels] writes files and leaves the interpreter state alone. *)
Definition plotGeneratedImages (latent_dim : nat) : M unit :=
  let* noise := np_random_normal Latent 0 1 100 latent_dim in
  let* generatedImages := predict Gen noise in
  ret tt.

Definition epoch_MNIST (latent_dim : nat) (X_train : batch) (batch_count : nat)
  (e : nat) : M unit :=
  let* _ := for_range batch_count (fun _ => step_MNIST latent_dim X_train) in
  let* _ := d_losses_append_d_loss in
  let* _ := g_losses_append_g_loss in
  if Nat.eqb (e mod 5) 0
  then let* noise := np_random_normal Latent 0 1 100 latent_dim in
       plotGeneratedImages latent_dim
  else ret tt.

Definition training_loop_MNIST (latent_dim : nat) (X_train : batch)
  (batch_count epochs : nat) : M unit :=
  for_range epochs (epoch_MNIST latent_dim X_train batch_count).

Definition training_cell_MNIST (latent_dim : nat) (train_set_images : batch)
  : M unit :=
  let* _ := reset_losses in
  let* images := reshape_50000_784 train_set_images in
  let X_train := rescale images in
  let batch_count := (length X_train / batch_size)%nat in
  training_loop_MNIST latent_dim X_train batch_count epochs_MNIST.

(** *** A run of a notebook

    A fresh interpreter: the networks have their initial weights, nothing
    is compiled, NumPy's generator holds the state it took from the
    operating system, Python's [random] is not seeded. *)
Definition boot (w0 : net -> Weights) (k0 : KState) (entropy : NpState)
  : trainer :=
  {| weights := w0; trainable := fun _ => true; collected := fun _ => [];
     kstate := k0; np_rng := entropy; py_rng := PyUnseeded;
     d_loss := None; g_loss := None; d_losses := []; g_losses := [];
     trace := [] |}.

Definition notebook_1D (seed : Z) (epochs : nat) : M unit :=
  let* _ := random_seed seed in
  let* _ := model_cell in
  let* _ := reset_losses in
  training_loop_1D 1 epochs.

Definition gan_practical_1D : M unit :=
  let* _ := import_cell in
  let* _ := model_cell in
  training_cell_1D 1.

Definition gan_practical_MNIST (train_set_images : batch) : M unit :=
  let* _ := import_cell in
  let* _ := model_cell in
  training_cell_MNIST 10 train_set_images.

(** The state a computation ends in, when it does not raise. *)
Definition final {A} (r : result A) : option trainer :=
  match r with
  | Ok _ s => Some s
  | Raise _ => None
  end.

End Notebook.

(** *** Reading a trace *)

(** The networks updated, in the order of the updates. *)
Definition updates (tr : list event) : list net :=
  flat_map (fun ev => match ev with
                      | EvTrain _ _ _ upd _ => upd
                      | EvDraw _ _ => []
                      end) tr.

(** The batches drawn, in the order of the draws. *)
Definition draws (tr : list event) : list (draw_kind * batch) :=
  flat_map (fun ev => match ev with
                      | EvDraw k b => [(k, b)]
                      | EvTrain _ _ _ _ _ => []
                      end) tr.

(** The calls of [m.train_on_batch], as (X, Y, loss). *)
Definition train_calls (m : model) (tr : list event)
  : list (batch * vec * R) :=
  flat_map (fun ev => match ev with
                      | EvTrain m' X Y _ l =>
                          if decide (m' = m) then [(X, Y, l)] else []
                      | EvDraw _ _ => []
                      end) tr.

(** The losses the calls of [m.train_on_batch] returned, in the order of
    the calls. *)
Definition returned_losses (m : model) (tr : list event) : list R :=
  map snd (train_calls m tr).

(** The states in which the model cell has run: both models train what
    the cell compiled them for. *)
Definition compiled `{Backend} (s : trainer) : Prop :=
  collected s discriminator = [Dis] /\ collected s gan = [Gen] /\
  trainable s Gen = true.

(** What a sub-step leaves alone: the compiled models, the generator's
    [trainable] flag and Python's [random]. *)
Record frame `{Backend} (s s' : trainer) : Prop := {
  frame_collected : collected s' = collected s;
  frame_gen_flag : trainable s' Gen = trainable s Gen;
  frame_py_rng : py_rng s' = py_rng s
}.

(** Summary of [k] trainer steps that took [s] to [s'] and added [evs] to
    the trace. *)
Record run_summary `{Backend} (k : nat) (s s' : trainer) (evs : list event)
  : Prop := {
  sum_trace : trace s' = trace s ++ evs;
  sum_frame : frame s s';
  sum_updates : updates evs = concat (replicate k [Dis; Gen]);
  sum_d_calls : length (train_calls discriminator evs) = k;
  sum_g_calls : length (train_calls gan evs) = k
}.

(** The labels the trainer hands to the discriminator: [real_label] for
    the first [n] samples, 0 for the other [n]. *)
Definition discriminator_labels (n : nat) (real_label : R) : vec :=
  replicate n real_label ++ replicate n 0.

(** Both loss variables hold a value, and neither value is negative. *)
Definition loss_variables_set `{Backend} (s : trainer) : Prop :=
  exists l_d l_g, d_loss s = Some l_d /\ g_loss s = Some l_g /\
                  0 <= l_d /\ 0 <= l_g.

(** The specification's wording of the loss histories: a trainer step
    appends one value to each history, and neither value is negative. *)
Definition appends_two_losses `{Backend} (step : M unit) : Prop :=
  forall s s', compiled s -> step s = Ok tt s' ->
    exists l_d l_g,
      d_losses s' = d_losses s ++ [l_d] /\
      g_losses s' = g_losses s ++ [l_g] /\
      0 <= l_d /\ 0 <= l_g.

(** The state after the import cell and the model cell. *)
Definition started `{Backend} (s0 : trainer) : trainer :=
  match (let* _ := import_cell in model_cell) s0 with
  | Ok _ s => s
  | Raise _ => s0
  end.

(** The same interpreter state with another state of Python's [random],
    and the computations that neither read nor write that state. *)
Definition with_py_rng `{Backend} (p : py_random) (s : trainer) : trainer :=
  {| weights := weights s; trainable := trainable s;
     collected := collected s; kstate := kstate s;
     np_rng := np_rng s; py_rng := p;
     d_loss := d_loss s; g_loss := g_loss s;
     d_losses := d_losses s; g_losses := g_losses s;
     trace := trace s |}.

Definition ignores_py_rng `{Backend} {A} (c : M A) : Prop :=
  forall p s,
    c (with_py_rng p s)
    = match c s with
      | Ok a s' => Ok a (with_py_rng p s')
      | Raise e => Raise e
      end.

(** *** A small backend to run the notebooks on

    NumPy's generator is a counter, every entry of the [k]-th draw is
    [loc + scale * k]; the weights of a network are one number, which every
    optimiser step increases by one. *)
#[refine] Instance toy : Backend := {|
  NpState := nat;
  np_normal := fun loc scale n d s =>
    (replicate n (replicate d (loc + scale * INR s)), S s);
  np_randint := fun lo hi n s => (replicate n lo, S s);
  Weights := R;
  KState := unit;
  forward := fun _ w x => map (Rplus w) x;
  train_output := fun _ _ _ _ => 1 / 2;
  optimizer_step := fun _ _ w _ _ => (fun n => w n + 1, tt);
  collects_at_compile := true
|}.
Proof.
  - intros; apply length_replicate.
  - intros; apply length_replicate.
  - intros lo hi n s Hlt; apply Forall_replicate; lia.
Defined.

(** A fresh interpreter on the small backend, and a blank dataset of the
    size of MNIST's training set. *)
Definition toy_boot (entropy : nat) : @trainer toy :=
  @boot toy (fun _ => 0) tt entropy.

Definition blank_images : batch := replicate (Z.to_nat 50000) (replicate 784 0).



End Trainer.

(** ** The dataset loaders

    A pickle file is modelled by the Python value it unpickles to: arrays
    of floats or integers, and tuples.  An array is its shape and its
    entries in row-major order.  Opening and decompressing the file is left
    out; a loader fails ([None]) where Python raises on the value. *)

Module Loader.

Record ndarray (A : Type) := { shape : list nat; data : list A }.
Arguments shape {A} _.
Arguments data {A} _.

#[warnings="-register-all"] Inductive pyval :=
| PyArrayF (a : ndarray R)
| PyArrayI (a : ndarray Z)
| PyTuple (items : list pyval).

(** Number of entries of an array of a given shape. *)
Definition size (sh : list nat) : nat := foldr Nat.mul 1%nat sh.

Definition well_formed {A} (a : ndarray A) : Prop :=
  length (data a) = size (shape a).

(** [len(v)]. *)
Definition len (v : pyval) : option nat :=
  match v with
  | PyArrayF a => head (shape a)
  | PyArrayI a => head (shape a)
  | PyTuple items => Some (length items)
  end.

(** [v[i]] on a tuple. *)
Definition item (v : pyval) (i : nat) : option pyval :=
  match v with
  | PyTuple items => items !! i
  | _ => None
  end.

(** [np.resize(a, new_shape)]: the entries of [a], repeated from the start
    as often as needed to fill the new shape; zeros when [a] is empty. *)
Definition resize_data {A} (zero : A) (d : list A) (n : nat) : list A :=
  match d with
  | [] => replicate n zero
  | x :: _ => map (fun i => nth (i mod length d) d x) (seq 0 n)
  end.

Definition np_resize (v : pyval) (new_shape : list nat) : option pyval :=
  match v with
  | PyArrayF a =>
      Some (PyArrayF {| shape := new_shape;
                        data := resize_data 0 (data a) (size new_shape) |})
  | PyArrayI a =>
      Some (PyArrayI {| shape := new_shape;
                        data := resize_data 0%Z (data a) (size new_shape) |})
  | PyTuple _ => None
  end.

(** [np.pad(a, ((0,0),(2,2),(2,2),(0,0)), 'constant', constant_values=0)]
    on an array with four axes: two rows and two columns of zeros on each
    side of every image. *)
Definition pad_data {A} (zero : A) (n h w c : nat) (d : list A) : list A :=
  flat_map (fun i =>
    flat_map (fun r =>
      flat_map (fun q =>
        map (fun k =>
          if (2 <=? r)%nat && (r <? h + 2)%nat && (2 <=? q)%nat && (q <? w + 2)%nat
          then nth (((i * h + (r - 2)) * w + (q - 2)) * c + k) d zero
          else zero) (seq 0 c)) (seq 0 (w + 4))) (seq 0 (h + 4))) (seq 0 n).

Definition np_pad (v : pyval) : option pyval :=
  match v with
  | PyArrayF {| shape := [n; h; w; c]; data := d |} =>
      Some (PyArrayF {| shape := [n; h + 4; w + 4; c]%nat;
                        data := pad_data 0 n h w c d |})
  | PyArrayI {| shape := [n; h; w; c]; data := d |} =>
      Some (PyArrayI {| shape := [n; h + 4; w + 4; c]%nat;
                        data := pad_data 0%Z n h w c d |})
  | _ => None
  end.

(** [train_set, valid_set, test_set = pickle.load(f)]. *)
Definition unpack3 (v : pyval) : option (pyval * pyval * pyval) :=
  match v with
  | PyTuple [a; b; c] => Some (a, b, c)
  | _ => None
  end.

(** One split: [labels = s[1]] and
    [images = np.resize(s[0], (len(labels), 28, 28, 1))]. *)
Definition split_28 (s : pyval) : option (pyval * pyval) :=
  labels ← item s 1;
  raw ← item s 0;
  n ← len labels;
  images ← np_resize raw [n; 28; 28; 1]%nat;
  Some (labels, images).

Module Gan.

(** [loadMNIST] of the GAN notebook. *)
Definition loadMNIST (pickled : pyval) : option pyval :=
  '(train_set, valid_set, test_set) ← unpack3 pickled;
  '(train_set_labels, train_set_images) ← split_28 train_set;
  '(valid_set_labels, valid_set_images) ← split_28 valid_set;
  '(test_set_labels, test_set_images) ← split_28 test_set;
  Some (PyTuple [train_set_labels; train_set_images;
                 valid_set_labels; valid_set_images;
                 test_set_labels; test_set_images]).

(** [loadPatchCamelyon]: whatever the file holds. *)
Definition loadPatchCamelyon (pickled : pyval) : option pyval :=
  Some pickled.

End Gan.

Module LeNet.

Definition split_32 (s : pyval) : option (pyval * pyval) :=
  '(labels, images) ← split_28 s;
  images ← np_pad images;
  Some (labels, images).

(** [loadMNIST] of the classifier notebook: the images are padded to 32 by
    32 as well. *)
Definition loadMNIST (pickled : pyval) : option pyval :=
  '(train_set, valid_set, test_set) ← unpack3 pickled;
  '(train_set_labels, train_set_images) ← split_32 train_set;
  '(valid_set_labels, valid_set_images) ← split_32 valid_set;
  '(test_set_labels, test_set_images) ← split_32 test_set;
  Some (PyTuple [train_set_labels; train_set_images;
                 valid_set_labels; valid_set_images;
                 test_set_labels; test_set_images]).

End LeNet.

(** A split as the MNIST file holds it: [n] images of 784 pixels and [n]
    labels. *)
Definition mnist_split (s : pyval) (labels : list Z) : Prop :=
  exists pixels : list R,
    length pixels = (length labels * 784)%nat /\
    s = PyTuple [ PyArrayF {| shape := [length labels; 784%nat]; data := pixels |};
                  PyArrayI {| shape := [length labels]; data := labels |} ].

(** A one-dimensional array of labels. *)
Definition labels_array (labels : list Z) : pyval :=
  PyArrayI {| shape := [length labels]; data := labels |}.

Definition digit (l : Z) : Prop := (0 <= l <= 9)%Z.

(** An array of [n] images of [h] by [w] pixels with one channel. *)
Definition image_array (n h w : nat) (v : pyval) : Prop :=
  exists a, v = PyArrayF a /\ shape a = [n; h; w; 1%nat] /\ well_formed a.

(** The contract as the specification words it: the loader returns the
    pair (images, labels), the images of one fixed shape and the labels
    digits. *)
Definition pair_contract (result : pyval) : Prop :=
  exists images labels n h w,
    result = PyTuple [images; PyArrayI labels] /\
    image_array n h w images /\
    Forall digit (data labels).

(** A small file: one image and one label in each split. *)
Definition tiny_split (l : Z) : pyval :=
  PyTuple [ PyArrayF {| shape := [1; 784]%nat; data := replicate 784 0 |};
            PyArrayI {| shape := [1%nat]; data := [l] |} ].

Definition tiny_pickle : pyval :=
  PyTuple [tiny_split 5; tiny_split 0; tiny_split 4].

End Loader.

(** ** Further parts of the notebooks *)

(** *** Reading the one-hot encoding *)

Module OneHotReading.

(** [out[:, n]]. *)
Definition column (n : nat) (out : list (list Z)) : list Z :=
  map (fun row => nth n row 0%Z) out.

(** How many labels are the digit [n]. *)
Definition count_label (n : nat) (labels : list Z) : nat :=
  length (filter (fun l => l = Z.of_nat n) labels).

End OneHotReading.

(** *** The generators and the composed model *)

Module Networks.
Import Keras.

Definition get_generator_MLP (d1 d2 d3 d4 : dense_weights) : sequential :=
  [ Dense 256 Linear d1; LeakyReLU (2 / 10);
    Dense 512 Linear d2; LeakyReLU (2 / 10);
    Dense 1024 Linear d3; LeakyReLU (2 / 10);
    Dense 784 Tanh d4 ].

(** [gan = Model(inputs=z, outputs=discriminator(generator(z)))], on one
    latent sample. *)
Definition gan_forward (generator discriminator : sequential) (z : vec)
  : option vec :=
  match forward generator z with
  | Some G_z => forward discriminator G_z
  | None => None
  end.

End Networks.

(** *** The files [saveModels] writes

<<
def saveModels(epoch):
    generator.save('gan_generator_epoch_{}.h5'.format(epoch))
    discriminator.save('gan_discriminator_epoch_{}.h5'.format(epoch))
>> *)

Module Checkpoints.

Definition generator_file (epoch : nat) : string :=
  "gan_generator_epoch_" +:+ pretty epoch +:+ ".h5".

Definition discriminator_file (epoch : nat) : string :=
  "gan_discriminator_epoch_" +:+ pretty epoch +:+ ".h5".

Definition saveModels (epoch : nat) : list string :=
  [generator_file epoch; discriminator_file epoch].

(** The files a training loop of [epochs] epochs writes: it calls
    [saveModels(e)] when [e % 5 == 0]. *)
Definition files_written (epochs : nat) : list string :=
  flat_map (fun e => if Nat.eqb (e mod 5) 0 then saveModels e else [])
           (seq 0 epochs).

End Checkpoints.

(** *** Entries of an array with four axes *)

Module LoaderReading.
Import Loader.

(** [a[i, r, q, k]] for an array of shape (n, h, w, c). *)
Definition entry4 {A} (zero : A) (h w c : nat) (d : list A) (i r q k : nat) : A :=
  nth (((i * h + r) * w + q) * c + k) d zero.

(** A split of the MNIST file with the given pixels and labels. *)
Definition file_split (pixels : list R) (labels : list Z) : pyval :=
  PyTuple [ PyArrayF {| shape := [length labels; 784%nat]; data := pixels |};
            PyArrayI {| shape := [length labels]; data := labels |} ].

(** The images of a split as the GAN notebook's loader returns them. *)
Definition images_28 (pixels : list R) (n : nat) : pyval :=
  PyArrayF {| shape := [n; 28; 28; 1]%nat; data := pixels |}.

(** Image data [b] is image data [p] of [n] images of 28 by 28 with a
    frame of two zeros around each image. *)
Definition padded_from (p b : list R) (n : nat) : Prop :=
  forall i r q, (i < n)%nat -> (r < 32)%nat -> (q < 32)%nat ->
    entry4 0 32 32 1 b i r q 0
    = if (2 <=? r)%nat && (r <? 30)%nat && (2 <=? q)%nat && (q <? 30)%nat
      then entry4 0 28 28 1 p i (r - 2) (q - 2) 0
      else 0.

End LoaderReading.

(** *** Training loop of the convolutional MNIST networks

    The cell differs from that of the perceptrons in the shape it gives
    the images, (50000, 1, 28, 28), in the label of the real samples, 1,
    and in the periodic plot, which draws one latent batch.  A sample is
    held as the row of its 784 pixels, which both shapes store in the same
    order. *)

Module TrainerCNN.
Import Trainer.

Section NotebookCNN.
Context `{Backend}.

Definition discriminator_update_CNN (latent_dim : nat) (X_train : batch)
  : M unit :=
  let* noise := np_random_normal Latent 0 1 batch_size latent_dim in
  let* image_batch := np_random_rows X_train batch_size in
  let* generated_images := predict Gen noise in
  let X := np_concatenate image_batch generated_images in
  let y_dis := np_zeros (2 * batch_size) in
  let y_dis := assign_prefix batch_size 1 y_dis in
  let* _ := set_trainable Dis true in
  let* l := train_on_batch discriminator X y_dis in
  set_d_loss l.

Definition generator_update_CNN (latent_dim : nat) : M unit :=
  let* noise := np_random_normal Latent 0 1 batch_size latent_dim in
  let y_gen := np_ones batch_size in
  let* _ := set_trainable Dis false in
  let* l := train_on_batch gan noise y_gen in
  set_g_loss l.

Definition step_CNN (latent_dim : nat) (X_train : batch) : M unit :=
  let* _ := discriminator_update_CNN latent_dim X_train in
  generator_update_CNN latent_dim.

Definition epoch_CNN (latent_dim : nat) (X_train : batch) (batch_count : nat)
  (e : nat) : M unit :=
  let* _ := for_range batch_count (fun _ => step_CNN latent_dim X_train) in
  let* _ := d_losses_append_d_loss in
  let* _ := g_losses_append_g_loss in
  if Nat.eqb (e mod 5) 0
  then let* noise := np_random_normal Latent 0 1 100 latent_dim in
       let* generatedImages := predict Gen noise in
       ret tt
  else ret tt.

Definition training_cell_CNN (latent_dim : nat) (train_set_images : batch)
  : M unit :=
  let* _ := reset_losses in
  let* images := reshape_50000_784 train_set_images in
  let X_train := rescale images in
  let batch_count := (length X_train / batch_size)%nat in
  for_range epochs_MNIST (epoch_CNN latent_dim X_train batch_count).

(** NumPy's generator after the draws of one step of the 1D loop, and
    after the draws of its periodic plot. *)
Definition rng_after_step_1D (latent_dim : nat) (r : NpState) : NpState :=
  let r1 := (np_normal 0 1 n_samples latent_dim r).2 in
  let r2 := (np_normal real_mean 1 n_samples latent_dim r1).2 in
  (np_normal 0 1 n_samples latent_dim r2).2.

Definition rng_after_plot_1D (latent_dim : nat) (r : NpState) : NpState :=
  let r1 := (np_normal 0 1 n_samples latent_dim r).2 in
  (np_normal real_mean 1 n_samples latent_dim r1).2.

End NotebookCNN.

(** The events of one trainer step of a loop over [X_train] that labels
    the real samples [real_label]: a latent batch and a batch of rows of
    [X_train] are drawn, the discriminator is trained on the rows followed
    by the generator's output on the latent batch (for the generator's
    weights [w] of that moment), then a new latent batch is drawn and the
    composed model is trained on it. *)
Definition step_events `{Backend} (real_label : R) (X_train : batch)
  (blk : list event) : Prop :=
  exists noise image_batch w l_d noise' l_g,
    blk = [EvDraw Latent noise; EvDraw Real image_batch;
           EvTrain discriminator
             (image_batch ++ map (forward Gen w) noise)
             (replicate batch_size real_label ++ replicate batch_size 0)
             [Dis] l_d;
           EvDraw Latent noise';
           EvTrain gan noise' (replicate batch_size 1) [Gen] l_g] /\
    length noise = batch_size /\ length image_batch = batch_size /\
    Forall (fun img => img ∈ X_train) image_batch /\
    length noise' = batch_size.

(** A trace made of [k] such steps, with latent draws (those of the
    periodic plot) between them. *)
Inductive steps_events `{Backend} (real_label : R) (X_train : batch)
  : nat -> list event -> Prop :=
| steps_nil : steps_events real_label X_train 0 []
| steps_step k blk evs :
    step_events real_label X_train blk ->
    steps_events real_label X_train k evs ->
    steps_events real_label X_train (S k) (blk ++ evs)
| steps_plot k b evs :
    steps_events real_label X_train k evs ->
    steps_events real_label X_train k (EvDraw Latent b :: evs).

End TrainerCNN.

(** * Properties *)

(** ** One-hot encoding *)

Section OneHotFacts.
Import OneHot.

Lemma assign_column_lookup n col out i row (b : bool) :
  out !! i = Some row -> col !! i = Some b ->
  assign_column n col out !! i = Some (<[n := Z.b2z b]> row).
Proof.
  intros Hrow Hb. unfold assign_column.
  rewrite lookup_zip_with, Hrow. simpl. rewrite Hb. reflexivity.
Qed.

Lemma labels_eq_lookup labels n i l :
  labels !! i = Some l ->
  labels_eq labels n !! i = Some (Z.eqb l (Z.of_nat n)).
Proof.
  intros Hl. unfold labels_eq. rewrite list_lookup_fmap, Hl. reflexivity.
Qed.

(** Row [i] of the array goes through the loop on its own. *)
Lemma loop_row labels ns : forall out i l row,
  labels !! i = Some l -> out !! i = Some row ->
  foldl (fun out n => assign_column n (labels_eq labels n) out) out ns !! i
  = Some (foldl (fun row n => <[n := Z.b2z (Z.eqb l (Z.of_nat n))]> row) row ns).
Proof.
  induction ns as [|n ns IH]; intros out i l row Hl Hrow; simpl.
  - exact Hrow.
  - apply IH; [exact Hl|].
    apply assign_column_lookup; [exact Hrow|].
    apply labels_eq_lookup, Hl.
Qed.

Lemma output_row labels i l :
  labels !! i = Some l ->
  train_set_labels_output labels !! i = Some (encode_row l).
Proof.
  intros Hl. unfold train_set_labels_output, encode_row.
  apply loop_row; [exact Hl|].
  unfold np_zeros2. apply lookup_replicate_2.
  apply lookup_lt_Some in Hl. exact Hl.
Qed.

Lemma assign_column_length n col out :
  length col = length out -> length (assign_column n col out) = length out.
Proof.
  intros Hlen. unfold assign_column. rewrite length_zip_with. lia.
Qed.

Lemma loop_length labels ns : forall out,
  length out = length labels ->
  length (foldl (fun out n => assign_column n (labels_eq labels n) out) out ns)
  = length labels.
Proof.
  induction ns as [|n ns IH]; intros out Hout; simpl; [exact Hout|].
  apply IH. rewrite assign_column_length; [exact Hout|].
  unfold labels_eq. rewrite length_fmap. lia.
Qed.

Lemma output_length labels :
  length (train_set_labels_output labels) = length labels.
Proof.
  apply loop_length. unfold np_zeros2. apply length_replicate.
Qed.

(** The first ten training labels and their encoding, as the notebook
    prints them. *)
Example output_first_ten :
  train_set_labels_output [5; 0; 4; 1; 9; 2; 1; 3; 1; 4]%Z
  = [ [0; 0; 0; 0; 0; 1; 0; 0; 0; 0];
      [1; 0; 0; 0; 0; 0; 0; 0; 0; 0];
      [0; 0; 0; 0; 1; 0; 0; 0; 0; 0];
      [0; 1; 0; 0; 0; 0; 0; 0; 0; 0];
      [0; 0; 0; 0; 0; 0; 0; 0; 0; 1];
      [0; 0; 1; 0; 0; 0; 0; 0; 0; 0];
      [0; 1; 0; 0; 0; 0; 0; 0; 0; 0];
      [0; 0; 0; 1; 0; 0; 0; 0; 0; 0];
      [0; 1; 0; 0; 0; 0; 0; 0; 0; 0];
      [0; 0; 0; 0; 1; 0; 0; 0; 0; 0] ]%Z.
Proof. reflexivity. Qed.

(** A label outside 0..9 gets a row of zeros. *)
Example output_label_10 :
  train_set_labels_output [10]%Z = [ [0; 0; 0; 0; 0; 0; 0; 0; 0; 0] ]%Z.
Proof. reflexivity. Qed.

(** The ten rows the loop can produce. *)
Lemma encode_row_digit l :
  (0 <= l <= 9)%Z ->
  encode_row l = <[Z.to_nat l := 1%Z]> (replicate 10 0%Z).
Proof.
  intros Hl.
  assert (Hcases : l = 0%Z \/ l = 1%Z \/ l = 2%Z \/ l = 3%Z \/ l = 4%Z \/
                   l = 5%Z \/ l = 6%Z \/ l = 7%Z \/ l = 8%Z \/ l = 9%Z) by lia.
  repeat (destruct Hcases as [-> | Hcases]; [reflexivity|]).
  subst l. reflexivity.
Qed.

(** C10: on labels between 0 and 9 the encoding has one row per label; the
    row has ten entries, a 1 in the column of the label and 0 in every
    other column, and sums to 1. *)
Theorem one_hot_rows (train_set_labels : list Z) :
  Forall (fun l => (0 <= l <= 9)%Z) train_set_labels ->
  length (train_set_labels_output train_set_labels) = length train_set_labels /\
  forall i l, train_set_labels !! i = Some l ->
    exists row,
      train_set_labels_output train_set_labels !! i = Some row /\
      length row = 10%nat /\
      row !! Z.to_nat l = Some 1%Z /\
      (forall j, (j < 10)%nat -> j <> Z.to_nat l -> row !! j = Some 0%Z) /\
      row_sum row = 1%Z.
Proof.
  intros Hdigits. split; [apply output_length|].
  intros i l Hl.
  assert (Hd : (0 <= l <= 9)%Z).
  { rewrite Forall_lookup in Hdigits. exact (Hdigits i l Hl). }
  exists (encode_row l). split; [apply output_row, Hl|].
  rewrite (encode_row_digit l Hd).
  assert (Hlt : (Z.to_nat l < length (replicate 10 0%Z))%nat).
  { rewrite length_replicate. lia. }
  repeat split.
  - rewrite length_insert. apply length_replicate.
  - apply list_lookup_insert_eq, Hlt.
  - intros j Hj Hne. rewrite list_lookup_insert_ne by congruence.
    apply lookup_replicate_2, Hj.
  - assert (Hcases : l = 0%Z \/ l = 1%Z \/ l = 2%Z \/ l = 3%Z \/ l = 4%Z \/
                     l = 5%Z \/ l = 6%Z \/ l = 7%Z \/ l = 8%Z \/ l = 9%Z) by lia.
    repeat (destruct Hcases as [-> | Hcases]; [reflexivity|]).
    subst l. reflexivity.
Qed.

(** The first ten training labels of MNIST, as the notebook prints them. *)
Lemma one_hot_rows_witness :
  Forall (fun l => (0 <= l <= 9)%Z) [5; 0; 4; 1; 9; 2; 1; 3; 1; 4]%Z /\
  length (train_set_labels_output [5; 0; 4; 1; 9; 2; 1; 3; 1; 4]%Z) = 10%nat.
Proof.
  assert (H : Forall (fun l => (0 <= l <= 9)%Z) [5; 0; 4; 1; 9; 2; 1; 3; 1; 4]%Z).
  { repeat constructor; lia. }
  split; [exact H|].
  exact (proj1 (one_hot_rows _ H)).
Defined.

End OneHotFacts.

(** ** Interpolation in the latent space *)

Section InterpolationFacts.
Import SpecFloat Float Interpolation.

Lemma noise_points latent_dim noise_a noise_b :
  noise latent_dim noise_a noise_b
  = map (fun ni => point ni noise_a noise_b) (seq 0 10).
Proof. reflexivity. Qed.

Lemma digits_shift (m : positive) :
  Zpos (digits2_pos (4503599627370496 * m)) = (Zpos (digits2_pos m) + 52)%Z.
Proof.
  cbv [Pos.mul]. cbn [digits2_pos]. rewrite !Pos2Z.inj_succ. lia.
Qed.

(** Multiplying a float64 by 1.0 is exact. *)
Lemma f64_mul_one s m e :
  bounded 53 1024 m e = true ->
  f64_mul (f64_of_Z 1) (S754_finite s m e) = S754_finite s m e.
Proof.
  intros Hb. apply andb_prop in Hb as [Hc He].
  unfold canonical_mantissa in Hc. apply Z.eqb_eq in Hc.
  change (f64_of_Z 1) with (S754_finite false 4503599627370496 (-52)).
  unfold f64_mul, SFmul, binary_round_aux.
  cbn [xorb].
  unfold shr_fexp at 1.
  unfold Zdigits2. rewrite digits_shift.
  replace (Z.pos (digits2_pos m) + 52 + (-52 + e))%Z
    with (Z.pos (digits2_pos m) + e)%Z by lia.
  rewrite Hc.
  replace (e - (-52 + e))%Z with 52%Z by lia.
  cbv [Pos.mul].
  cbn [shr shr_record_of_loc iter_pos shr_1 orb].
  cbn [shr_m loc_of_shr_record round_nearest_even].
  unfold shr_fexp. cbn [Zdigits2].
  replace (-52 + e + 52)%Z with e by lia.
  rewrite Hc, Z.sub_diag. cbn [shr shr_record_of_loc shr_m].
  rewrite He. reflexivity.
Qed.

Lemma weight_0 : weight 0 = S754_zero false.
Proof. reflexivity. Qed.

(** With weight 0.0 on [x], a finite number, the sum is [y]. *)
Lemma combine_0 x y :
  finite64 x = true -> nonzero64 y = true -> combine 0 x y = y.
Proof.
  intros Hx Hy. unfold combine. rewrite weight_0.
  change (f64_sub (f64_of_Z 1) (S754_zero false)) with (f64_of_Z 1).
  destruct y as [| | |sy my ey]; try discriminate.
  rewrite (f64_mul_one _ _ _ Hy).
  destruct x as [sx|sx| |sx mx ex]; try discriminate; reflexivity.
Qed.

Lemma point_0 (a b : list float) :
  length a = length b ->
  Forall (fun x => finite64 x = true) a ->
  Forall (fun y => nonzero64 y = true) b ->
  point 0 a b = map f32_of_f64 b.
Proof.
  intros Hlen Ha. unfold point. revert b Hlen.
  induction Ha as [|x a Hx _ IH]; intros [|y b] Hlen Hb;
    simpl in Hlen; try discriminate; [reflexivity|].
  apply Forall_cons in Hb as [Hy Hb].
  cbn [zip_with map]. rewrite (combine_0 x y Hx Hy).
  f_equal. apply IH; [lia|exact Hb].
Qed.

Lemma point_length ni (a b : list float) :
  length a = length b -> length (point ni a b) = length a.
Proof.
  intros Hlen. unfold point. rewrite length_map, length_zip_with. lia.
Qed.

Lemma weights_below_1 ni :
  (ni < 10)%nat ->
  f64_ltb (weight ni) (f64_of_Z 1) = true /\
  f64_ltb (f64_of_Z 0) (f64_sub (f64_of_Z 1) (weight ni)) = true.
Proof.
  intros Hni.
  do 10 (destruct ni as [|ni]; [split; vm_compute; reflexivity|]). lia.
Qed.

(** The first row for the latent value 0.1: the float32 nearest to it,
    13421773 * 2^-27, which is not 0.1 as a float64. *)
Example first_row_is_rounded :
  noise 1 [f64_of_Z 1] [weight 1] !! 0%nat
  = Some [S754_finite false 13421773 (-27)] /\
  f64_eqb (f64_of_f32 (S754_finite false 13421773 (-27))) (weight 1) = false.
Proof. split; vm_compute; reflexivity. Qed.

(** C9, as the loop behaves: for latent vectors of finite float64 numbers
    the array holds ten rows of [latent_dim] entries; row [ni] is, entry by
    entry, [float(ni)/10 * noise_a + (1 - float(ni)/10) * noise_b] computed
    in float64 and rounded to float32 when stored; the first row is
    [noise_b] rounded to float32; the weight of [noise_a] is below 1 in
    every row and that of [noise_b] above 0. *)
Theorem interpolation_points (latent_dim : nat) (noise_a noise_b : list float) :
  length noise_a = latent_dim -> length noise_b = latent_dim ->
  Forall (fun x => finite64 x = true) noise_a ->
  Forall (fun y => nonzero64 y = true) noise_b ->
  noise latent_dim noise_a noise_b
    = map (fun ni =>
             map f32_of_f64
               (zip_with (fun x y =>
                            f64_add (f64_mul (weight ni) x)
                              (f64_mul (f64_sub (f64_of_Z 1) (weight ni)) y))
                         noise_a noise_b))
          (seq 0 10) /\
  Forall (fun row => length row = latent_dim)
         (noise latent_dim noise_a noise_b) /\
  noise latent_dim noise_a noise_b !! 0%nat = Some (map f32_of_f64 noise_b) /\
  (forall ni, (ni < 10)%nat ->
     f64_ltb (weight ni) (f64_of_Z 1) = true /\
     f64_ltb (f64_of_Z 0) (f64_sub (f64_of_Z 1) (weight ni)) = true).
Proof.
  intros Ha Hb Hfa Hfb.
  assert (Hlen : length noise_a = length noise_b) by congruence.
  split; [apply noise_points|]. split; [|split].
  - rewrite noise_points. apply Forall_fmap, Forall_forall. intros ni _.
    simpl. rewrite point_length; assumption.
  - rewrite noise_points. cbn [seq map lookup list_lookup].
    f_equal. apply point_0; assumption.
  - apply weights_below_1.
Qed.

Lemma interpolation_points_witness :
  noise 2 [f64_of_Z 1; f64_of_Z 2] [weight 1; f64_of_Z 3] !! 0%nat
  = Some (map f32_of_f64 [weight 1; f64_of_Z 3]).
Proof.
  apply (interpolation_points 2 [f64_of_Z 1; f64_of_Z 2] [weight 1; f64_of_Z 3]);
    try reflexivity; repeat constructor.
Defined.

(** The claim as worded fails on the code.  With both latent vectors
    [[1.0]] every produced row is [noise_a]; with [noise_b] = [[0.1]] the
    first row is the float32 nearest to 0.1, which differs from [noise_b]. *)
Lemma interpolation_wording_fails :
  ~ (forall noise_a noise_b : list float,
       length noise_a = 1%nat -> length noise_b = 1%nat ->
       Forall (fun x => finite64 x = true) noise_a ->
       Forall (fun y => nonzero64 y = true) noise_b ->
       forall row, row ∈ noise 1 noise_a noise_b ->
                   same_values row noise_a = false) /\
  ~ (forall noise_a noise_b : list float,
       length noise_a = 1%nat -> length noise_b = 1%nat ->
       Forall (fun x => finite64 x = true) noise_a ->
       Forall (fun y => nonzero64 y = true) noise_b ->
       exists row, noise 1 noise_a noise_b !! 0%nat = Some row /\
                   same_values row noise_b = true).
Proof.
  split.
  - intros Hnever.
    assert (Hrow : [f32_of_f64 (f64_of_Z 1)]
                   ∈ noise 1 [f64_of_Z 1] [f64_of_Z 1]).
    { rewrite noise_points. apply list_elem_of_fmap. exists 0%nat.
      split; [vm_compute; reflexivity|apply elem_of_seq; lia]. }
    specialize (Hnever [f64_of_Z 1] [f64_of_Z 1] eq_refl eq_refl
                  ltac:(repeat constructor) ltac:(repeat constructor) _ Hrow).
    vm_compute in Hnever. discriminate.
  - intros Hexact.
    destruct (Hexact [f64_of_Z 1] [weight 1] eq_refl eq_refl
                ltac:(repeat constructor) ltac:(repeat constructor))
      as (row & Hrow & Hsame).
    vm_compute in Hrow. injection Hrow as <-.
    vm_compute in Hsame. discriminate.
Qed.

End InterpolationFacts.

(** ** The discriminators classify into [[0, 1]] *)

Section KerasFacts.
Import Keras.

Lemma sigmoid_range x : 0 < sigmoid x < 1.
Proof.
  unfold sigmoid. pose proof (exp_pos (- x)) as Hexp.
  assert (Hden : 0 < 1 + exp (- x)) by lra.
  split.
  - apply Rdiv_lt_0_compat; lra.
  - apply (Rmult_lt_reg_r (1 + exp (- x))); [exact Hden|].
    unfold Rdiv. rewrite Rmult_assoc, Rinv_l by lra. lra.
Qed.

Lemma vadd_length (u v : vec) :
  length v = length u -> length (vadd u v) = length u.
Proof. intros Hlen. unfold vadd. rewrite length_zip_with. lia. Qed.

Lemma affine_fold_length (rows : list vec) : forall (x acc : vec),
  Forall (fun row => length row = length acc) rows ->
  length (foldl (fun acc xr => vadd acc (vscale xr.1 xr.2)) acc (zip x rows))
  = length acc.
Proof.
  induction rows as [|row rows IH]; intros x acc Hrows.
  - destruct x; reflexivity.
  - destruct x as [|xi x]; [reflexivity|]. simpl.
    apply Forall_cons in Hrows as [Hrow Hrows].
    assert (Hacc : length (vadd acc (vscale xi row)) = length acc).
    { apply vadd_length. unfold vscale. rewrite length_map. exact Hrow. }
    rewrite IH; [exact Hacc|].
    eapply Forall_impl; [exact Hrows|].
    intros r Hr. simpl in Hr. congruence.
Qed.

Lemma affine_length input_dim units w x :
  dense_shape input_dim units w -> length (affine w x) = units.
Proof.
  intros (_ & Hrows & Hbias). unfold affine.
  rewrite affine_fold_length; [exact Hbias|].
  eapply Forall_impl; [exact Hrows|].
  intros r Hr. simpl in Hr. congruence.
Qed.

Lemma dense_forward input_dim units u act w x :
  dense_shape input_dim units w -> length x = input_dim ->
  exists y, layer_forward (Dense u act w) x = Some y /\ length y = units.
Proof.
  intros Hshape Hx. exists (map (apply_activation act) (affine w x)).
  split.
  - simpl. destruct Hshape as (Hk & _ & _).
    rewrite Hx, Hk, Nat.eqb_refl. reflexivity.
  - rewrite length_map. eapply affine_length, Hshape.
Qed.

(** The last layer of both discriminators: one unit, sigmoid. *)
Lemma sigmoid_unit input_dim u w x :
  dense_shape input_dim 1 w -> length x = input_dim ->
  exists p, layer_forward (Dense u Sigmoid w) x = Some [p] /\ probability p.
Proof.
  intros Hshape Hx.
  pose proof (affine_length _ _ _ x Hshape) as Hlen.
  destruct (affine w x) as [|z [|z' rest]] eqn:Haff; simpl in Hlen; try lia.
  exists (sigmoid z). split.
  - simpl. destruct Hshape as (Hk & _ & _).
    rewrite Hx, Hk, Nat.eqb_refl, Haff. reflexivity.
  - pose proof (sigmoid_range z). unfold probability. lra.
Qed.

Lemma leaky_forward alpha x :
  exists y, layer_forward (LeakyReLU alpha) x = Some y /\ length y = length x.
Proof. eexists. split; [reflexivity|]. apply length_map. Qed.

Lemma forward_step l rest x y :
  layer_forward l x = Some y -> forward (l :: rest) x = forward rest y.
Proof. intros E. simpl. rewrite E. reflexivity. Qed.

Lemma forward_1D d1 d2 x :
  dense_shape 1 32 d1 -> dense_shape 32 1 d2 -> length x = 1%nat ->
  exists p, forward (get_discriminator_1D d1 d2) x = Some [p] /\ probability p.
Proof.
  intros H1 H2 Hx. unfold get_discriminator_1D.
  destruct (dense_forward _ _ 32 Linear _ x H1 Hx) as (y1 & E1 & L1).
  destruct (leaky_forward (3 / 10) y1) as (y2 & E2 & L2).
  destruct (sigmoid_unit 32 1 d2 y2 H2 ltac:(congruence)) as (p & E3 & Hp).
  exists p. split; [|exact Hp].
  rewrite (forward_step _ _ _ _ E1), (forward_step _ _ _ _ E2),
    (forward_step _ _ _ _ E3).
  reflexivity.
Qed.

Lemma forward_MLP d1 d2 d3 d4 x :
  dense_shape 784 1024 d1 -> dense_shape 1024 512 d2 ->
  dense_shape 512 256 d3 -> dense_shape 256 1 d4 -> length x = 784%nat ->
  exists p, forward (get_discriminator_MLP d1 d2 d3 d4) x = Some [p]
            /\ probability p.
Proof.
  intros H1 H2 H3 H4 Hx. unfold get_discriminator_MLP.
  destruct (dense_forward _ _ 1024 Linear _ x H1 Hx) as (y1 & E1 & L1).
  destruct (leaky_forward (2 / 10) y1) as (y2 & E2 & L2).
  destruct (dense_forward _ _ 512 Linear _ y2 H2 ltac:(congruence))
    as (y3 & E3 & L3).
  destruct (leaky_forward (2 / 10) y3) as (y4 & E4 & L4).
  destruct (dense_forward _ _ 256 Linear _ y4 H3 ltac:(congruence))
    as (y5 & E5 & L5).
  destruct (leaky_forward (2 / 10) y5) as (y6 & E6 & L6).
  destruct (sigmoid_unit 256 1 d4 y6 H4 ltac:(congruence)) as (p & E7 & Hp).
  exists p. split; [|exact Hp].
  rewrite (forward_step _ _ _ _ E1), (forward_step _ _ _ _ E2),
    (forward_step (Dropout _) _ y2 y2 eq_refl),
    (forward_step _ _ _ _ E3), (forward_step _ _ _ _ E4),
    (forward_step (Dropout _) _ y4 y4 eq_refl),
    (forward_step _ _ _ _ E5), (forward_step _ _ _ _ E6),
    (forward_step _ _ _ _ E7).
  reflexivity.
Qed.

(** From one sample to a batch. *)
Lemma predict_batch net input_dim (b : batch) :
  (forall x, length x = input_dim ->
     exists p, forward net x = Some [p] /\ probability p) ->
  Forall (fun x => length x = input_dim) b ->
  exists out, predict net b = Some out /\ length out = length b /\
              probability_batch out.
Proof.
  intros Hnet Hb. induction Hb as [|x b Hx Hb IH].
  - exists []. repeat split. constructor.
  - destruct (Hnet x Hx) as (p & Ep & Hp).
    destruct IH as (out & Eout & Hlen & Hout).
    exists ([p] :: out). simpl. rewrite Ep, Eout.
    repeat split; [simpl; congruence|].
    constructor; [|exact Hout]. exists p. split; [reflexivity|exact Hp].
Qed.

Lemma zero_weights_shape input_dim units :
  dense_shape input_dim units (zero_weights input_dim units).
Proof.
  unfold dense_shape, zero_weights. simpl. repeat split.
  - apply length_replicate.
  - apply Forall_replicate, length_replicate.
  - apply length_replicate.
Qed.

(** C6: on every batch of samples of the input shape (one number for the
    1D discriminator, 784 pixels for the perceptron), and whatever the
    values of the weights, [predict] returns one value per sample, and
    every value lies in [[0, 1]]. *)
Theorem discriminator_classify_range :
  (forall d1 d2 (b : batch),
     dense_shape 1 32 d1 -> dense_shape 32 1 d2 ->
     Forall (fun x => length x = 1%nat) b ->
     exists out, predict (get_discriminator_1D d1 d2) b = Some out /\
                 length out = length b /\ probability_batch out) /\
  (forall d1 d2 d3 d4 (b : batch),
     dense_shape 784 1024 d1 -> dense_shape 1024 512 d2 ->
     dense_shape 512 256 d3 -> dense_shape 256 1 d4 ->
     Forall (fun x => length x = 784%nat) b ->
     exists out, predict (get_discriminator_MLP d1 d2 d3 d4) b = Some out /\
                 length out = length b /\ probability_batch out).
Proof.
  split.
  - intros d1 d2 b H1 H2 Hb.
    apply (predict_batch _ 1); [|exact Hb].
    intros x Hx. apply forward_1D; assumption.
  - intros d1 d2 d3 d4 b H1 H2 H3 H4 Hb.
    apply (predict_batch _ 784); [|exact Hb].
    intros x Hx. apply forward_MLP; assumption.
Qed.

(** A real and a synthetic sample through the 1D discriminator, and a
    blank image through the perceptron, all weights zero. *)
Lemma discriminator_classify_range_witness :
  (exists out,
     predict (get_discriminator_1D (zero_weights 1 32) (zero_weights 32 1))
             [[8]; [0]] = Some out /\
     length out = 2%nat /\ probability_batch out) /\
  (exists out,
     predict (get_discriminator_MLP (zero_weights 784 1024)
                (zero_weights 1024 512) (zero_weights 512 256)
                (zero_weights 256 1))
             [replicate 784 0] = Some out /\
     length out = 1%nat /\ probability_batch out).
Proof.
  split.
  - apply (proj1 discriminator_classify_range).
    + apply zero_weights_shape.
    + apply zero_weights_shape.
    + repeat constructor.
  - apply (proj2 discriminator_classify_range).
    + apply zero_weights_shape.
    + apply zero_weights_shape.
    + apply zero_weights_shape.
    + apply zero_weights_shape.
    + constructor; [apply length_replicate|constructor].
Defined.

End KerasFacts.

(** ** The loss is never negative *)

Section LossFacts.
Import Loss Keras.

Lemma ln_neg x : 0 < x < 1 -> ln x < 0.
Proof.
  intros [Hpos Hlt]. rewrite <- ln_1. apply ln_increasing; assumption.
Qed.

Lemma clip_range p : epsilon <= clip p epsilon (1 - epsilon) <= 1 - epsilon.
Proof.
  unfold clip, epsilon. split.
  - apply Rmin_glb; [apply Rmax_r|lra].
  - apply Rmin_r.
Qed.

Lemma binary_crossentropy_nonneg y p :
  probability y -> 0 <= binary_crossentropy y p.
Proof.
  intros [Hy0 Hy1]. unfold binary_crossentropy.
  pose proof (clip_range p) as [Hlo Hhi].
  set (q := clip p epsilon (1 - epsilon)) in *.
  assert (Heps : 0 < epsilon) by (unfold epsilon; lra).
  assert (Hq : ln q < 0) by (apply ln_neg; lra).
  assert (Hq' : ln (1 - q) < 0) by (apply ln_neg; lra).
  nra.
Qed.

Lemma sum_nonneg l : Forall (fun x => 0 <= x) l -> 0 <= sum l.
Proof.
  unfold sum. induction 1 as [|x l Hx Hl IH]; simpl; lra.
Qed.

Lemma mean_nonneg l : Forall (fun x => 0 <= x) l -> 0 <= mean l.
Proof.
  intros Hl. unfold mean. pose proof (sum_nonneg l Hl) as Hsum.
  destruct l as [|x l].
  - simpl. unfold Rdiv. rewrite Rinv_0. lra.
  - assert (Hlen : 0 < INR (length (x :: l))) by (apply lt_0_INR; simpl; lia).
    apply Rinv_0_lt_compat in Hlen. unfold Rdiv. nra.
Qed.

Lemma batch_loss_nonneg Y P : Forall probability Y -> 0 <= batch_loss Y P.
Proof.
  intros HY. unfold batch_loss. apply mean_nonneg.
  revert P. induction HY as [|y Y Hy HY IH]; intros [|p P]; simpl;
    try constructor.
  - apply binary_crossentropy_nonneg, Hy.
  - apply IH.
Qed.

End LossFacts.

(** ** The labels of the two updates *)

Section LabelFacts.
Import Keras Trainer.

Lemma assign_prefix_zeros n (v : R) :
  assign_prefix n v (np_zeros (2 * n)) = discriminator_labels n v.
Proof.
  unfold assign_prefix, np_zeros, discriminator_labels.
  rewrite length_replicate, drop_replicate.
  replace (n `min` (2 * n))%nat with n by lia.
  replace (2 * n - n)%nat with n by lia.
  reflexivity.
Qed.

Lemma discriminator_labels_probability n v :
  probability v -> Forall probability (discriminator_labels n v).
Proof.
  intros Hv. unfold discriminator_labels. apply Forall_app. split.
  - apply Forall_replicate, Hv.
  - apply Forall_replicate. unfold probability. lra.
Qed.

Lemma np_ones_probability n : Forall probability (np_ones n).
Proof. apply Forall_replicate. unfold probability. lra. Qed.

End LabelFacts.

(** ** The sub-steps of the trainer *)

Section TrainerFacts.
Import Keras Trainer.
Context `{Backend}.

Ltac run_cell :=
  cbn [bind ret raise random_seed np_random_normal np_random_rows predict
       set_trainable compile train_on_batch set_d_loss set_g_loss
       d_losses_append_d_loss g_losses_append_g_loss reset_losses
       set_np_rng set_losses
       weights trainable collected kstate np_rng py_rng d_loss g_loss
       d_losses g_losses trace fst snd].

Lemma trained_discriminator s :
  collected s discriminator = [Dis] -> trainable s Dis = true ->
  trained_nets discriminator s = [Dis].
Proof.
  intros Hc Ht. unfold trained_nets.
  destruct collects_at_compile; [exact Hc|].
  simpl nets_of. rewrite filter_cons_True by exact Ht. reflexivity.
Qed.

Lemma trained_gan s :
  collected s gan = [Gen] -> trainable s Gen = true ->
  trainable s Dis = false ->
  trained_nets gan s = [Gen].
Proof.
  intros Hc Hg Hd. unfold trained_nets.
  destruct collects_at_compile; [exact Hc|].
  simpl nets_of. rewrite filter_cons_True by exact Hg.
  rewrite filter_cons_False by (rewrite Hd; discriminate).
  reflexivity.
Qed.

Lemma not_in_singleton (a b : net) : a <> b -> a ∉ [b].
Proof. intros Hne Hin. apply list_elem_of_singleton in Hin. contradiction. Qed.

Lemma discriminator_update_1D_run ld s :
  exists noise real upd loss s',
    discriminator_update_1D ld s = Ok tt s' /\
    trace s' = trace s ++
      [EvDraw Latent noise; EvDraw Real real;
       EvTrain discriminator
         (np_concatenate real (map (forward Gen (weights s Gen)) noise))
         (discriminator_labels n_samples 1) upd loss] /\
    noise = (np_normal 0 1 n_samples ld (np_rng s)).1 /\
    length noise = n_samples /\ length real = n_samples /\
    0 <= loss /\
    d_loss s' = Some loss /\ g_loss s' = g_loss s /\
    d_losses s' = d_losses s ++ [loss] /\ g_losses s' = g_losses s /\
    frame s s' /\
    (collected s discriminator = [Dis] ->
     upd = [Dis] /\ weights s' Gen = weights s Gen).
Proof.
  eexists _, _, _, _, _. split.
  { unfold discriminator_update_1D. run_cell.
    rewrite assign_prefix_zeros. reflexivity. }
  run_cell. split; [rewrite <- !app_assoc; reflexivity|].
  repeat split.
  - apply np_normal_rows.
  - apply np_normal_rows.
  - apply batch_loss_nonneg, discriminator_labels_probability.
    unfold probability. lra.
  - apply trained_discriminator; [assumption|reflexivity].
  - rewrite trained_discriminator by (try reflexivity; assumption).
    rewrite decide_False by (apply not_in_singleton; discriminate).
    reflexivity.
Qed.

Lemma generator_update_1D_run ld s :
  exists noise upd loss s',
    generator_update_1D ld s = Ok tt s' /\
    trace s' = trace s ++
      [EvDraw Latent noise; EvTrain gan noise (np_ones n_samples) upd loss] /\
    length noise = n_samples /\
    0 <= loss /\
    g_loss s' = Some loss /\ d_loss s' = d_loss s /\
    g_losses s' = g_losses s ++ [loss] /\ d_losses s' = d_losses s /\
    frame s s' /\
    trainable s' Dis = false /\
    (collected s gan = [Gen] -> trainable s Gen = true ->
     upd = [Gen] /\ weights s' Dis = weights s Dis /\
     weights s' Gen
     = (optimizer_step gan (kstate s) (weights s) noise (np_ones n_samples)).1 Gen).
Proof.
  eexists _, _, _, _. split.
  { unfold generator_update_1D. run_cell. reflexivity. }
  run_cell. split; [rewrite <- !app_assoc; reflexivity|].
  repeat split.
  - apply np_normal_rows.
  - apply batch_loss_nonneg, np_ones_probability.
  - apply trained_gan; assumption || reflexivity.
  - rewrite trained_gan by (assumption || reflexivity).
    rewrite decide_False by (apply not_in_singleton; discriminate).
    reflexivity.
  - rewrite trained_gan by (assumption || reflexivity).
    rewrite decide_True by (apply list_elem_of_singleton; reflexivity).
    reflexivity.
Qed.

Lemma discriminator_update_MNIST_run ld X_train s :
  exists noise image_batch upd loss s',
    discriminator_update_MNIST ld X_train s = Ok tt s' /\
    trace s' = trace s ++
      [EvDraw Latent noise; EvDraw Real image_batch;
       EvTrain discriminator
         (np_concatenate image_batch (map (forward Gen (weights s Gen)) noise))
         (discriminator_labels batch_size (9 / 10)) upd loss] /\
    length noise = batch_size /\ length image_batch = batch_size /\
    0 <= loss /\
    d_loss s' = Some loss /\ g_loss s' = g_loss s /\
    d_losses s' = d_losses s /\ g_losses s' = g_losses s /\
    frame s s' /\
    (collected s discriminator = [Dis] ->
     upd = [Dis] /\ weights s' Gen = weights s Gen).
Proof.
  eexists _, _, _, _, _. split.
  { unfold discriminator_update_MNIST. run_cell.
    rewrite assign_prefix_zeros. reflexivity. }
  run_cell. split; [rewrite <- !app_assoc; reflexivity|].
  repeat split.
  - apply np_normal_rows.
  - rewrite length_map. apply np_randint_size.
  - apply batch_loss_nonneg, discriminator_labels_probability.
    unfold probability. lra.
  - apply trained_discriminator; [assumption|reflexivity].
  - rewrite trained_discriminator by (try reflexivity; assumption).
    rewrite decide_False by (apply not_in_singleton; discriminate).
    reflexivity.
Qed.

Lemma generator_update_MNIST_run ld s :
  exists noise upd loss s',
    generator_update_MNIST ld s = Ok tt s' /\
    trace s' = trace s ++
      [EvDraw Latent noise; EvTrain gan noise (np_ones batch_size) upd loss] /\
    length noise = batch_size /\
    0 <= loss /\
    g_loss s' = Some loss /\ d_loss s' = d_loss s /\
    g_losses s' = g_losses s /\ d_losses s' = d_losses s /\
    frame s s' /\
    trainable s' Dis = false /\
    (collected s gan = [Gen] -> trainable s Gen = true ->
     upd = [Gen] /\ weights s' Dis = weights s Dis /\
     weights s' Gen
     = (optimizer_step gan (kstate s) (weights s) noise (np_ones batch_size)).1 Gen).
Proof.
  eexists _, _, _, _. split.
  { unfold generator_update_MNIST. run_cell. reflexivity. }
  run_cell. split; [rewrite <- !app_assoc; reflexivity|].
  repeat split.
  - apply np_normal_rows.
  - apply batch_loss_nonneg, np_ones_probability.
  - apply trained_gan; assumption || reflexivity.
  - rewrite trained_gan by (assumption || reflexivity).
    rewrite decide_False by (apply not_in_singleton; discriminate).
    reflexivity.
  - rewrite trained_gan by (assumption || reflexivity).
    rewrite decide_True by (apply list_elem_of_singleton; reflexivity).
    reflexivity.
Qed.

(** *** Composing summaries *)

Lemma frame_refl s : frame s s.
Proof. split; reflexivity. Qed.

Lemma frame_trans s1 s2 s3 : frame s1 s2 -> frame s2 s3 -> frame s1 s3.
Proof. intros [A1 B1 C1] [A2 B2 C2]. split; congruence. Qed.

Lemma frame_compiled s s' : frame s s' -> compiled s -> compiled s'.
Proof.
  intros [Hc Hg _] (Hd & Hgan & Hflag). unfold compiled.
  rewrite Hc, Hg. auto.
Qed.

Lemma run_summary_app k1 k2 s s1 s2 e1 e2 :
  run_summary k1 s s1 e1 -> run_summary k2 s1 s2 e2 ->
  run_summary (k1 + k2) s s2 (e1 ++ e2).
Proof.
  intros [T1 F1 U1 D1 G1] [T2 F2 U2 D2 G2]. split.
  - rewrite T2, T1, app_assoc. reflexivity.
  - eapply frame_trans; eassumption.
  - unfold updates in *. rewrite flat_map_app, U1, U2, replicate_add, concat_app.
    reflexivity.
  - unfold train_calls in *. rewrite flat_map_app, length_app. lia.
  - unfold train_calls in *. rewrite flat_map_app, length_app. lia.
Qed.

Lemma draws_only evs :
  Forall (fun ev => exists k b, ev = EvDraw k b) evs ->
  updates evs = [] /\ forall m, train_calls m evs = [].
Proof.
  induction 1 as [|ev evs Hev _ [IHu IHc]]; [split; reflexivity|].
  destruct Hev as (k & b & ->).
  split; [exact IHu|]. intros m. simpl. apply IHc.
Qed.

Lemma run_summary_quiet s s' evs :
  trace s' = trace s ++ evs -> frame s s' ->
  Forall (fun ev => exists k b, ev = EvDraw k b) evs ->
  run_summary 0 s s' evs.
Proof.
  intros Ht Hf Hdraws.
  destruct (draws_only evs Hdraws) as [Hu Hc].
  split; try assumption; rewrite Hc; reflexivity.
Qed.

Lemma plot_1D_run ld s :
  exists evs s',
    plot_1D ld s = Ok tt s' /\ run_summary 0 s s' evs /\
    d_losses s' = d_losses s /\ g_losses s' = g_losses s.
Proof.
  eexists _, _. split; [unfold plot_1D; run_cell; reflexivity|].
  run_cell. split; [|split; reflexivity].
  apply run_summary_quiet.
  - run_cell. rewrite <- app_assoc. reflexivity.
  - split; reflexivity.
  - repeat constructor; eexists _, _; reflexivity.
Qed.

(** *** One trainer step, in a state where the model cell has run *)

Lemma step_1D_run ld e s :
  compiled s ->
  exists evs rest l_d l_g s',
    step_1D ld e s = Ok tt s' /\ run_summary 1 s s' evs /\
    evs = EvDraw Latent (np_normal 0 1 n_samples ld (np_rng s)).1 :: rest /\
    d_losses s' = d_losses s ++ [l_d] /\ g_losses s' = g_losses s ++ [l_g] /\
    0 <= l_d /\ 0 <= l_g.
Proof.
  intros Hs. pose proof Hs as (Hcd & Hcg & Hflag).
  destruct (discriminator_update_1D_run ld s)
    as (n1 & r1 & u1 & l1 & s1 & E1 & T1 & N1 & _ & _ & P1 & _ & _ & D1 & G1 & F1 & U1).
  destruct (U1 Hcd) as [-> _].
  destruct (generator_update_1D_run ld s1)
    as (n2 & u2 & l2 & s2 & E2 & T2 & _ & P2 & _ & _ & G2 & D2 & F2 & _ & U2).
  destruct U2 as (-> & _).
  { rewrite (frame_collected _ _ F1). exact Hcg. }
  { rewrite (frame_gen_flag _ _ F1). exact Hflag. }
  assert (S12 : run_summary 1 s s2
            ([EvDraw Latent n1; EvDraw Real r1;
              EvTrain discriminator
                (np_concatenate r1 (map (forward Gen (weights s Gen)) n1))
                (discriminator_labels n_samples 1) [Dis] l1] ++
             [EvDraw Latent n2; EvTrain gan n2 (np_ones n_samples) [Gen] l2])).
  { split.
    - rewrite T2, T1, <- app_assoc. reflexivity.
    - eapply frame_trans; eassumption.
    - reflexivity.
    - reflexivity.
    - reflexivity. }
  unfold step_1D, bind. rewrite E1, E2.
  destruct (Nat.eqb (e mod 100) 0).
  - destruct (plot_1D_run ld s2) as (e3 & s3 & E3 & S3 & D3 & G3).
    eexists _, _, l1, l2, s3. split; [exact E3|].
    split; [exact (run_summary_app 1 0 _ _ _ _ _ S12 S3)|].
    split; [rewrite N1; reflexivity|].
    rewrite D3, G3, D2, G2, D1, G1. auto.
  - eexists _, _, l1, l2, s2. split; [reflexivity|].
    split; [exact S12|].
    split; [rewrite N1; reflexivity|].
    rewrite D2, G2, D1, G1. auto.
Qed.

Lemma step_MNIST_run ld X_train s :
  compiled s ->
  exists evs l_d l_g s',
    step_MNIST ld X_train s = Ok tt s' /\ run_summary 1 s s' evs /\
    d_losses s' = d_losses s /\ g_losses s' = g_losses s /\
    d_loss s' = Some l_d /\ g_loss s' = Some l_g /\
    0 <= l_d /\ 0 <= l_g.
Proof.
  intros Hs. pose proof Hs as (Hcd & Hcg & Hflag).
  destruct (discriminator_update_MNIST_run ld X_train s)
    as (n1 & r1 & u1 & l1 & s1 & E1 & T1 & _ & _ & P1 & V1 & _ & D1 & G1 & F1 & U1).
  destruct (U1 Hcd) as [-> _].
  destruct (generator_update_MNIST_run ld s1)
    as (n2 & u2 & l2 & s2 & E2 & T2 & _ & P2 & V2 & W2 & G2 & D2 & F2 & _ & U2).
  destruct U2 as (-> & _).
  { rewrite (frame_collected _ _ F1). exact Hcg. }
  { rewrite (frame_gen_flag _ _ F1). exact Hflag. }
  eexists _, l1, l2, s2.
  split; [unfold step_MNIST, bind; rewrite E1; exact E2|].
  split.
  { split.
    - rewrite T2, T1, <- app_assoc. reflexivity.
    - eapply frame_trans; eassumption.
    - reflexivity.
    - reflexivity.
    - reflexivity. }
  rewrite D2, G2, D1, G1, V2, W2, V1. auto 10.
Qed.

(** *** Loops *)

Lemma run_summary_nil s : run_summary 0 s s [].
Proof.
  split; try reflexivity; [symmetry; apply app_nil_r|apply frame_refl].
Qed.

Lemma steps_1D_run ld es : forall s,
  compiled s ->
  exists evs s',
    for_each es (step_1D ld) s = Ok tt s' /\
    run_summary (length es) s s' evs /\
    length (d_losses s') = (length (d_losses s) + length es)%nat /\
    length (g_losses s') = (length (g_losses s) + length es)%nat /\
    (es <> [] ->
     exists rest,
       evs = EvDraw Latent (np_normal 0 1 n_samples ld (np_rng s)).1 :: rest).
Proof.
  induction es as [|e es IH]; intros s Hs.
  - exists [], s. split; [reflexivity|]. split; [apply run_summary_nil|].
    simpl. repeat split; try lia. congruence.
  - destruct (step_1D_run ld e s Hs)
      as (e1 & rest & l_d & l_g & s1 & E1 & S1 & R1 & D1 & G1 & _).
    assert (Hs1 : compiled s1) by (eapply frame_compiled; [apply S1|exact Hs]).
    destruct (IH s1 Hs1) as (e2 & s2 & E2 & S2 & D2 & G2 & _).
    exists (e1 ++ e2), s2.
    split; [cbn [for_each]; unfold bind; rewrite E1; exact E2|].
    split; [exact (run_summary_app 1 (length es) _ _ _ _ _ S1 S2)|].
    rewrite D2, G2, D1, G1, !length_app. simpl.
    repeat split; try lia.
    intros _. exists (rest ++ e2). rewrite R1. reflexivity.
Qed.

Lemma steps_MNIST_run ld X_train es : forall s,
  compiled s ->
  exists evs s',
    for_each es (fun _ : nat => step_MNIST ld X_train) s = Ok tt s' /\
    run_summary (length es) s s' evs /\
    d_losses s' = d_losses s /\ g_losses s' = g_losses s /\
    (es <> [] \/ loss_variables_set s -> loss_variables_set s').
Proof.
  induction es as [|e es IH]; intros s Hs.
  - exists [], s. split; [reflexivity|]. split; [apply run_summary_nil|].
    repeat split. intros [Hne|Hset]; [congruence|exact Hset].
  - destruct (step_MNIST_run ld X_train s Hs)
      as (e1 & l_d & l_g & s1 & E1 & S1 & D1 & G1 & V1 & W1 & P1 & Q1).
    assert (Hs1 : compiled s1) by (eapply frame_compiled; [apply S1|exact Hs]).
    destruct (IH s1 Hs1) as (e2 & s2 & E2 & S2 & D2 & G2 & L2).
    exists (e1 ++ e2), s2.
    split; [cbn [for_each]; unfold bind; rewrite E1; exact E2|].
    split; [exact (run_summary_app 1 (length es) _ _ _ _ _ S1 S2)|].
    rewrite D2, G2, D1, G1. repeat split.
    intros _. apply L2. right. exists l_d, l_g. auto.
Qed.

Lemma plot_MNIST_run ld s :
  exists evs s',
    (let* noise := np_random_normal Latent 0 1 100 ld in
     plotGeneratedImages ld) s = Ok tt s' /\
    run_summary 0 s s' evs /\
    d_losses s' = d_losses s /\ g_losses s' = g_losses s.
Proof.
  eexists _, _. split; [unfold plotGeneratedImages; run_cell; reflexivity|].
  run_cell. split; [|split; reflexivity].
  apply run_summary_quiet.
  - run_cell. rewrite <- app_assoc. reflexivity.
  - split; reflexivity.
  - repeat constructor; eexists _, _; reflexivity.
Qed.

Lemma epoch_MNIST_run ld X_train batch_count e s :
  compiled s -> (0 < batch_count)%nat ->
  exists evs l_d l_g s',
    epoch_MNIST ld X_train batch_count e s = Ok tt s' /\
    run_summary batch_count s s' evs /\
    d_losses s' = d_losses s ++ [l_d] /\ g_losses s' = g_losses s ++ [l_g] /\
    0 <= l_d /\ 0 <= l_g.
Proof.
  intros Hs Hpos.
  destruct (steps_MNIST_run ld X_train (seq 0 batch_count) s Hs)
    as (e1 & s1 & E1 & S1 & D1 & G1 & L1).
  rewrite length_seq in S1.
  destruct L1 as (l_d & l_g & V1 & W1 & P1 & Q1).
  { left. destruct batch_count; [lia|discriminate]. }
  set (s2 := set_losses (d_losses s1 ++ [l_d]) (g_losses s1 ++ [l_g]) s1).
  assert (S2 : run_summary batch_count s s2 e1).
  { destruct S1 as [T1 F1 U1 C1 C1']. split; try assumption.
    destruct F1 as [A B C]. split; assumption. }
  assert (E2 : epoch_MNIST ld X_train batch_count e s
               = (if Nat.eqb (e mod 5) 0
                  then let* noise := np_random_normal Latent 0 1 100 ld in
                       plotGeneratedImages ld
                  else ret tt) s2).
  { unfold epoch_MNIST, for_range. unfold bind at 1. rewrite E1.
    unfold bind at 1. unfold d_losses_append_d_loss. rewrite V1.
    unfold bind at 1. unfold g_losses_append_g_loss.
    cbn [g_loss set_losses]. rewrite W1. reflexivity. }
  rewrite E2.
  assert (D2 : d_losses s2 = d_losses s ++ [l_d]) by (rewrite <- D1; reflexivity).
  assert (G2 : g_losses s2 = g_losses s ++ [l_g]) by (rewrite <- G1; reflexivity).
  destruct (Nat.eqb (e mod 5) 0).
  - destruct (plot_MNIST_run ld s2) as (e3 & s3 & E3 & S3 & D3 & G3).
    exists (e1 ++ e3), l_d, l_g, s3. split; [exact E3|].
    split.
    { pose proof (run_summary_app batch_count 0 _ _ _ _ _ S2 S3) as S.
      rewrite Nat.add_0_r in S. exact S. }
    rewrite D3, G3, D2, G2. auto.
  - exists e1, l_d, l_g, s2. split; [reflexivity|].
    split; [exact S2|]. auto.
Qed.

Lemma epochs_MNIST_run ld X_train batch_count es : forall s,
  compiled s -> (0 < batch_count)%nat ->
  exists evs s',
    for_each es (epoch_MNIST ld X_train batch_count) s = Ok tt s' /\
    run_summary (length es * batch_count) s s' evs /\
    length (d_losses s') = (length (d_losses s) + length es)%nat /\
    length (g_losses s') = (length (g_losses s) + length es)%nat.
Proof.
  induction es as [|e es IH]; intros s Hs Hpos.
  - exists [], s. split; [reflexivity|]. split; [apply run_summary_nil|].
    simpl. lia.
  - destruct (epoch_MNIST_run ld X_train batch_count e s Hs Hpos)
      as (e1 & l_d & l_g & s1 & E1 & S1 & D1 & G1 & _).
    assert (Hs1 : compiled s1) by (eapply frame_compiled; [apply S1|exact Hs]).
    destruct (IH s1 Hs1 Hpos) as (e2 & s2 & E2 & S2 & D2 & G2).
    exists (e1 ++ e2), s2.
    split; [cbn [for_each]; unfold bind; rewrite E1; exact E2|].
    split; [exact (run_summary_app _ _ _ _ _ _ _ S1 S2)|].
    rewrite D2, G2, D1, G1, !length_app. simpl. lia.
Qed.

(** *** Cells *)

Lemma reset_losses_run s :
  exists s', reset_losses s = Ok tt s' /\ run_summary 0 s s' [] /\
             d_losses s' = [] /\ g_losses s' = [] /\ np_rng s' = np_rng s.
Proof.
  eexists. split; [reflexivity|]. repeat split.
  symmetry. apply app_nil_r.
Qed.

Lemma model_cell_run s0 :
  (forall n, trainable s0 n = true) ->
  exists s, model_cell s0 = Ok tt s /\ compiled s /\
            trace s = trace s0 /\ np_rng s = np_rng s0 /\
            py_rng s = py_rng s0 /\ weights s = weights s0.
Proof.
  intros Hall. eexists. split; [unfold model_cell; run_cell; reflexivity|].
  run_cell. unfold compiled. cbn [collected trainable].
  repeat split.
  - simpl. rewrite filter_cons_True by apply Hall. reflexivity.
  - simpl. rewrite filter_cons_True by apply Hall.
    rewrite filter_cons_False by discriminate. reflexivity.
  - simpl. apply Hall.
Qed.

Lemma started_compiled s0 :
  (forall n, trainable s0 n = true) -> compiled (started s0).
Proof.
  intros Hall. unfold started, bind, import_cell, random_seed.
  match goal with
  | |- context [model_cell ?s1] =>
      destruct (model_cell_run s1 Hall) as (s & E & Hs & _)
  end.
  rewrite E. exact Hs.
Qed.

Lemma training_cell_1D_run ld s :
  compiled s ->
  exists evs s',
    training_cell_1D ld s = Ok tt s' /\
    run_summary epochs_1D s s' evs /\
    length (d_losses s') = epochs_1D /\ length (g_losses s') = epochs_1D /\
    exists rest,
      evs = EvDraw Latent (np_normal 0 1 n_samples ld (np_rng s)).1 :: rest.
Proof.
  intros Hs.
  destruct (reset_losses_run s) as (s0 & E0 & S0 & D0 & G0 & R0).
  assert (Hs0 : compiled s0) by (eapply frame_compiled; [apply S0|exact Hs]).
  destruct (steps_1D_run ld (seq 0 epochs_1D) s0 Hs0)
    as (evs & s' & E & S & D & G & Hfirst).
  rewrite length_seq in S, D, G. rewrite D0 in D. rewrite G0 in G.
  exists evs, s'.
  split; [unfold training_cell_1D, training_loop_1D, for_range, bind;
          rewrite E0; exact E|].
  split; [exact (run_summary_app 0 _ _ _ _ _ _ S0 S)|].
  split; [exact D|]. split; [exact G|].
  rewrite <- R0. apply Hfirst.
  unfold epochs_1D. destruct (Z.to_nat 10000) eqn:Hn; [lia|discriminate].
Qed.

Lemma reshape_rows_concat (width : nat) (images : batch) :
  Forall (fun img : vec => length img = width) images ->
  reshape_rows width (length images) (concat images) = images.
Proof.
  induction 1 as [|img images Himg _ IH]; [reflexivity|].
  cbn [length concat reshape_rows].
  rewrite take_app_length' by (symmetry; exact Himg).
  rewrite drop_app_length' by (symmetry; exact Himg).
  rewrite IH. reflexivity.
Qed.

Lemma concat_rows_length (width : nat) (images : batch) :
  Forall (fun img : vec => length img = width) images ->
  length (concat images) = (length images * width)%nat.
Proof.
  induction 1 as [|img images Himg _ IH]; [reflexivity|].
  cbn [length concat]. rewrite length_app, IH, Himg. reflexivity.
Qed.


Lemma reshape_size_ok (train_set_images : batch) s :
  Z.of_nat (length (concat train_set_images)) = (50000 * 784)%Z ->
  reshape_50000_784 train_set_images s
  = Ok (reshape_rows 784 (Z.to_nat 50000) (concat train_set_images)) s.
Proof.
  intros Hsize. unfold reshape_50000_784. cbv zeta.
  rewrite Hsize, Z.eqb_refl. reflexivity.
Qed.

Lemma reshape_ok (train_set_images : batch) s :
  length train_set_images = Z.to_nat 50000 ->
  Forall (fun img : vec => length img = 784%nat) train_set_images ->
  reshape_50000_784 train_set_images s = Ok train_set_images s.
Proof.
  intros Hlen Hrows.
  rewrite reshape_size_ok.
  - rewrite <- Hlen, (reshape_rows_concat _ _ Hrows). reflexivity.
  - rewrite (concat_rows_length _ _ Hrows), Hlen. lia.
Qed.

Lemma rescale_length (images : batch) : length (rescale images) = length images.
Proof. unfold rescale. apply length_map. Qed.

Lemma batch_count_390 : (Z.to_nat 50000 / batch_size)%nat = 390%nat.
Proof. vm_compute. reflexivity. Qed.

Lemma training_cell_MNIST_run ld (train_set_images : batch) s :
  compiled s ->
  length train_set_images = Z.to_nat 50000 ->
  Forall (fun img : vec => length img = 784%nat) train_set_images ->
  exists evs s',
    training_cell_MNIST ld train_set_images s = Ok tt s' /\
    run_summary (epochs_MNIST * 390) s s' evs /\
    length (d_losses s') = epochs_MNIST /\ length (g_losses s') = epochs_MNIST.
Proof.
  intros Hs Hlen Hrows.
  destruct (reset_losses_run s) as (s0 & E0 & S0 & D0 & G0 & _).
  assert (Hs0 : compiled s0) by (eapply frame_compiled; [apply S0|exact Hs]).
  destruct (epochs_MNIST_run ld (rescale train_set_images) 390
              (seq 0 epochs_MNIST) s0 Hs0 ltac:(lia))
    as (evs & s' & E & S & D & G).
  rewrite length_seq in S, D, G. rewrite D0 in D. rewrite G0 in G.
  exists evs, s'.
  split.
  { unfold training_cell_MNIST, bind. rewrite E0.
    rewrite (reshape_ok _ _ Hlen Hrows).
    rewrite rescale_length, Hlen, batch_count_390.
    exact E. }
  split; [exact (run_summary_app 0 _ _ _ _ _ _ S0 S)|].
  split; assumption.
Qed.

Lemma gan_practical_1D_run w0 k0 entropy :
  exists rest s,
    gan_practical_1D (boot w0 k0 entropy) = Ok tt s /\
    py_rng s = PySeeded 0 /\
    trace s = EvDraw Latent (np_normal 0 1 n_samples 1 entropy).1 :: rest /\
    length (train_calls discriminator (trace s)) = epochs_1D /\
    length (train_calls gan (trace s)) = epochs_1D.
Proof.
  destruct (model_cell_run
              {| weights := w0; trainable := fun _ => true;
                 collected := fun _ => []; kstate := k0; np_rng := entropy;
                 py_rng := PySeeded 0; d_loss := None; g_loss := None;
                 d_losses := []; g_losses := []; trace := [] |}
              (fun _ => eq_refl))
    as (s0 & E0 & Hs0 & T0 & R0 & P0 & _).
  cbn [trace np_rng py_rng] in T0, R0, P0.
  destruct (training_cell_1D_run 1 s0 Hs0)
    as (evs & s & E & S & _ & _ & rest & Hfirst).
  exists rest, s.
  split; [unfold gan_practical_1D, bind, import_cell, random_seed, boot;
          cbn [weights trainable collected kstate np_rng py_rng d_loss g_loss
               d_losses g_losses trace];
          rewrite E0; exact E|].
  destruct S as [T [_ _ P] _ D G].
  rewrite T, T0 in *. cbn [app] in *. rewrite <- R0, <- Hfirst.
  split_and!; try assumption; try reflexivity. congruence.
Qed.

(** *** Python's [random] plays no part in training *)

Create HintDb py_rng.

Lemma ignores_bind {A B} (c : M A) (k : A -> M B) :
  ignores_py_rng c -> (forall a, ignores_py_rng (k a)) ->
  ignores_py_rng (bind c k).
Proof.
  intros Hc Hk p s. unfold bind. rewrite Hc.
  destruct (c s) as [a s'|e]; [apply Hk|reflexivity].
Qed.

Lemma ignores_ret {A} (a : A) : ignores_py_rng (ret a).
Proof. intros p s. reflexivity. Qed.

Lemma ignores_np_random_normal k loc scale n d :
  ignores_py_rng (np_random_normal k loc scale n d).
Proof. intros p s. reflexivity. Qed.

Lemma ignores_np_random_rows X_train n :
  ignores_py_rng (np_random_rows X_train n).
Proof. intros p s. reflexivity. Qed.

Lemma ignores_predict n b : ignores_py_rng (predict n b).
Proof. intros p s. reflexivity. Qed.

Lemma ignores_set_trainable n b : ignores_py_rng (set_trainable n b).
Proof. intros p s. reflexivity. Qed.

Lemma ignores_compile m : ignores_py_rng (compile m).
Proof. intros p s. reflexivity. Qed.

Lemma ignores_train_on_batch m X Y : ignores_py_rng (train_on_batch m X Y).
Proof. intros p s. reflexivity. Qed.

Lemma ignores_set_d_loss l : ignores_py_rng (set_d_loss l).
Proof. intros p s. reflexivity. Qed.

Lemma ignores_set_g_loss l : ignores_py_rng (set_g_loss l).
Proof. intros p s. reflexivity. Qed.

Lemma ignores_d_losses_append : ignores_py_rng d_losses_append_d_loss.
Proof.
  intros p s. unfold d_losses_append_d_loss. cbn [d_loss with_py_rng].
  destruct (d_loss s); reflexivity.
Qed.

Lemma ignores_g_losses_append : ignores_py_rng g_losses_append_g_loss.
Proof.
  intros p s. unfold g_losses_append_g_loss. cbn [g_loss with_py_rng].
  destruct (g_loss s); reflexivity.
Qed.

Lemma ignores_reset_losses : ignores_py_rng reset_losses.
Proof. intros p s. reflexivity. Qed.

Lemma ignores_for_each {A} (xs : list A) (body : A -> M unit) :
  (forall x, ignores_py_rng (body x)) -> ignores_py_rng (for_each xs body).
Proof.
  intros Hbody. induction xs as [|x xs IH]; simpl.
  - apply ignores_ret.
  - apply ignores_bind; [apply Hbody|intros _; exact IH].
Qed.

Hint Resolve ignores_ret ignores_np_random_normal ignores_np_random_rows
  ignores_predict ignores_set_trainable ignores_compile
  ignores_train_on_batch ignores_set_d_loss ignores_set_g_loss
  ignores_d_losses_append ignores_g_losses_append ignores_reset_losses
  : py_rng.

Ltac ignores :=
  repeat first
    [ apply ignores_bind; [|intros ?]
    | apply ignores_for_each; intros ?
    | match goal with |- ignores_py_rng (if ?b then _ else _) => destruct b end
    | solve [auto with py_rng] ].

Lemma ignores_model_cell : ignores_py_rng model_cell.
Proof. unfold model_cell. ignores. Qed.

Lemma ignores_training_loop_1D ld epochs :
  ignores_py_rng (training_loop_1D ld epochs).
Proof.
  unfold training_loop_1D, for_range, step_1D, discriminator_update_1D,
    generator_update_1D, plot_1D.
  ignores.
Qed.

Lemma random_seed_run seed s :
  random_seed seed s = Ok tt (with_py_rng (PySeeded seed) s).
Proof. reflexivity. Qed.

Lemma gan_practical_1D_notebook : gan_practical_1D = notebook_1D 0 epochs_1D.
Proof.
  unfold gan_practical_1D, notebook_1D, import_cell, training_cell_1D.
  reflexivity.
Qed.

(** The batches a run of the 1D notebook draws are the same whatever the
    seed given to [random.seed]. *)
Lemma draws_ignore_the_seed seed seed' epochs s0 :
  option_map (fun s => draws (trace s)) (final (notebook_1D seed epochs s0))
  = option_map (fun s => draws (trace s)) (final (notebook_1D seed' epochs s0)).
Proof.
  assert (Hrest : ignores_py_rng
            (let* _ := model_cell in
             let* _ := reset_losses in training_loop_1D 1 epochs)).
  { apply ignores_bind; [apply ignores_model_cell|intros _].
    apply ignores_bind; [apply ignores_reset_losses|intros _].
    apply ignores_training_loop_1D. }
  unfold notebook_1D. unfold bind at 1 4. rewrite !random_seed_run.
  rewrite !Hrest.
  match goal with |- context [match ?r with Ok _ _ => _ | Raise _ => _ end] =>
    destruct r as [a s|e] end; reflexivity.
Qed.

(** Two runs of the 1D notebook whose first latent batches differ draw
    different sequences, whatever [random.seed] was given. *)
Lemma runs_differ_with_numpy_state w0 k0 entropy entropy' :
  (np_normal 0 1 n_samples 1 entropy).1
    <> (np_normal 0 1 n_samples 1 entropy').1 ->
  exists s s',
    gan_practical_1D (boot w0 k0 entropy) = Ok tt s /\
    gan_practical_1D (boot w0 k0 entropy') = Ok tt s' /\
    py_rng s = PySeeded 0 /\ py_rng s' = PySeeded 0 /\
    draws (trace s) <> draws (trace s').
Proof.
  intros Hdiff.
  destruct (gan_practical_1D_run w0 k0 entropy) as (rest & s & E & P & T & _).
  destruct (gan_practical_1D_run w0 k0 entropy')
    as (rest' & s' & E' & P' & T' & _).
  exists s, s'. split_and!; try assumption.
  rewrite T, T'. cbn [draws flat_map app]. intros Heq.
  apply Hdiff. congruence.
Qed.

(** ** The claims about the trainer *)

(** C3: in a state where the model cell has run, the generator update of
    either loop succeeds, the only network it updates is the generator, and
    the discriminator's weights after it are those before it. *)
Theorem generator_update_keeps_discriminator (s : trainer) :
  compiled s ->
  (forall latent_dim, exists evs s',
      generator_update_1D latent_dim s = Ok tt s' /\
      trace s' = trace s ++ evs /\ updates evs = [Gen] /\
      weights s' Dis = weights s Dis) /\
  (forall latent_dim, exists evs s',
      generator_update_MNIST latent_dim s = Ok tt s' /\
      trace s' = trace s ++ evs /\ updates evs = [Gen] /\
      weights s' Dis = weights s Dis).
Proof.
  intros (_ & Hgan & Hflag). split; intros ld.
  - destruct (generator_update_1D_run ld s)
      as (noise & upd & loss & s' & E & T & _ & _ & _ & _ & _ & _ & _ & _ & U).
    destruct (U Hgan Hflag) as (-> & Hdis & _).
    eexists _, s'. repeat split; [exact E|exact T|reflexivity|exact Hdis].
  - destruct (generator_update_MNIST_run ld s)
      as (noise & upd & loss & s' & E & T & _ & _ & _ & _ & _ & _ & _ & _ & U).
    destruct (U Hgan Hflag) as (-> & Hdis & _).
    eexists _, s'. repeat split; [exact E|exact T|reflexivity|exact Hdis].
Qed.

(** C4: the discriminator is trained on the real batch followed by the
    generator's output on the latent batch, with label 1 (1D loop) or 0.9
    (MNIST loop) for each of the real samples and 0 for each of the
    synthetic ones; both halves have the batch size, the labels are
    constants of the loop and lie in [[0, 1]]. *)
Theorem discriminator_batch_and_labels (s : trainer) :
  (forall latent_dim, exists noise real upd loss s',
      discriminator_update_1D latent_dim s = Ok tt s' /\
      trace s' = trace s ++
        [EvDraw Latent noise; EvDraw Real real;
         EvTrain discriminator
           (real ++ map (forward Gen (weights s Gen)) noise)
           (replicate n_samples 1 ++ replicate n_samples 0) upd loss] /\
      length real = n_samples /\
      length (map (forward Gen (weights s Gen)) noise) = n_samples) /\
  (forall latent_dim X_train, exists noise image_batch upd loss s',
      discriminator_update_MNIST latent_dim X_train s = Ok tt s' /\
      trace s' = trace s ++
        [EvDraw Latent noise; EvDraw Real image_batch;
         EvTrain discriminator
           (image_batch ++ map (forward Gen (weights s Gen)) noise)
           (replicate batch_size (9 / 10) ++ replicate batch_size 0) upd loss] /\
      length image_batch = batch_size /\
      length (map (forward Gen (weights s Gen)) noise) = batch_size) /\
  Forall probability (replicate n_samples 1 ++ replicate n_samples 0) /\
  Forall probability (replicate batch_size (9 / 10) ++ replicate batch_size 0).
Proof.
  split; [|split; [|split]].
  - intros ld.
    destruct (discriminator_update_1D_run ld s)
      as (noise & real & upd & loss & s' & E & T & _ & Ln & Lr & _).
    exists noise, real, upd, loss, s'.
    rewrite length_map. repeat split; assumption.
  - intros ld X_train.
    destruct (discriminator_update_MNIST_run ld X_train s)
      as (noise & image_batch & upd & loss & s' & E & T & Ln & Lr & _).
    exists noise, image_batch, upd, loss, s'.
    rewrite length_map. repeat split; assumption.
  - apply (discriminator_labels_probability n_samples 1).
    unfold probability. lra.
  - apply (discriminator_labels_probability batch_size (9 / 10)).
    unfold probability. lra.
Qed.

(** C8: from a state where the model cell has run, the training cell of
    the 1D problem ends after 10000 trainer steps, and that of the MNIST
    perceptrons, on 50000 images of 784 pixels, after 200 times 390; this
    holds for every backend, whatever losses it reports. *)
Theorem training_ends_after_fixed_steps (s : trainer) :
  compiled s ->
  (forall latent_dim, exists evs s',
      training_cell_1D latent_dim s = Ok tt s' /\
      trace s' = trace s ++ evs /\
      Z.of_nat (length (train_calls discriminator evs)) = 10000%Z /\
      Z.of_nat (length (train_calls gan evs)) = 10000%Z) /\
  (forall latent_dim (train_set_images : batch),
      length train_set_images = Z.to_nat 50000 ->
      Forall (fun img : vec => length img = 784%nat) train_set_images ->
      exists evs s',
        training_cell_MNIST latent_dim train_set_images s = Ok tt s' /\
        trace s' = trace s ++ evs /\
        length (train_calls discriminator evs)
          = (epochs_MNIST * (Z.to_nat 50000 / batch_size))%nat /\
        length (train_calls gan evs)
          = (epochs_MNIST * (Z.to_nat 50000 / batch_size))%nat /\
        Z.of_nat (epochs_MNIST * (Z.to_nat 50000 / batch_size)) = 78000%Z).
Proof.
  intros Hs. split.
  - intros ld.
    destruct (training_cell_1D_run ld s Hs) as (evs & s' & E & S & _).
    exists evs, s'. destruct S as [T _ _ D G].
    rewrite D, G. unfold epochs_1D.
    split; [exact E|]. split; [exact T|]. split; lia.
  - intros ld imgs Hlen Hrows.
    destruct (training_cell_MNIST_run ld imgs s Hs Hlen Hrows)
      as (evs & s' & E & S & _).
    exists evs, s'. destruct S as [T _ _ D G].
    rewrite D, G, batch_count_390.
    split; [exact E|]. split; [exact T|]. repeat split.
Qed.

End TrainerFacts.

(** ** The notebooks on the small backend *)

Section ToyRuns.
Import Keras Trainer.

Lemma toy_started_compiled entropy : compiled (started (toy_boot entropy)).
Proof. unfold compiled. repeat split; reflexivity. Qed.

Lemma generator_update_keeps_discriminator_witness :
  compiled (started (toy_boot 0)) /\
  exists evs s',
    generator_update_1D 1 (started (toy_boot 0)) = Ok tt s' /\
    trace s' = trace (started (toy_boot 0)) ++ evs /\
    updates evs = [Gen] /\
    weights s' Dis = weights (started (toy_boot 0)) Dis.
Proof.
  assert (Hs : compiled (started (toy_boot 0)))
    by (unfold compiled; repeat split; reflexivity).
  split; [exact Hs|].
  exact (proj1 (generator_update_keeps_discriminator _ Hs) 1%nat).
Defined.

Lemma training_ends_after_fixed_steps_witness :
  compiled (started (toy_boot 0)) /\
  length blank_images = Z.to_nat 50000 /\
  Forall (fun img : vec => length img = 784%nat) blank_images /\
  exists evs s',
    training_cell_MNIST 10 blank_images (started (toy_boot 0)) = Ok tt s' /\
    trace s' = trace (started (toy_boot 0)) ++ evs /\
    length (train_calls discriminator evs)
      = (epochs_MNIST * (Z.to_nat 50000 / batch_size))%nat /\
    length (train_calls gan evs)
      = (epochs_MNIST * (Z.to_nat 50000 / batch_size))%nat /\
    Z.of_nat (epochs_MNIST * (Z.to_nat 50000 / batch_size)) = 78000%Z.
Proof.
  assert (Hs : compiled (started (toy_boot 0)))
    by (unfold compiled; repeat split; reflexivity).
  assert (Hlen : length blank_images = Z.to_nat 50000)
    by apply length_replicate.
  assert (Hrows : Forall (fun img : vec => length img = 784%nat) blank_images)
    by (apply Forall_replicate, length_replicate).
  split; [exact Hs|]. split; [exact Hlen|]. split; [exact Hrows|].
  exact (proj2 (training_ends_after_fixed_steps _ Hs)
           10%nat blank_images Hlen Hrows).
Defined.

Lemma discriminator_batch_and_labels_witness :
  exists noise real upd loss s',
    discriminator_update_1D 1 (started (toy_boot 0)) = Ok tt s' /\
    trace s' = trace (started (toy_boot 0)) ++
      [EvDraw Latent noise; EvDraw Real real;
       EvTrain discriminator
         (real ++ map (forward Gen (weights (started (toy_boot 0)) Gen)) noise)
         (replicate n_samples 1 ++ replicate n_samples 0) upd loss] /\
    length real = n_samples /\
    length (map (forward Gen (weights (started (toy_boot 0)) Gen)) noise)
      = n_samples.
Proof.
  exact (proj1 (discriminator_batch_and_labels (started (toy_boot 0))) 1%nat).
Defined.

(** C5 fails on the code: the import cell seeds Python's [random], the
    batches are drawn from NumPy's generator, which no cell seeds.  Two
    runs of the notebook, both through [random.seed(0)], whose NumPy
    generators start in different states draw different batches. *)
Theorem seed_does_not_fix_the_draws :
  (exists s1 s2,
     gan_practical_1D (toy_boot 0) = Ok tt s1 /\
     gan_practical_1D (toy_boot 1) = Ok tt s2 /\
     py_rng s1 = PySeeded 0 /\ py_rng s2 = PySeeded 0 /\
     draws (trace s1) <> draws (trace s2)) /\
  (forall seed,
     option_map (fun s => draws (trace s))
       (final (notebook_1D seed epochs_1D (toy_boot 0)))
     = option_map (fun s => draws (trace s))
         (final (notebook_1D 0 epochs_1D (toy_boot 0)))) /\
  @gan_practical_1D toy = notebook_1D 0 epochs_1D.
Proof.
  split; [|split].
  - apply (@runs_differ_with_numpy_state toy (fun _ => 0 : R) tt 0%nat 1%nat).
    cbn [np_normal toy fst]. intros Heq.
    assert (Hentry : 0 + 1 * INR 0 = 0 + 1 * INR 1).
    { apply (f_equal (fun b : batch => match b with
                                     | (x :: _) :: _ => x
                                     | _ => 0
                                     end)) in Heq.
      exact Heq. }
    simpl in Hentry. lra.
  - intros seed.
    exact (draws_ignore_the_seed seed 0%Z epochs_1D (toy_boot 0)).
  - exact gan_practical_1D_notebook.
Qed.

End ToyRuns.

(** ** The dataset loaders *)

Section LoaderFacts.
Import Loader.

(** [np.resize] repeats its input, and the padding puts a frame of two
    zeros around every image. *)
Example resize_repeats : resize_data 0%Z [1; 2; 3]%Z 7 = [1; 2; 3; 1; 2; 3; 1]%Z.
Proof. reflexivity. Qed.

Example pad_one_pixel :
  np_pad (PyArrayI {| shape := [1; 1; 1; 1]%nat; data := [7%Z] |})
  = Some (PyArrayI {| shape := [1; 5; 5; 1]%nat;
                      data := [0; 0; 0; 0; 0;
                               0; 0; 0; 0; 0;
                               0; 0; 7; 0; 0;
                               0; 0; 0; 0; 0;
                               0; 0; 0; 0; 0]%Z |}).
Proof. reflexivity. Qed.

Lemma resize_data_length {A} (zero : A) (d : list A) n :
  length (resize_data zero d n) = n.
Proof.
  unfold resize_data. destruct d as [|x d].
  - apply length_replicate.
  - rewrite length_map. apply length_seq.
Qed.

Lemma flat_map_constant_length {A B} (f : A -> list B) (k : nat) (l : list A) :
  (forall x, length (f x) = k) -> length (flat_map f l) = (length l * k)%nat.
Proof.
  intros Hf. induction l as [|x l IH]; [reflexivity|].
  simpl. rewrite length_app, Hf, IH. reflexivity.
Qed.

Lemma pad_data_length {A} (zero : A) n h w c (d : list A) :
  length (pad_data zero n h w c d) = (n * ((h + 4) * ((w + 4) * c)))%nat.
Proof.
  unfold pad_data.
  rewrite (flat_map_constant_length _ ((h + 4) * ((w + 4) * c))), length_seq;
    [reflexivity|].
  intros i.
  rewrite (flat_map_constant_length _ ((w + 4) * c)), length_seq;
    [reflexivity|].
  intros r.
  rewrite (flat_map_constant_length _ c), length_seq; [reflexivity|].
  intros q. rewrite length_map. apply length_seq.
Qed.

Lemma split_28_run s labels :
  mnist_split s labels ->
  exists images,
    split_28 s = Some (labels_array labels, PyArrayF images) /\
    shape images = [length labels; 28; 28; 1]%nat /\ well_formed images.
Proof.
  intros (pixels & _ & ->). eexists. split; [reflexivity|].
  split; [reflexivity|].
  unfold well_formed. cbn [data shape]. apply resize_data_length.
Qed.

Lemma split_32_run s labels :
  mnist_split s labels ->
  exists images,
    LeNet.split_32 s = Some (labels_array labels, PyArrayF images) /\
    shape images = [length labels; 32; 32; 1]%nat /\ well_formed images.
Proof.
  intros Hs. destruct (split_28_run s labels Hs) as ([sh d] & E & Hsh & _).
  cbn [shape] in Hsh. subst sh.
  unfold LeNet.split_32. rewrite E. eexists. split; [reflexivity|].
  split; [reflexivity|].
  unfold well_formed. cbn [data shape]. rewrite pad_data_length.
  unfold size. simpl. lia.
Qed.

(** C7, as the loaders behave: on a file that holds three splits of
    images and labels, [loadMNIST] returns six arrays, for each split the
    labels as the file has them (so digits, when the file's are) followed by
    the images, one per label, resized to 28 by 28 by 1 (GAN notebook) and
    padded to 32 by 32 by 1 (classifier notebook); [loadPatchCamelyon]
    returns the one value the file holds, with no labels beside it. *)
Theorem loaders_return (train_set valid_set test_set : pyval)
  (train_labels valid_labels test_labels : list Z) :
  mnist_split train_set train_labels ->
  mnist_split valid_set valid_labels ->
  mnist_split test_set test_labels ->
  (exists train_images valid_images test_images,
     Gan.loadMNIST (PyTuple [train_set; valid_set; test_set])
     = Some (PyTuple [labels_array train_labels; train_images;
                      labels_array valid_labels; valid_images;
                      labels_array test_labels; test_images]) /\
     image_array (length train_labels) 28 28 train_images /\
     image_array (length valid_labels) 28 28 valid_images /\
     image_array (length test_labels) 28 28 test_images) /\
  (exists train_images valid_images test_images,
     LeNet.loadMNIST (PyTuple [train_set; valid_set; test_set])
     = Some (PyTuple [labels_array train_labels; train_images;
                      labels_array valid_labels; valid_images;
                      labels_array test_labels; test_images]) /\
     image_array (length train_labels) 32 32 train_images /\
     image_array (length valid_labels) 32 32 valid_images /\
     image_array (length test_labels) 32 32 test_images) /\
  (forall pickled, Gan.loadPatchCamelyon pickled = Some pickled).
Proof.
  intros Htrain Hvalid Htest. split; [|split].
  - destruct (split_28_run _ _ Htrain) as (i1 & E1 & S1 & W1).
    destruct (split_28_run _ _ Hvalid) as (i2 & E2 & S2 & W2).
    destruct (split_28_run _ _ Htest) as (i3 & E3 & S3 & W3).
    exists (PyArrayF i1), (PyArrayF i2), (PyArrayF i3).
    split; [unfold Gan.loadMNIST; cbn [unpack3 mbind option_bind];
            rewrite E1, E2, E3; reflexivity|].
    repeat split; eexists; eauto.
  - destruct (split_32_run _ _ Htrain) as (i1 & E1 & S1 & W1).
    destruct (split_32_run _ _ Hvalid) as (i2 & E2 & S2 & W2).
    destruct (split_32_run _ _ Htest) as (i3 & E3 & S3 & W3).
    exists (PyArrayF i1), (PyArrayF i2), (PyArrayF i3).
    split; [unfold LeNet.loadMNIST; cbn [unpack3 mbind option_bind];
            rewrite E1, E2, E3; reflexivity|].
    repeat split; eexists; eauto.
  - reflexivity.
Qed.

Lemma tiny_split_mnist l : mnist_split (tiny_split l) [l].
Proof.
  exists (replicate 784 0). split; [apply length_replicate|reflexivity].
Qed.

Lemma loaders_return_witness :
  exists train_images valid_images test_images,
    Gan.loadMNIST tiny_pickle
    = Some (PyTuple [labels_array [5%Z]; train_images;
                     labels_array [0%Z]; valid_images;
                     labels_array [4%Z]; test_images]) /\
    image_array 1 28 28 train_images /\
    image_array 1 28 28 valid_images /\
    image_array 1 28 28 test_images.
Proof.
  exact (proj1 (loaders_return _ _ _ [5%Z] [0%Z] [4%Z]
                  (tiny_split_mnist 5) (tiny_split_mnist 0)
                  (tiny_split_mnist 4))).
Defined.

(** C7 as worded fails: what [loadMNIST] returns is not a pair of images
    and labels. *)
Lemma loadMNIST_returns_no_pair :
  exists result,
    Gan.loadMNIST tiny_pickle = Some result /\ ~ pair_contract result.
Proof.
  destruct (split_28_run _ _ (tiny_split_mnist 5)) as (i1 & E1 & _).
  destruct (split_28_run _ _ (tiny_split_mnist 0)) as (i2 & E2 & _).
  destruct (split_28_run _ _ (tiny_split_mnist 4)) as (i3 & E3 & _).
  eexists. split.
  - unfold Gan.loadMNIST, tiny_pickle. cbn [unpack3 mbind option_bind].
    rewrite E1, E2, E3. reflexivity.
  - intros (images & labels & n & h & w & Heq & _). discriminate Heq.
Qed.

End LoaderFacts.

(** * Further properties *)

(** ** One-hot encoding *)

Section OneHotMore.
Import OneHot OneHotReading.

(** The encoding handles every label on its own. *)
Lemma output_map labels :
  train_set_labels_output labels = map encode_row labels.
Proof.
  apply list_eq. intros i. rewrite list_lookup_fmap.
  destruct (labels !! i) as [l|] eqn:Hl; simpl.
  - apply output_row, Hl.
  - apply lookup_ge_None. rewrite output_length.
    apply lookup_ge_None in Hl. exact Hl.
Qed.

Lemma encode_row_entries l :
  encode_row l = map (fun n => Z.b2z (Z.eqb l (Z.of_nat n))) (seq 0 10).
Proof. reflexivity. Qed.

Lemma encode_row_nth l n :
  (n < 10)%nat -> nth n (encode_row l) 0%Z = Z.b2z (Z.eqb l (Z.of_nat n)).
Proof.
  intros Hn. rewrite encode_row_entries.
  do 10 (destruct n as [|n]; [reflexivity|]). lia.
Qed.

(** X1: a label that is not a digit gets a row of ten zeros; the encoding
    does not reject it. *)
Theorem one_hot_other_label (train_set_labels : list Z) (i : nat) (l : Z) :
  train_set_labels !! i = Some l ->
  ~ (0 <= l <= 9)%Z ->
  train_set_labels_output train_set_labels !! i = Some (replicate 10 0%Z).
Proof.
  intros Hl Hout. rewrite (output_row _ _ _ Hl). f_equal.
  rewrite encode_row_entries. cbn [seq map].
  repeat match goal with
  | |- context [Z.eqb l ?k] =>
      replace (Z.eqb l k) with false by (symmetry; apply Z.eqb_neq; lia)
  end.
  reflexivity.
Qed.

Lemma one_hot_other_label_witness :
  train_set_labels_output [3; 10; -1]%Z !! 1%nat = Some (replicate 10 0%Z).
Proof.
  apply (one_hot_other_label [3; 10; -1]%Z 1 10%Z); [reflexivity|lia].
Defined.

(** X2: the rows of two digits are equal only if the digits are: the
    label can be read back from its row. *)
Theorem one_hot_injective (train_set_labels : list Z) (i j : nat) (l l' : Z)
  (row : list Z) :
  (0 <= l <= 9)%Z -> (0 <= l' <= 9)%Z ->
  train_set_labels !! i = Some l -> train_set_labels !! j = Some l' ->
  train_set_labels_output train_set_labels !! i = Some row ->
  train_set_labels_output train_set_labels !! j = Some row ->
  l = l'.
Proof.
  intros Hl Hl' Hi Hj Hri Hrj.
  rewrite (output_row _ _ _ Hi) in Hri. rewrite (output_row _ _ _ Hj) in Hrj.
  assert (Heq : encode_row l = encode_row l') by congruence.
  apply (f_equal (fun r => nth (Z.to_nat l) r 0%Z)) in Heq.
  rewrite !encode_row_nth in Heq by lia.
  rewrite Z2Nat.id, Z.eqb_refl in Heq by lia.
  destruct (Z.eqb_spec l' l) as [->|Hne]; [reflexivity|discriminate].
Qed.

Lemma one_hot_injective_witness :
  ([5; 0; 4; 1; 9; 2; 1]%Z !! 3%nat = Some 1%Z /\
   [5; 0; 4; 1; 9; 2; 1]%Z !! 6%nat = Some 1%Z /\
   train_set_labels_output [5; 0; 4; 1; 9; 2; 1]%Z !! 3%nat
   = Some [0; 1; 0; 0; 0; 0; 0; 0; 0; 0]%Z /\
   train_set_labels_output [5; 0; 4; 1; 9; 2; 1]%Z !! 6%nat
   = Some [0; 1; 0; 0; 0; 0; 0; 0; 0; 0]%Z) /\
  1%Z = 1%Z.
Proof.
  split; [split_and!; reflexivity|].
  apply (one_hot_injective [5; 0; 4; 1; 9; 2; 1]%Z 3 6 1%Z 1%Z
           [0; 1; 0; 0; 0; 0; 0; 0; 0; 0]%Z); try lia; reflexivity.
Defined.

Lemma column_sum_count n labels :
  (n < 10)%nat ->
  row_sum (column n (map encode_row labels)) = Z.of_nat (count_label n labels).
Proof.
  intros Hn. unfold column, count_label, row_sum.
  induction labels as [|l labels IH]; [reflexivity|].
  cbn [map foldr]. rewrite IH, encode_row_nth by exact Hn.
  rewrite filter_cons. destruct (Z.eqb_spec l (Z.of_nat n)) as [Heq|Hne].
  - rewrite decide_True by exact Heq. simpl length. simpl Z.b2z. lia.
  - rewrite decide_False by exact Hne. simpl Z.b2z. lia.
Qed.

(** X3: for every list of labels, digits or not, column [n] of the
    encoding sums to the number of labels equal to [n]. *)
Theorem one_hot_column_counts (train_set_labels : list Z) (n : nat) :
  (n < 10)%nat ->
  row_sum (column n (train_set_labels_output train_set_labels))
  = Z.of_nat (count_label n train_set_labels).
Proof.
  intros Hn. rewrite output_map. apply column_sum_count, Hn.
Qed.

Lemma one_hot_column_counts_witness :
  row_sum (column 1 (train_set_labels_output [5; 0; 4; 1; 9; 2; 1; 3; 1; 4]%Z))
  = 3%Z.
Proof.
  exact (one_hot_column_counts [5; 0; 4; 1; 9; 2; 1; 3; 1; 4]%Z 1 ltac:(lia)).
Defined.

End OneHotMore.

(** ** The dataset loaders *)

Section LoaderMore.
Import Loader LoaderReading.

Lemma nth_map_seq {A} (f : nat -> A) (c k : nat) (d : A) :
  (k < c)%nat -> nth k (map f (seq 0 c)) d = f k.
Proof.
  intros Hk.
  rewrite (nth_indep _ d (f 0%nat)) by (rewrite length_map, length_seq; exact Hk).
  rewrite map_nth, seq_nth by exact Hk. reflexivity.
Qed.

Lemma map_nth_seq {A} (d : list A) (x : A) :
  map (fun i => nth i d x) (seq 0 (length d)) = d.
Proof.
  apply (nth_ext _ _ x x).
  - rewrite length_map. apply length_seq.
  - intros i Hi. rewrite length_map, length_seq in Hi.
    rewrite (nth_indep _ x (nth 0 d x)) by (rewrite length_map, length_seq; exact Hi).
    rewrite (map_nth (fun i => nth i d x) (seq 0 (length d)) 0%nat i).
    rewrite seq_nth by exact Hi. reflexivity.
Qed.

Lemma resize_data_exact {A} (zero : A) (d : list A) n :
  length d = n -> resize_data zero d n = d.
Proof.
  intros <-. unfold resize_data. destruct d as [|x d]; [reflexivity|].
  transitivity (map (fun i => nth i (x :: d) x) (seq 0 (length (x :: d))));
    [|apply map_nth_seq].
  apply map_ext_in. intros i Hi. apply in_seq in Hi.
  rewrite Nat.mod_small by lia. reflexivity.
Qed.

Lemma nth_replicate_same {A} (x : A) n k : nth k (replicate n x) x = x.
Proof.
  revert k. induction n as [|n IH]; intros [|k]; simpl; auto.
Qed.

Lemma resize_data_nth {A} (zero : A) (d : list A) n k :
  (k < n)%nat ->
  nth k (resize_data zero d n) zero = nth (k mod length d) d zero.
Proof.
  intros Hk. unfold resize_data. destruct d as [|x d].
  - rewrite nth_replicate_same. destruct (k mod length []); reflexivity.
  - rewrite (nth_indep _ zero (nth (0 mod length (x :: d)) (x :: d) x))
      by (rewrite length_map, length_seq; exact Hk).
    rewrite (map_nth (fun i => nth (i mod length (x :: d)) (x :: d) x)
               (seq 0 n) 0%nat k).
    rewrite seq_nth by exact Hk. simpl Nat.add.
    apply nth_indep. apply Nat.mod_upper_bound. discriminate.
Qed.

Lemma split_28_file pixels labels :
  length pixels = (length labels * 784)%nat ->
  split_28 (file_split pixels labels)
  = Some (labels_array labels, images_28 pixels (length labels)).
Proof.
  intros Hlen. unfold split_28, file_split, images_28.
  cbn [item len np_resize mbind option_bind lookup list_lookup head shape data].
  do 3 f_equal. f_equal. apply resize_data_exact.
  rewrite Hlen. unfold size. simpl. lia.
Qed.

(** X6: on a file whose splits hold 784 pixels per label, the loader of
    the GAN notebook returns the labels and the pixels of the file
    unchanged; it only gives the images the shape (n, 28, 28, 1). *)
Theorem loadMNIST_keeps_pixels
  (train_pixels valid_pixels test_pixels : list R)
  (train_labels valid_labels test_labels : list Z) :
  length train_pixels = (length train_labels * 784)%nat ->
  length valid_pixels = (length valid_labels * 784)%nat ->
  length test_pixels = (length test_labels * 784)%nat ->
  Gan.loadMNIST (PyTuple [file_split train_pixels train_labels;
                          file_split valid_pixels valid_labels;
                          file_split test_pixels test_labels])
  = Some (PyTuple [labels_array train_labels;
                   images_28 train_pixels (length train_labels);
                   labels_array valid_labels;
                   images_28 valid_pixels (length valid_labels);
                   labels_array test_labels;
                   images_28 test_pixels (length test_labels)]).
Proof.
  intros H1 H2 H3. unfold Gan.loadMNIST. cbn [unpack3 mbind option_bind].
  rewrite (split_28_file _ _ H1), (split_28_file _ _ H2), (split_28_file _ _ H3).
  reflexivity.
Qed.

Lemma loadMNIST_keeps_pixels_witness :
  Gan.loadMNIST tiny_pickle
  = Some (PyTuple [labels_array [5%Z]; images_28 (replicate 784 0) 1;
                   labels_array [0%Z]; images_28 (replicate 784 0) 1;
                   labels_array [4%Z]; images_28 (replicate 784 0) 1]).
Proof.
  exact (loadMNIST_keeps_pixels (replicate 784 0) (replicate 784 0)
           (replicate 784 0) [5%Z] [0%Z] [4%Z]
           (length_replicate _ _) (length_replicate _ _) (length_replicate _ _)).
Defined.

Lemma split_28_any (a : ndarray R) labels :
  exists b,
    split_28 (PyTuple [PyArrayF a; labels_array labels])
    = Some (labels_array labels, images_28 b (length labels)) /\
    length b = (length labels * 784)%nat /\
    forall k, (k < length labels * 784)%nat ->
      nth k b 0 = nth (k mod length (data a)) (data a) 0.
Proof.
  eexists. split; [reflexivity|].
  assert (Hsize : size [length labels; 28; 28; 1]%nat = (length labels * 784)%nat)
    by (unfold size; simpl; lia).
  split.
  - rewrite resize_data_length. exact Hsize.
  - intros k Hk. apply resize_data_nth. rewrite Hsize. exact Hk.
Qed.

(** X7: the loader does not compare the number of images with the number
    of labels.  Whatever float array a split holds as its images, the
    loader returns as many images as there are labels, filled with the
    array's entries repeated from the start as often as needed (entry [k]
    is entry [k mod size] of the file's array), or cut short. *)
Theorem loadMNIST_repeats_pixels (train_images valid_images test_images : ndarray R)
  (train_labels valid_labels test_labels : list Z) :
  exists b1 b2 b3,
    Gan.loadMNIST
      (PyTuple [PyTuple [PyArrayF train_images; labels_array train_labels];
                PyTuple [PyArrayF valid_images; labels_array valid_labels];
                PyTuple [PyArrayF test_images; labels_array test_labels]])
    = Some (PyTuple [labels_array train_labels;
                     images_28 b1 (length train_labels);
                     labels_array valid_labels;
                     images_28 b2 (length valid_labels);
                     labels_array test_labels;
                     images_28 b3 (length test_labels)]) /\
    length b1 = (length train_labels * 784)%nat /\
    length b2 = (length valid_labels * 784)%nat /\
    length b3 = (length test_labels * 784)%nat /\
    (forall k, (k < length train_labels * 784)%nat ->
       nth k b1 0
       = nth (k mod length (data train_images)) (data train_images) 0) /\
    (forall k, (k < length valid_labels * 784)%nat ->
       nth k b2 0
       = nth (k mod length (data valid_images)) (data valid_images) 0) /\
    (forall k, (k < length test_labels * 784)%nat ->
       nth k b3 0
       = nth (k mod length (data test_images)) (data test_images) 0).
Proof.
  destruct (split_28_any train_images train_labels) as (b1 & E1 & L1 & N1).
  destruct (split_28_any valid_images valid_labels) as (b2 & E2 & L2 & N2).
  destruct (split_28_any test_images test_labels) as (b3 & E3 & L3 & N3).
  exists b1, b2, b3.
  split; [unfold Gan.loadMNIST; cbn [unpack3 mbind option_bind];
          rewrite E1, E2, E3; reflexivity|].
  auto 10.
Qed.

(** *** Padding *)

Lemma nth_flat_map_constant {A B} (f : A -> list B) (K : nat) (dx : A) (d : B)
  (l : list A) : forall i j,
  (forall x, length (f x) = K) -> (i < length l)%nat -> (j < K)%nat ->
  nth (i * K + j) (flat_map f l) d = nth j (f (nth i l dx)) d.
Proof.
  induction l as [|x l IH]; intros i j Hf Hi Hj; simpl in Hi; [lia|].
  cbn [flat_map]. destruct i as [|i].
  - simpl. apply app_nth1. rewrite Hf. exact Hj.
  - rewrite app_nth2 by (rewrite Hf; simpl; lia).
    rewrite Hf. replace (S i * K + j - K)%nat with (i * K + j)%nat by (simpl; lia).
    simpl nth. apply IH; [exact Hf|lia|exact Hj].
Qed.

Lemma pad_data_entry {A} (zero : A) n h w c (d : list A) i r q k :
  (i < n)%nat -> (r < h + 4)%nat -> (q < w + 4)%nat -> (k < c)%nat ->
  entry4 zero (h + 4) (w + 4) c (pad_data zero n h w c d) i r q k
  = if (2 <=? r)%nat && (r <? h + 2)%nat && (2 <=? q)%nat && (q <? w + 2)%nat
    then entry4 zero h w c d i (r - 2) (q - 2) k
    else zero.
Proof.
  intros Hi Hr Hq Hk. unfold entry4, pad_data.
  replace (((i * (h + 4) + r) * (w + 4) + q) * c + k)%nat
    with (i * ((h + 4) * ((w + 4) * c)) + (r * ((w + 4) * c) + (q * c + k)))%nat
    by nia.
  assert (Hqk : (q * c + k < (w + 4) * c)%nat) by nia.
  assert (Hrqk : (r * ((w + 4) * c) + (q * c + k) < (h + 4) * ((w + 4) * c))%nat)
    by nia.
  rewrite (nth_flat_map_constant _ ((h + 4) * ((w + 4) * c)) 0%nat);
    [|intros x;
      rewrite (flat_map_constant_length _ ((w + 4) * c)), length_seq;
      [reflexivity|];
      intros y; rewrite (flat_map_constant_length _ c), length_seq;
      [reflexivity|]; intros z; rewrite length_map; apply length_seq
     |rewrite length_seq; exact Hi|exact Hrqk].
  rewrite seq_nth by exact Hi.
  rewrite (nth_flat_map_constant _ ((w + 4) * c) 0%nat);
    [|intros y; rewrite (flat_map_constant_length _ c), length_seq;
      [reflexivity|]; intros z; rewrite length_map; apply length_seq
     |rewrite length_seq; exact Hr|exact Hqk].
  rewrite seq_nth by exact Hr.
  rewrite (nth_flat_map_constant _ c 0%nat);
    [|intros z; rewrite length_map; apply length_seq
     |rewrite length_seq; exact Hq|exact Hk].
  rewrite seq_nth by exact Hq. simpl Nat.add.
  rewrite nth_map_seq by exact Hk. reflexivity.
Qed.

Lemma split_32_file pixels labels :
  length pixels = (length labels * 784)%nat ->
  exists b,
    LeNet.split_32 (file_split pixels labels)
    = Some (labels_array labels,
            PyArrayF {| shape := [length labels; 32; 32; 1]%nat; data := b |}) /\
    length b = (length labels * 1024)%nat /\
    padded_from pixels b (length labels).
Proof.
  intros Hlen. unfold LeNet.split_32.
  rewrite (split_28_file _ _ Hlen). eexists. split; [reflexivity|]. split.
  - rewrite pad_data_length. lia.
  - intros i r q Hi Hr Hq.
    apply (pad_data_entry 0 (length labels) 28 28 1 pixels i r q 0); lia.
Qed.

(** X8: the loader of the classifier notebook returns, for a file whose
    splits hold 784 pixels per label, the labels unchanged and images of
    32 by 32 in which pixel (r + 2, q + 2) is pixel (r, q) of the file's
    image and the two outermost rows and columns on every side are 0. *)
Theorem loadMNIST_pads_images
  (train_pixels valid_pixels test_pixels : list R)
  (train_labels valid_labels test_labels : list Z) :
  length train_pixels = (length train_labels * 784)%nat ->
  length valid_pixels = (length valid_labels * 784)%nat ->
  length test_pixels = (length test_labels * 784)%nat ->
  exists b1 b2 b3,
    LeNet.loadMNIST (PyTuple [file_split train_pixels train_labels;
                              file_split valid_pixels valid_labels;
                              file_split test_pixels test_labels])
    = Some (PyTuple
        [labels_array train_labels;
         PyArrayF {| shape := [length train_labels; 32; 32; 1]%nat; data := b1 |};
         labels_array valid_labels;
         PyArrayF {| shape := [length valid_labels; 32; 32; 1]%nat; data := b2 |};
         labels_array test_labels;
         PyArrayF {| shape := [length test_labels; 32; 32; 1]%nat; data := b3 |}]) /\
    padded_from train_pixels b1 (length train_labels) /\
    padded_from valid_pixels b2 (length valid_labels) /\
    padded_from test_pixels b3 (length test_labels).
Proof.
  intros H1 H2 H3.
  destruct (split_32_file _ _ H1) as (b1 & E1 & _ & P1).
  destruct (split_32_file _ _ H2) as (b2 & E2 & _ & P2).
  destruct (split_32_file _ _ H3) as (b3 & E3 & _ & P3).
  exists b1, b2, b3.
  split; [unfold LeNet.loadMNIST; cbn [unpack3 mbind option_bind];
          rewrite E1, E2, E3; reflexivity|].
  auto.
Qed.

Lemma loadMNIST_pads_images_witness :
  exists b1 b2 b3,
    LeNet.loadMNIST tiny_pickle
    = Some (PyTuple
        [labels_array [5%Z];
         PyArrayF {| shape := [1; 32; 32; 1]%nat; data := b1 |};
         labels_array [0%Z];
         PyArrayF {| shape := [1; 32; 32; 1]%nat; data := b2 |};
         labels_array [4%Z];
         PyArrayF {| shape := [1; 32; 32; 1]%nat; data := b3 |}]) /\
    padded_from (replicate 784 0) b1 1 /\
    padded_from (replicate 784 0) b2 1 /\
    padded_from (replicate 784 0) b3 1.
Proof.
  exact (loadMNIST_pads_images (replicate 784 0) (replicate 784 0)
           (replicate 784 0) [5%Z] [0%Z] [4%Z]
           (length_replicate _ _) (length_replicate _ _) (length_replicate _ _)).
Defined.

End LoaderMore.

(** ** The generators and the composed model *)

Section NetworksMore.
Import Keras Networks.

Lemma tanh_range x : -1 < tanh x < 1.
Proof.
  unfold tanh, sinh, cosh.
  pose proof (exp_pos x) as H1. pose proof (exp_pos (- x)) as H2.
  set (a := exp x) in *. set (b := exp (- x)) in *.
  assert (Hd : 0 < (a + b) / 2) by lra.
  pose proof (Rinv_0_lt_compat _ Hd) as Hi.
  assert (Hone : (a + b) / 2 * / ((a + b) / 2) = 1) by (apply Rinv_r; lra).
  unfold Rdiv at 1 4. split; nra.
Qed.

Lemma tanh_layer input_dim units u w x :
  dense_shape input_dim units w -> length x = input_dim ->
  exists y, layer_forward (Dense u Tanh w) x = Some y /\ length y = units /\
            Forall (fun v => -1 <= v <= 1) y.
Proof.
  intros Hshape Hx. exists (map tanh (affine w x)). split; [|split].
  - simpl. destruct Hshape as (Hk & _ & _).
    rewrite Hx, Hk, Nat.eqb_refl. reflexivity.
  - rewrite length_map. eapply affine_length, Hshape.
  - induction (affine w x) as [|z zs IH]; simpl; constructor; [|exact IH].
    pose proof (tanh_range z). lra.
Qed.

Lemma forward_generator_1D d1 d2 z :
  dense_shape 1 32 d1 -> dense_shape 32 1 d2 -> length z = 1%nat ->
  exists G_z, forward (get_generator_1D d1 d2) z = Some G_z /\
              length G_z = 1%nat.
Proof.
  intros H1 H2 Hz. unfold get_generator_1D.
  destruct (dense_forward _ _ 32 Linear _ z H1 Hz) as (y1 & E1 & L1).
  destruct (leaky_forward (3 / 10) y1) as (y2 & E2 & L2).
  destruct (dense_forward _ _ 1 Linear _ y2 H2 ltac:(congruence))
    as (y3 & E3 & L3).
  exists y3. split; [|exact L3].
  rewrite (forward_step _ _ _ _ E1), (forward_step _ _ _ _ E2),
    (forward_step _ _ _ _ E3).
  reflexivity.
Qed.

Lemma forward_generator_MLP d1 d2 d3 d4 z :
  dense_shape 10 256 d1 -> dense_shape 256 512 d2 ->
  dense_shape 512 1024 d3 -> dense_shape 1024 784 d4 -> length z = 10%nat ->
  exists G_z, forward (get_generator_MLP d1 d2 d3 d4) z = Some G_z /\
              length G_z = 784%nat /\ Forall (fun v => -1 <= v <= 1) G_z.
Proof.
  intros H1 H2 H3 H4 Hz. unfold get_generator_MLP.
  destruct (dense_forward _ _ 256 Linear _ z H1 Hz) as (y1 & E1 & L1).
  destruct (leaky_forward (2 / 10) y1) as (y2 & E2 & L2).
  destruct (dense_forward _ _ 512 Linear _ y2 H2 ltac:(congruence))
    as (y3 & E3 & L3).
  destruct (leaky_forward (2 / 10) y3) as (y4 & E4 & L4).
  destruct (dense_forward _ _ 1024 Linear _ y4 H3 ltac:(congruence))
    as (y5 & E5 & L5).
  destruct (leaky_forward (2 / 10) y5) as (y6 & E6 & L6).
  destruct (tanh_layer 1024 784 784 d4 y6 H4 ltac:(congruence))
    as (y7 & E7 & L7 & R7).
  exists y7. split; [|split; assumption].
  rewrite (forward_step _ _ _ _ E1), (forward_step _ _ _ _ E2),
    (forward_step _ _ _ _ E3), (forward_step _ _ _ _ E4),
    (forward_step _ _ _ _ E5), (forward_step _ _ _ _ E6),
    (forward_step _ _ _ _ E7).
  reflexivity.
Qed.

(** X9: for all weights of the layers' shapes, the MNIST generator maps a
    latent vector of 10 entries to 784 values, each in [[-1, 1]] (its last
    layer is a tanh); and rescaling maps images with pixels in [[0, 1]] to
    images of the same shape with pixels in [[-1, 1]]: real and synthetic
    samples reach the discriminator in the same shape and range. *)
Theorem generator_and_data_range :
  (forall d1 d2 d3 d4 (z : vec),
     dense_shape 10 256 d1 -> dense_shape 256 512 d2 ->
     dense_shape 512 1024 d3 -> dense_shape 1024 784 d4 ->
     length z = 10%nat ->
     exists G_z, forward (get_generator_MLP d1 d2 d3 d4) z = Some G_z /\
                 length G_z = 784%nat /\ Forall (fun v => -1 <= v <= 1) G_z) /\
  (forall images : batch,
     Forall (Forall (fun v => 0 <= v <= 1)) images ->
     length (Trainer.rescale images) = length images /\
     Forall2 (fun img img' : vec => length img' = length img)
             images (Trainer.rescale images) /\
     Forall (Forall (fun v => -1 <= v <= 1)) (Trainer.rescale images)).
Proof.
  split.
  - intros d1 d2 d3 d4 z H1 H2 H3 H4 Hz. apply forward_generator_MLP; assumption.
  - intros images Hpix. split; [apply rescale_length|].
    unfold Trainer.rescale. induction Hpix as [|img images Himg _ [IH1 IH2]].
    + split; constructor.
    + split; cbn [map]; constructor; try assumption.
      * apply length_map.
      * clear -Himg. induction Himg as [|v img Hv _ IH]; cbn [map];
          constructor; [lra|exact IH].
Qed.

Lemma generator_and_data_range_witness :
  (exists G_z,
     forward (get_generator_MLP (zero_weights 10 256) (zero_weights 256 512)
                (zero_weights 512 1024) (zero_weights 1024 784))
             (replicate 10 1) = Some G_z /\
     length G_z = 784%nat /\ Forall (fun v => -1 <= v <= 1) G_z) /\
  Forall (Forall (fun v => -1 <= v <= 1)) (Trainer.rescale [[0; 1 / 2; 1]]).
Proof.
  split.
  - apply (proj1 generator_and_data_range);
      try apply zero_weights_shape. apply length_replicate.
  - apply (proj2 generator_and_data_range [[0; 1 / 2; 1]]).
    repeat constructor; lra.
Defined.

(** X10: the composed model is defined on every latent sample: the
    generator's output has the shape the discriminator takes, for the 1D
    networks (latent vectors of 1 entry) and for the perceptrons (10
    entries), and the composed output is one value in [[0, 1]]. *)
Theorem gan_forward_defined :
  (forall g1 g2 d1 d2 (z : vec),
     dense_shape 1 32 g1 -> dense_shape 32 1 g2 ->
     dense_shape 1 32 d1 -> dense_shape 32 1 d2 ->
     length z = 1%nat ->
     exists p, gan_forward (get_generator_1D g1 g2) (get_discriminator_1D d1 d2) z
               = Some [p] /\ probability p) /\
  (forall g1 g2 g3 g4 d1 d2 d3 d4 (z : vec),
     dense_shape 10 256 g1 -> dense_shape 256 512 g2 ->
     dense_shape 512 1024 g3 -> dense_shape 1024 784 g4 ->
     dense_shape 784 1024 d1 -> dense_shape 1024 512 d2 ->
     dense_shape 512 256 d3 -> dense_shape 256 1 d4 ->
     length z = 10%nat ->
     exists p, gan_forward (get_generator_MLP g1 g2 g3 g4)
                 (get_discriminator_MLP d1 d2 d3 d4) z
               = Some [p] /\ probability p).
Proof.
  split.
  - intros g1 g2 d1 d2 z Hg1 Hg2 Hd1 Hd2 Hz.
    destruct (forward_generator_1D g1 g2 z Hg1 Hg2 Hz) as (G_z & EG & LG).
    destruct (forward_1D d1 d2 G_z Hd1 Hd2 LG) as (p & ED & Hp).
    exists p. unfold gan_forward. rewrite EG. auto.
  - intros g1 g2 g3 g4 d1 d2 d3 d4 z Hg1 Hg2 Hg3 Hg4 Hd1 Hd2 Hd3 Hd4 Hz.
    destruct (forward_generator_MLP g1 g2 g3 g4 z Hg1 Hg2 Hg3 Hg4 Hz)
      as (G_z & EG & LG & _).
    destruct (forward_MLP d1 d2 d3 d4 G_z Hd1 Hd2 Hd3 Hd4 LG) as (p & ED & Hp).
    exists p. unfold gan_forward. rewrite EG. auto.
Qed.

Lemma gan_forward_defined_witness :
  exists p,
    gan_forward (get_generator_1D (zero_weights 1 32) (zero_weights 32 1))
      (get_discriminator_1D (zero_weights 1 32) (zero_weights 32 1)) [0]
    = Some [p] /\ probability p.
Proof.
  apply (proj1 gan_forward_defined); try apply zero_weights_shape. reflexivity.
Defined.

End NetworksMore.

(** ** The files [saveModels] writes *)

Section CheckpointsMore.
Import Checkpoints.

Lemma string_length_app (s t : string) :
  String.length (s +:+ t) = (String.length s + String.length t)%nat.
Proof. induction s as [|a s IH]; simpl; [reflexivity|]. rewrite IH. reflexivity. Qed.

Lemma string_app_inj_r (t : string) : forall s s' : string,
  s +:+ t = s' +:+ t -> s = s'.
Proof.
  induction s as [|a s IH]; intros [|a' s'] Heq.
  - reflexivity.
  - apply (f_equal String.length) in Heq.
    rewrite !string_length_app in Heq. simpl in Heq. lia.
  - apply (f_equal String.length) in Heq.
    rewrite !string_length_app in Heq. simpl in Heq. lia.
  - simpl in Heq. injection Heq as -> Heq. f_equal. apply IH, Heq.
Qed.

Lemma generator_file_inj e e' : generator_file e = generator_file e' -> e = e'.
Proof.
  unfold generator_file. intros Heq.
  apply String.app_inj in Heq. apply string_app_inj_r in Heq.
  apply (inj pretty) in Heq. exact Heq.
Qed.

Lemma discriminator_file_inj e e' :
  discriminator_file e = discriminator_file e' -> e = e'.
Proof.
  unfold discriminator_file. intros Heq.
  apply String.app_inj in Heq. apply string_app_inj_r in Heq.
  apply (inj pretty) in Heq. exact Heq.
Qed.

Lemma generator_file_not_discriminator e e' :
  generator_file e <> discriminator_file e'.
Proof. unfold generator_file, discriminator_file. simpl. discriminate. Qed.

Lemma file_of_epoch name epochs :
  name ∈ files_written epochs ->
  exists e, (e < epochs)%nat /\ e mod 5 = 0%nat /\
            (name = generator_file e \/ name = discriminator_file e).
Proof.
  unfold files_written. intros Hin.
  apply list_elem_of_In, in_flat_map in Hin as (e & He & Hname).
  apply in_seq in He. exists e.
  destruct (Nat.eqb_spec (e mod 5) 0) as [Hmod|_]; [|destruct Hname].
  split; [lia|]. split; [exact Hmod|].
  destruct Hname as [<-|[<-|[]]]; auto.
Qed.

Lemma files_from_NoDup start len :
  NoDup (flat_map (fun e => if Nat.eqb (e mod 5) 0 then saveModels e else [])
                  (seq start len)) /\
  forall name,
    name ∈ flat_map (fun e => if Nat.eqb (e mod 5) 0 then saveModels e else [])
                    (seq start len) ->
    exists e, (start <= e)%nat /\
              (name = generator_file e \/ name = discriminator_file e).
Proof.
  revert start. induction len as [|len IH]; intros start.
  - split; [constructor|]. intros name Hin. inversion Hin.
  - destruct (IH (S start)) as [Hnd Hfrom]. cbn [seq flat_map]. split.
    + apply NoDup_app. split; [|split; [|exact Hnd]].
      * destruct (Nat.eqb (start mod 5) 0); [|constructor].
        unfold saveModels. apply NoDup_cons. split; [|apply NoDup_singleton].
        intros Hin. apply list_elem_of_singleton in Hin.
        exact (generator_file_not_discriminator _ _ Hin).
      * intros name Hhere Hlater.
        destruct (Hfrom name Hlater) as (e & He & Hname).
        destruct (Nat.eqb (start mod 5) 0); [|inversion Hhere].
        unfold saveModels in Hhere.
        apply elem_of_cons in Hhere as [->|Hhere];
          [|apply list_elem_of_singleton in Hhere; subst name];
          destruct Hname as [Hname|Hname].
        -- apply generator_file_inj in Hname. lia.
        -- exact (generator_file_not_discriminator _ _ Hname).
        -- symmetry in Hname. exact (generator_file_not_discriminator _ _ Hname).
        -- apply discriminator_file_inj in Hname. lia.
    + intros name Hin. apply elem_of_app in Hin as [Hhere|Hlater].
      * exists start. split; [lia|].
        destruct (Nat.eqb (start mod 5) 0); [|inversion Hhere].
        unfold saveModels in Hhere.
        apply elem_of_cons in Hhere as [->|Hhere]; [auto|].
        apply list_elem_of_singleton in Hhere. auto.
      * destruct (Hfrom name Hlater) as (e & He & Hname).
        exists e. split; [lia|exact Hname].
Qed.

(** X12: a training loop never writes the same file twice: the files
    [saveModels] writes at the epochs divisible by 5 are pairwise distinct,
    whatever the number of epochs, and each is the generator's or the
    discriminator's file of such an epoch. *)
Theorem checkpoints_distinct (epochs : nat) :
  NoDup (files_written epochs) /\
  (forall name, name ∈ files_written epochs ->
     exists e, (e < epochs)%nat /\ e mod 5 = 0%nat /\
               (name = generator_file e \/ name = discriminator_file e)) /\
  (forall e, (e < epochs)%nat -> e mod 5 = 0%nat ->
     generator_file e ∈ files_written epochs /\
     discriminator_file e ∈ files_written epochs).
Proof.
  split; [exact (proj1 (files_from_NoDup 0 epochs))|].
  split; [intros name; apply file_of_epoch|].
  intros e He Hmod. unfold files_written.
  assert (Hsave : forall name, In name (saveModels e) ->
                    name ∈ flat_map (fun e => if Nat.eqb (e mod 5) 0
                                              then saveModels e else [])
                                    (seq 0 epochs)).
  { intros name Hname. apply list_elem_of_In, in_flat_map. exists e.
    split; [apply in_seq; lia|]. rewrite Hmod. exact Hname. }
  split; apply Hsave; simpl; auto.
Qed.

Example files_of_ten_epochs :
  files_written 10
  = [ "gan_generator_epoch_0.h5"; "gan_discriminator_epoch_0.h5";
      "gan_generator_epoch_5.h5"; "gan_discriminator_epoch_5.h5" ]%string.
Proof. reflexivity. Qed.

End CheckpointsMore.

(** ** The trainer, step by step *)

Section TrainerMore.
Import Trainer TrainerCNN.
Context `{Backend}.

Ltac run_cell :=
  cbn [bind ret raise random_seed np_random_normal np_random_rows predict
       set_trainable compile train_on_batch set_d_loss set_g_loss
       d_losses_append_d_loss g_losses_append_g_loss reset_losses
       set_np_rng set_losses
       weights trainable collected kstate np_rng py_rng d_loss g_loss
       d_losses g_losses trace fst snd].

(** *** What each sub-step of the 1D loop does to the state *)

Lemma discriminator_update_1D_detail ld s :
  collected s discriminator = [Dis] ->
  let r1 := np_normal 0 1 n_samples ld (np_rng s) in
  let r2 := np_normal real_mean 1 n_samples ld r1.2 in
  let X := np_concatenate r2.1 (map (forward Gen (weights s Gen)) r1.1) in
  let Y := discriminator_labels n_samples 1 in
  let loss :=
    Loss.batch_loss Y (map (train_output discriminator (kstate s) (weights s)) X) in
  exists s',
    discriminator_update_1D ld s = Ok tt s' /\
    trace s' = trace s ++
      [EvDraw Latent r1.1; EvDraw Real r2.1; EvTrain discriminator X Y [Dis] loss] /\
    np_rng s' = r2.2 /\
    weights s' Dis = (optimizer_step discriminator (kstate s) (weights s) X Y).1 Dis /\
    weights s' Gen = weights s Gen /\
    d_losses s' = d_losses s ++ [loss] /\ g_losses s' = g_losses s /\
    frame s s'.
Proof.
  intros Hc. cbv zeta. eexists. split.
  { unfold discriminator_update_1D. run_cell.
    rewrite assign_prefix_zeros.
    rewrite trained_discriminator by (try reflexivity; exact Hc).
    reflexivity. }
  run_cell. split; [rewrite <- !app_assoc; reflexivity|].
  split; [reflexivity|].
  split; [rewrite decide_True by (apply list_elem_of_singleton; reflexivity);
          reflexivity|].
  split; [rewrite decide_False by (apply not_in_singleton; discriminate);
          reflexivity|].
  repeat split.
Qed.

Lemma generator_update_1D_detail ld s :
  collected s gan = [Gen] -> trainable s Gen = true ->
  let r := np_normal 0 1 n_samples ld (np_rng s) in
  let loss :=
    Loss.batch_loss (np_ones n_samples)
      (map (train_output gan (kstate s) (weights s)) r.1) in
  exists s',
    generator_update_1D ld s = Ok tt s' /\
    trace s' = trace s ++
      [EvDraw Latent r.1; EvTrain gan r.1 (np_ones n_samples) [Gen] loss] /\
    np_rng s' = r.2 /\
    weights s' Dis = weights s Dis /\
    weights s' Gen
    = (optimizer_step gan (kstate s) (weights s) r.1 (np_ones n_samples)).1 Gen /\
    g_losses s' = g_losses s ++ [loss] /\ d_losses s' = d_losses s /\
    frame s s'.
Proof.
  intros Hc Hg. cbv zeta. eexists. split.
  { unfold generator_update_1D. run_cell.
    rewrite trained_gan by (try reflexivity; assumption).
    reflexivity. }
  run_cell. split; [rewrite <- !app_assoc; reflexivity|].
  split; [reflexivity|].
  split; [rewrite decide_False by (apply not_in_singleton; discriminate);
          reflexivity|].
  split; [rewrite decide_True by (apply list_elem_of_singleton; reflexivity);
          reflexivity|].
  repeat split.
Qed.

Lemma plot_1D_detail ld s :
  let r1 := np_normal 0 1 n_samples ld (np_rng s) in
  let r2 := np_normal real_mean 1 n_samples ld r1.2 in
  exists s',
    plot_1D ld s = Ok tt s' /\
    trace s' = trace s ++ [EvDraw Latent r1.1; EvDraw Real r2.1] /\
    np_rng s' = rng_after_plot_1D ld (np_rng s) /\
    weights s' = weights s /\ kstate s' = kstate s /\
    trainable s' = trainable s /\ collected s' = collected s /\
    d_losses s' = d_losses s /\ g_losses s' = g_losses s /\
    py_rng s' = py_rng s.
Proof.
  cbv zeta. eexists. split; [unfold plot_1D; run_cell; reflexivity|].
  run_cell. split; [rewrite <- !app_assoc; reflexivity|].
  repeat split.
Qed.

Lemma step_1D_detail ld e s :
  compiled s ->
  let r1 := np_normal 0 1 n_samples ld (np_rng s) in
  let r2 := np_normal real_mean 1 n_samples ld r1.2 in
  let r3 := np_normal 0 1 n_samples ld r2.2 in
  let p1 := np_normal 0 1 n_samples ld r3.2 in
  let p2 := np_normal real_mean 1 n_samples ld p1.2 in
  let X := np_concatenate r2.1 (map (forward Gen (weights s Gen)) r1.1) in
  let Y := discriminator_labels n_samples 1 in
  exists l_d l_g s',
    step_1D ld e s = Ok tt s' /\
    trace s' = trace s ++
      [EvDraw Latent r1.1; EvDraw Real r2.1;
       EvTrain discriminator X Y [Dis] l_d;
       EvDraw Latent r3.1; EvTrain gan r3.1 (np_ones n_samples) [Gen] l_g] ++
      (if Nat.eqb (e mod 100) 0
       then [EvDraw Latent p1.1; EvDraw Real p2.1] else []) /\
    np_rng s' = (if Nat.eqb (e mod 100) 0
                 then rng_after_plot_1D ld (rng_after_step_1D ld (np_rng s))
                 else rng_after_step_1D ld (np_rng s)) /\
    weights s' Dis
    = (optimizer_step discriminator (kstate s) (weights s) X Y).1 Dis /\
    d_losses s' = d_losses s ++ [l_d] /\ g_losses s' = g_losses s ++ [l_g].
Proof.
  intros (Hcd & Hcg & Hflag). cbv zeta.
  destruct (discriminator_update_1D_detail ld s Hcd)
    as (s1 & E1 & T1 & R1 & WD1 & WG1 & DL1 & GL1 & F1).
  cbv zeta in *.
  destruct (generator_update_1D_detail ld s1)
    as (s2 & E2 & T2 & R2 & WD2 & WG2 & GL2 & DL2 & F2).
  { rewrite (frame_collected _ _ F1). exact Hcg. }
  { rewrite (frame_gen_flag _ _ F1). exact Hflag. }
  cbv zeta in *. rewrite R1 in T2, R2, GL2.
  eexists _, _.
  unfold step_1D, bind. rewrite E1, E2.
  destruct (Nat.eqb (e mod 100) 0).
  - destruct (plot_1D_detail ld s2)
      as (s3 & E3 & T3 & R3 & W3 & _ & _ & _ & DL3 & GL3 & _).
    cbv zeta in *. rewrite R2 in T3, R3.
    exists s3. split; [exact E3|].
    split; [rewrite T3, T2, T1, <- !app_assoc; reflexivity|].
    split; [exact R3|].
    rewrite W3, WD2, DL3, GL3, DL2, GL2, DL1, GL1. auto.
  - exists s2. split; [reflexivity|].
    split; [rewrite T2, T1, <- !app_assoc; reflexivity|].
    split; [exact R2|].
    rewrite WD2, DL2, GL2, DL1, GL1. auto.
Qed.

(** X13: the events of one step of the 1D loop, in order: a latent batch
    is drawn, then a real batch; the discriminator is trained on the real
    batch followed by the generator's output on the latent batch; then a
    new latent batch is drawn from the generator state the real draw left,
    and the composed model is trained on it with all targets 1, updating
    the generator only; every 100th step two more batches are drawn for the
    plot. *)
Theorem step_1D_events (s : trainer) (latent_dim e : nat) :
  compiled s ->
  let r1 := np_normal 0 1 n_samples latent_dim (np_rng s) in
  let r2 := np_normal real_mean 1 n_samples latent_dim r1.2 in
  let r3 := np_normal 0 1 n_samples latent_dim r2.2 in
  let p1 := np_normal 0 1 n_samples latent_dim r3.2 in
  let p2 := np_normal real_mean 1 n_samples latent_dim p1.2 in
  exists l_d l_g s',
    step_1D latent_dim e s = Ok tt s' /\
    trace s' = trace s ++
      [EvDraw Latent r1.1; EvDraw Real r2.1;
       EvTrain discriminator
         (r2.1 ++ map (forward Gen (weights s Gen)) r1.1)
         (replicate n_samples 1 ++ replicate n_samples 0) [Dis] l_d;
       EvDraw Latent r3.1;
       EvTrain gan r3.1 (replicate n_samples 1) [Gen] l_g] ++
      (if Nat.eqb (e mod 100) 0
       then [EvDraw Latent p1.1; EvDraw Real p2.1] else []).
Proof.
  intros Hs.
  destruct (step_1D_detail latent_dim e s Hs) as (l_d & l_g & s' & E & T & _).
  exists l_d, l_g, s'. split; [exact E|exact T].
Qed.

(** X14: the periodic plot is not free of effects: it leaves weights,
    flags and histories alone but advances NumPy's generator by two draws,
    so the state the generator is in after a step, and with it every batch
    drawn later, depends on whether the step plotted. *)
Theorem plot_advances_numpy_generator (s : trainer) (latent_dim : nat) :
  compiled s ->
  (exists s',
     plot_1D latent_dim s = Ok tt s' /\
     np_rng s' = rng_after_plot_1D latent_dim (np_rng s) /\
     weights s' = weights s /\ trainable s' = trainable s /\
     d_losses s' = d_losses s /\ g_losses s' = g_losses s) /\
  (forall e, exists s',
     step_1D latent_dim e s = Ok tt s' /\
     np_rng s'
     = if Nat.eqb (e mod 100) 0
       then rng_after_plot_1D latent_dim
              (rng_after_step_1D latent_dim (np_rng s))
       else rng_after_step_1D latent_dim (np_rng s)).
Proof.
  intros Hs. split.
  - destruct (plot_1D_detail latent_dim s)
      as (s' & E & _ & R & W & _ & Tr & _ & DL & GL & _).
    exists s'. auto 10.
  - intros e.
    destruct (step_1D_detail latent_dim e s Hs)
      as (l_d & l_g & s' & E & _ & R & _).
    exists s'. auto.
Qed.

(** X15: the discriminator update of either loop updates the
    discriminator only: the generator's weights after it are those before
    it. *)
Theorem discriminator_update_keeps_generator (s : trainer) :
  compiled s ->
  (forall latent_dim, exists evs s',
      discriminator_update_1D latent_dim s = Ok tt s' /\
      trace s' = trace s ++ evs /\ updates evs = [Dis] /\
      weights s' Gen = weights s Gen) /\
  (forall latent_dim X_train, exists evs s',
      discriminator_update_MNIST latent_dim X_train s = Ok tt s' /\
      trace s' = trace s ++ evs /\ updates evs = [Dis] /\
      weights s' Gen = weights s Gen).
Proof.
  intros (Hcd & _ & _). split.
  - intros ld.
    destruct (discriminator_update_1D_run ld s)
      as (n1 & r1 & u1 & l1 & s' & E & T & _ & _ & _ & _ & _ & _ & _ & _ & _ & U).
    destruct (U Hcd) as [-> Hgen].
    eexists _, s'. split; [exact E|]. split; [exact T|].
    split; [reflexivity|exact Hgen].
  - intros ld X_train.
    destruct (discriminator_update_MNIST_run ld X_train s)
      as (n1 & r1 & u1 & l1 & s' & E & T & _ & _ & _ & _ & _ & _ & _ & _ & U).
    destruct (U Hcd) as [-> Hgen].
    eexists _, s'. split; [exact E|]. split; [exact T|].
    split; [reflexivity|exact Hgen].
Qed.

(** X17: a discriminator batch of the MNIST loop holds [batch_size] rows
    of the training set, drawn by index: every real sample the
    discriminator sees is an image of [X_train]. *)
Theorem real_batch_from_dataset (s : trainer) (latent_dim : nat)
  (X_train : batch) :
  (0 < length X_train)%nat ->
  exists noise image_batch upd loss s',
    discriminator_update_MNIST latent_dim X_train s = Ok tt s' /\
    trace s' = trace s ++
      [EvDraw Latent noise; EvDraw Real image_batch;
       EvTrain discriminator
         (image_batch ++ map (forward Gen (weights s Gen)) noise)
         (replicate batch_size (9 / 10) ++ replicate batch_size 0) upd loss] /\
    length image_batch = batch_size /\
    Forall (fun img => img ∈ X_train) image_batch.
Proof.
  intros Hpos. eexists _, _, _, _, _. split.
  { unfold discriminator_update_MNIST. run_cell.
    rewrite assign_prefix_zeros. reflexivity. }
  run_cell. split; [rewrite <- !app_assoc; reflexivity|].
  split; [rewrite length_map; apply np_randint_size|].
  apply Forall_forall. intros img Himg.
  apply list_elem_of_In, in_map_iff in Himg as (i & <- & Hi).
  apply list_elem_of_In in Hi.
  pose proof (np_randint_range 0 (length X_train) batch_size
                (np_normal 0 1 batch_size latent_dim (np_rng s)).2 Hpos) as Hrange.
  rewrite Forall_forall in Hrange.
  apply list_elem_of_lookup_total_2. apply (Hrange i), Hi.
Qed.

(** *** The training cells as a whole *)

(** X18: whatever the histories held before, the training cell of the 1D
    problem ends with 10000 values in each, and that of the MNIST
    perceptrons, on 50000 images of 784 pixels, with 200 in each: the cells
    start their histories afresh, the 1D loop records every step and the
    MNIST loop one step per epoch. *)
Theorem histories_after_training (s : trainer) :
  compiled s ->
  (forall latent_dim, exists s',
      training_cell_1D latent_dim s = Ok tt s' /\
      Z.of_nat (length (d_losses s')) = 10000%Z /\
      Z.of_nat (length (g_losses s')) = 10000%Z) /\
  (forall latent_dim (train_set_images : batch),
      length train_set_images = Z.to_nat 50000 ->
      Forall (fun img : vec => length img = 784%nat) train_set_images ->
      exists s',
        training_cell_MNIST latent_dim train_set_images s = Ok tt s' /\
        length (d_losses s') = 200%nat /\ length (g_losses s') = 200%nat).
Proof.
  intros Hs. split.
  - intros ld.
    destruct (training_cell_1D_run ld s Hs) as (evs & s' & E & _ & D & G & _).
    exists s'. rewrite D, G. unfold epochs_1D.
    split; [exact E|]. split; lia.
  - intros ld imgs Hlen Hrows.
    destruct (training_cell_MNIST_run ld imgs s Hs Hlen Hrows)
      as (evs & s' & E & _ & D & G).
    exists s'. split; [exact E|]. split; assumption.
Qed.




End TrainerMore.


(** ** The order of the updates and the recorded losses *)

Section TrainerOrder.
Import Trainer TrainerCNN.
Context `{Backend}.

Ltac run_cell :=
  cbn [bind ret raise random_seed np_random_normal np_random_rows predict
       set_trainable compile train_on_batch set_d_loss set_g_loss
       d_losses_append_d_loss g_losses_append_g_loss reset_losses
       set_np_rng set_losses
       weights trainable collected kstate np_rng py_rng d_loss g_loss
       d_losses g_losses trace fst snd].

(** *** What each sub-step of the MNIST loop does to the state *)

Lemma drawn_rows (X_train : batch) n r :
  (0 < length X_train)%nat ->
  Forall (fun img => img ∈ X_train)
    (map (fun i => X_train !!! i) (np_randint 0 (length X_train) n r).1).
Proof.
  intros Hpos. apply Forall_forall. intros img Himg.
  apply list_elem_of_In, in_map_iff in Himg as (i & <- & Hi).
  apply list_elem_of_In in Hi.
  pose proof (np_randint_range 0 (length X_train) n r Hpos) as Hrange.
  rewrite Forall_forall in Hrange.
  apply list_elem_of_lookup_total_2. apply (Hrange i), Hi.
Qed.

Lemma discriminator_update_MNIST_detail ld (X_train : batch) s :
  collected s discriminator = [Dis] ->
  let r1 := np_normal 0 1 batch_size ld (np_rng s) in
  let r2 := np_randint 0 (length X_train) batch_size r1.2 in
  let image_batch := map (fun i => X_train !!! i) r2.1 in
  let X := np_concatenate image_batch (map (forward Gen (weights s Gen)) r1.1) in
  let Y := discriminator_labels batch_size (9 / 10) in
  let loss :=
    Loss.batch_loss Y (map (train_output discriminator (kstate s) (weights s)) X) in
  exists s',
    discriminator_update_MNIST ld X_train s = Ok tt s' /\
    trace s' = trace s ++
      [EvDraw Latent r1.1; EvDraw Real image_batch;
       EvTrain discriminator X Y [Dis] loss] /\
    np_rng s' = r2.2 /\
    weights s' Dis = (optimizer_step discriminator (kstate s) (weights s) X Y).1 Dis /\
    weights s' Gen = weights s Gen /\
    d_loss s' = Some loss /\ g_loss s' = g_loss s /\
    d_losses s' = d_losses s /\ g_losses s' = g_losses s /\
    0 <= loss /\
    frame s s'.
Proof.
  intros Hc. cbv zeta. eexists. split.
  { unfold discriminator_update_MNIST. run_cell.
    rewrite assign_prefix_zeros.
    rewrite trained_discriminator by (try reflexivity; exact Hc).
    reflexivity. }
  run_cell. split; [rewrite <- !app_assoc; reflexivity|].
  split; [reflexivity|].
  split; [rewrite decide_True by (apply list_elem_of_singleton; reflexivity);
          reflexivity|].
  split; [rewrite decide_False by (apply not_in_singleton; discriminate);
          reflexivity|].
  do 4 (split; [reflexivity|]).
  split; [|split; reflexivity].
  apply batch_loss_nonneg, discriminator_labels_probability.
  unfold Keras.probability. lra.
Qed.

Lemma generator_update_MNIST_detail ld s :
  collected s gan = [Gen] -> trainable s Gen = true ->
  let r := np_normal 0 1 batch_size ld (np_rng s) in
  let loss :=
    Loss.batch_loss (np_ones batch_size)
      (map (train_output gan (kstate s) (weights s)) r.1) in
  exists s',
    generator_update_MNIST ld s = Ok tt s' /\
    trace s' = trace s ++
      [EvDraw Latent r.1; EvTrain gan r.1 (np_ones batch_size) [Gen] loss] /\
    np_rng s' = r.2 /\
    weights s' Dis = weights s Dis /\
    weights s' Gen
    = (optimizer_step gan (kstate s) (weights s) r.1 (np_ones batch_size)).1 Gen /\
    g_loss s' = Some loss /\ d_loss s' = d_loss s /\
    g_losses s' = g_losses s /\ d_losses s' = d_losses s /\
    0 <= loss /\
    frame s s'.
Proof.
  intros Hc Hg. cbv zeta. eexists. split.
  { unfold generator_update_MNIST. run_cell.
    rewrite trained_gan by (try reflexivity; assumption).
    reflexivity. }
  run_cell. split; [rewrite <- !app_assoc; reflexivity|].
  split; [reflexivity|].
  split; [rewrite decide_False by (apply not_in_singleton; discriminate);
          reflexivity|].
  split; [rewrite decide_True by (apply list_elem_of_singleton; reflexivity);
          reflexivity|].
  do 4 (split; [reflexivity|]).
  split; [|split; reflexivity].
  apply batch_loss_nonneg, np_ones_probability.
Qed.

(** C1: in a state where the model cell has run, a trainer step of the 1D
    loop and one of the MNIST loop are a discriminator update followed by a
    generator update.  The first replaces the discriminator's weights by
    the optimiser's step on the discriminator batch and leaves the
    generator's weights as they were; the second computes the generator's
    step from the weights the first left, the discriminator's being the
    updated ones, and leaves the discriminator's weights alone.  The step
    succeeds, leaves the models compiled as they were, and logs the two
    updates in this order. *)
Theorem discriminator_update_precedes_generator_update (s : trainer) :
  compiled s ->
  (forall latent_dim e,
     let r1 := np_normal 0 1 n_samples latent_dim (np_rng s) in
     let r2 := np_normal real_mean 1 n_samples latent_dim r1.2 in
     let r3 := np_normal 0 1 n_samples latent_dim r2.2 in
     let X := r2.1 ++ map (forward Gen (weights s Gen)) r1.1 in
     let Y := replicate n_samples 1 ++ replicate n_samples 0 in
     exists evs s1 s2 s',
       discriminator_update_1D latent_dim s = Ok tt s1 /\
       generator_update_1D latent_dim s1 = Ok tt s2 /\
       step_1D latent_dim e s = Ok tt s' /\ compiled s' /\
       trace s' = trace s ++ evs /\ updates evs = [Dis; Gen] /\
       weights s1 Dis
       = (optimizer_step discriminator (kstate s) (weights s) X Y).1 Dis /\
       weights s1 Gen = weights s Gen /\
       weights s2 Gen
       = (optimizer_step gan (kstate s1) (weights s1) r3.1
            (replicate n_samples 1)).1 Gen /\
       weights s2 Dis = weights s1 Dis /\
       weights s' = weights s2) /\
  (forall latent_dim (X_train : batch),
     let r1 := np_normal 0 1 batch_size latent_dim (np_rng s) in
     let r2 := np_randint 0 (length X_train) batch_size r1.2 in
     let r3 := np_normal 0 1 batch_size latent_dim r2.2 in
     let X := map (fun i => X_train !!! i) r2.1
              ++ map (forward Gen (weights s Gen)) r1.1 in
     let Y := replicate batch_size (9 / 10) ++ replicate batch_size 0 in
     exists evs s1 s',
       discriminator_update_MNIST latent_dim X_train s = Ok tt s1 /\
       generator_update_MNIST latent_dim s1 = Ok tt s' /\
       step_MNIST latent_dim X_train s = Ok tt s' /\ compiled s' /\
       trace s' = trace s ++ evs /\ updates evs = [Dis; Gen] /\
       weights s1 Dis
       = (optimizer_step discriminator (kstate s) (weights s) X Y).1 Dis /\
       weights s1 Gen = weights s Gen /\
       weights s' Gen
       = (optimizer_step gan (kstate s1) (weights s1) r3.1
            (replicate batch_size 1)).1 Gen /\
       weights s' Dis = weights s1 Dis).
Proof.
  intros Hs. pose proof Hs as (Hcd & Hcg & Hflag). split.
  - intros ld e. cbv zeta.
    destruct (discriminator_update_1D_detail ld s Hcd)
      as (s1 & E1 & T1 & R1 & WD1 & WG1 & _ & _ & F1).
    cbv zeta in *.
    destruct (generator_update_1D_detail ld s1)
      as (s2 & E2 & T2 & R2 & WD2 & WG2 & _ & _ & F2).
    { rewrite (frame_collected _ _ F1). exact Hcg. }
    { rewrite (frame_gen_flag _ _ F1). exact Hflag. }
    cbv zeta in *. rewrite R1 in T2, WG2.
    assert (Hs2 : compiled s2).
    { eapply frame_compiled; [exact F2|].
      eapply frame_compiled; [exact F1|exact Hs]. }
    unfold step_1D, bind. rewrite E1, E2.
    destruct (Nat.eqb (e mod 100) 0).
    + destruct (plot_1D_detail ld s2)
        as (s3 & E3 & T3 & _ & W3 & _ & Tr3 & C3 & _).
      cbv zeta in *.
      eexists _, s1, s2, s3.
      split; [reflexivity|]. split; [exact E2|]. split; [exact E3|].
      split.
      { destruct Hs2 as (A & B & C). unfold compiled.
        rewrite C3, Tr3. auto. }
      split; [rewrite T3, T2, T1, <- !app_assoc; reflexivity|].
      split; [reflexivity|].
      split; [exact WD1|]. split; [exact WG1|]. split; [exact WG2|].
      split; [exact WD2|exact W3].
    + eexists _, s1, s2, s2.
      split; [reflexivity|]. split; [exact E2|]. split; [reflexivity|].
      split; [exact Hs2|].
      split; [rewrite T2, T1, <- !app_assoc; reflexivity|].
      split; [reflexivity|].
      split; [exact WD1|]. split; [exact WG1|]. split; [exact WG2|].
      split; [exact WD2|reflexivity].
  - intros ld X_train. cbv zeta.
    destruct (discriminator_update_MNIST_detail ld X_train s Hcd)
      as (s1 & E1 & T1 & R1 & WD1 & WG1 & _ & _ & _ & _ & _ & F1).
    cbv zeta in *.
    destruct (generator_update_MNIST_detail ld s1)
      as (s2 & E2 & T2 & R2 & WD2 & WG2 & _ & _ & _ & _ & _ & F2).
    { rewrite (frame_collected _ _ F1). exact Hcg. }
    { rewrite (frame_gen_flag _ _ F1). exact Hflag. }
    cbv zeta in *. rewrite R1 in T2, WG2.
    eexists _, s1, s2.
    split; [exact E1|]. split; [exact E2|].
    split; [unfold step_MNIST, bind; rewrite E1; exact E2|].
    split.
    { eapply frame_compiled; [exact F2|].
      eapply frame_compiled; [exact F1|exact Hs]. }
    split; [rewrite T2, T1, <- !app_assoc; reflexivity|].
    split; [reflexivity|].
    split; [exact WD1|]. split; [exact WG1|]. split; [exact WG2|exact WD2].
Qed.

(** *** The losses a loop records are those its training calls returned *)

Lemma returned_losses_app m e1 e2 :
  returned_losses m (e1 ++ e2) = returned_losses m e1 ++ returned_losses m e2.
Proof.
  unfold returned_losses, train_calls. rewrite flat_map_app, map_app.
  reflexivity.
Qed.

Lemma returned_losses_quiet m evs :
  length (train_calls m evs) = 0%nat -> returned_losses m evs = [].
Proof.
  unfold returned_losses. destruct (train_calls m evs); [reflexivity|discriminate].
Qed.

Lemma step_MNIST_losses ld (X_train : batch) s :
  compiled s ->
  exists evs l_d l_g s',
    step_MNIST ld X_train s = Ok tt s' /\ compiled s' /\
    trace s' = trace s ++ evs /\
    returned_losses discriminator evs = [l_d] /\
    returned_losses gan evs = [l_g] /\
    d_losses s' = d_losses s /\ g_losses s' = g_losses s /\
    d_loss s' = Some l_d /\ g_loss s' = Some l_g /\
    0 <= l_d /\ 0 <= l_g.
Proof.
  intros Hs. pose proof Hs as (Hcd & Hcg & Hflag).
  destruct (discriminator_update_MNIST_detail ld X_train s Hcd)
    as (s1 & E1 & T1 & _ & _ & _ & V1 & W1 & D1 & G1 & P1 & F1).
  cbv zeta in *.
  destruct (generator_update_MNIST_detail ld s1)
    as (s2 & E2 & T2 & _ & _ & _ & W2 & V2 & G2 & D2 & P2 & F2).
  { rewrite (frame_collected _ _ F1). exact Hcg. }
  { rewrite (frame_gen_flag _ _ F1). exact Hflag. }
  cbv zeta in *.
  eexists _, _, _, s2.
  split; [unfold step_MNIST, bind; rewrite E1; exact E2|].
  split.
  { eapply frame_compiled; [exact F2|].
    eapply frame_compiled; [exact F1|exact Hs]. }
  split; [rewrite T2, T1, <- !app_assoc; reflexivity|].
  split; [reflexivity|]. split; [reflexivity|].
  rewrite D2, G2, D1, G1, V2, V1, W2.
  split_and!; try reflexivity; assumption.
Qed.

Lemma steps_MNIST_losses ld (X_train : batch) es : forall s,
  compiled s ->
  exists evs s',
    for_each es (fun _ : nat => step_MNIST ld X_train) s = Ok tt s' /\
    compiled s' /\
    trace s' = trace s ++ evs /\
    length (returned_losses discriminator evs) = length es /\
    length (returned_losses gan evs) = length es /\
    Forall (fun l => 0 <= l) (returned_losses discriminator evs) /\
    Forall (fun l => 0 <= l) (returned_losses gan evs) /\
    d_losses s' = d_losses s /\ g_losses s' = g_losses s /\
    (es <> [] ->
     d_loss s' = last (returned_losses discriminator evs) /\
     g_loss s' = last (returned_losses gan evs)).
Proof.
  induction es as [|e es IH]; intros s Hs.
  - exists [], s. split; [reflexivity|]. split; [exact Hs|].
    split; [symmetry; apply app_nil_r|].
    split_and!; try reflexivity; try constructor; congruence.
  - destruct (step_MNIST_losses ld X_train s Hs)
      as (e1 & l_d & l_g & s1 & E1 & Hs1 & T1 & RD1 & RG1 & D1 & G1 & V1 & W1
          & P1 & Q1).
    destruct (IH s1 Hs1)
      as (e2 & s2 & E2 & Hs2 & T2 & LD2 & LG2 & PD2 & PG2 & D2 & G2 & L2).
    exists (e1 ++ e2), s2.
    split; [cbn [for_each]; unfold bind; rewrite E1; exact E2|].
    split; [exact Hs2|].
    split; [rewrite T2, T1, app_assoc; reflexivity|].
    rewrite !returned_losses_app, RD1, RG1.
    split; [cbn [app length]; rewrite LD2; reflexivity|].
    split; [cbn [app length]; rewrite LG2; reflexivity|].
    split; [constructor; assumption|].
    split; [constructor; assumption|].
    split; [rewrite D2; exact D1|]. split; [rewrite G2; exact G1|].
    intros _. destruct es as [|e' es].
    + cbn [for_each ret] in E2. injection E2 as <-.
      destruct (returned_losses discriminator e2); [|discriminate].
      destruct (returned_losses gan e2); [|discriminate].
      split; assumption.
    + destruct L2 as [L2d L2g]; [discriminate|].
      rewrite L2d, L2g.
      destruct (returned_losses discriminator e2) as [|x xs]; [discriminate|].
      destruct (returned_losses gan e2) as [|y ys]; [discriminate|].
      split; reflexivity.
Qed.

Lemma epoch_MNIST_losses ld (X_train : batch) batch_count e s :
  compiled s -> (0 < batch_count)%nat ->
  exists evs l_d l_g s',
    epoch_MNIST ld X_train batch_count e s = Ok tt s' /\
    trace s' = trace s ++ evs /\
    length (returned_losses discriminator evs) = batch_count /\
    length (returned_losses gan evs) = batch_count /\
    last (returned_losses discriminator evs) = Some l_d /\
    last (returned_losses gan evs) = Some l_g /\
    d_losses s' = d_losses s ++ [l_d] /\ g_losses s' = g_losses s ++ [l_g] /\
    0 <= l_d /\ 0 <= l_g.
Proof.
  intros Hs Hpos.
  destruct (steps_MNIST_losses ld X_train (seq 0 batch_count) s Hs)
    as (e1 & s1 & E1 & Hs1 & T1 & LD1 & LG1 & PD1 & PG1 & D1 & G1 & L1).
  rewrite length_seq in LD1, LG1.
  destruct L1 as [V1 W1]; [destruct batch_count; [lia|discriminate]|].
  destruct (last (returned_losses discriminator e1)) as [l_d|] eqn:Ed.
  2:{ apply last_None in Ed. rewrite Ed in LD1. simpl in LD1. lia. }
  destruct (last (returned_losses gan e1)) as [l_g|] eqn:Eg.
  2:{ apply last_None in Eg. rewrite Eg in LG1. simpl in LG1. lia. }
  assert (Pd : 0 <= l_d).
  { apply last_Some_elem_of in Ed. rewrite Forall_forall in PD1.
    apply PD1, Ed. }
  assert (Pg : 0 <= l_g).
  { apply last_Some_elem_of in Eg. rewrite Forall_forall in PG1.
    apply PG1, Eg. }
  set (s2 := set_losses (d_losses s1 ++ [l_d]) (g_losses s1 ++ [l_g]) s1).
  assert (E2 : epoch_MNIST ld X_train batch_count e s
               = (if Nat.eqb (e mod 5) 0
                  then let* noise := np_random_normal Latent 0 1 100 ld in
                       plotGeneratedImages ld
                  else ret tt) s2).
  { unfold epoch_MNIST, for_range. unfold bind at 1. rewrite E1.
    unfold bind at 1. unfold d_losses_append_d_loss. rewrite V1.
    unfold bind at 1. unfold g_losses_append_g_loss.
    cbn [g_loss set_losses]. rewrite W1. reflexivity. }
  rewrite E2.
  assert (D2 : d_losses s2 = d_losses s ++ [l_d]) by (rewrite <- D1; reflexivity).
  assert (G2 : g_losses s2 = g_losses s ++ [l_g]) by (rewrite <- G1; reflexivity).
  assert (T2 : trace s2 = trace s ++ e1) by exact T1.
  destruct (Nat.eqb (e mod 5) 0).
  - destruct (plot_MNIST_run ld s2) as (e3 & s3 & E3 & [T3 _ _ C3 C3'] & D3 & G3).
    exists (e1 ++ e3), l_d, l_g, s3. split; [exact E3|].
    split; [rewrite T3, T2, app_assoc; reflexivity|].
    rewrite !returned_losses_app.
    rewrite (returned_losses_quiet _ _ C3), (returned_losses_quiet _ _ C3').
    rewrite !app_nil_r, D3, G3.
    split_and!; assumption.
  - exists e1, l_d, l_g, s2. split; [reflexivity|].
    split_and!; assumption.
Qed.

(** C2, as the loops behave: a step of the 1D loop makes one training
    call of each model and appends the loss each call returned to its
    history; a step of the MNIST loop makes the same two calls, appends
    nothing and leaves the two returned losses in the variables [d_loss]
    and [g_loss]; an epoch of the MNIST loop makes [batch_count] calls of
    each model and appends to each history the loss its last call
    returned.  None of these values is negative. *)
Theorem loss_histories (s : trainer) :
  compiled s ->
  (forall latent_dim e,
     appends_two_losses (step_1D latent_dim e) /\
     exists evs l_d l_g s',
       step_1D latent_dim e s = Ok tt s' /\
       trace s' = trace s ++ evs /\
       returned_losses discriminator evs = [l_d] /\
       returned_losses gan evs = [l_g] /\
       d_losses s' = d_losses s ++ [l_d] /\
       g_losses s' = g_losses s ++ [l_g] /\
       0 <= l_d /\ 0 <= l_g) /\
  (forall latent_dim X_train, exists evs l_d l_g s',
     step_MNIST latent_dim X_train s = Ok tt s' /\
     trace s' = trace s ++ evs /\
     returned_losses discriminator evs = [l_d] /\
     returned_losses gan evs = [l_g] /\
     d_losses s' = d_losses s /\ g_losses s' = g_losses s /\
     d_loss s' = Some l_d /\ g_loss s' = Some l_g /\
     0 <= l_d /\ 0 <= l_g) /\
  (forall latent_dim X_train batch_count e,
     (0 < batch_count)%nat ->
     appends_two_losses (epoch_MNIST latent_dim X_train batch_count e) /\
     exists evs l_d l_g s',
       epoch_MNIST latent_dim X_train batch_count e s = Ok tt s' /\
       trace s' = trace s ++ evs /\
       length (returned_losses discriminator evs) = batch_count /\
       length (returned_losses gan evs) = batch_count /\
       last (returned_losses discriminator evs) = Some l_d /\
       last (returned_losses gan evs) = Some l_g /\
       d_losses s' = d_losses s ++ [l_d] /\
       g_losses s' = g_losses s ++ [l_g] /\
       0 <= l_d /\ 0 <= l_g).
Proof.
  intros Hs. split; [|split].
  - intros ld e. split.
    + intros t t' Ht Et.
      destruct (step_1D_run ld e t Ht)
        as (_ & _ & l_d & l_g & t1 & E & _ & _ & D & G & Pd & Pg).
      rewrite E in Et. injection Et as <-. exists l_d, l_g. auto.
    + destruct (step_1D_run ld e s Hs)
        as (_ & _ & l_d & l_g & s' & E & _ & _ & D & G & Pd & Pg).
      destruct (step_1D_detail ld e s Hs)
        as (l_d' & l_g' & s'' & E' & T' & _ & _ & D' & G').
      cbv zeta in *. rewrite E in E'. injection E' as <-.
      rewrite D in D'. apply app_inj_tail in D' as [_ <-].
      rewrite G in G'. apply app_inj_tail in G' as [_ <-].
      eexists _, l_d, l_g, s'. split; [exact E|]. split; [exact T'|].
      split; [destruct (Nat.eqb (e mod 100) 0); reflexivity|].
      split; [destruct (Nat.eqb (e mod 100) 0); reflexivity|].
      auto.
  - intros ld X_train.
    destruct (step_MNIST_losses ld X_train s Hs)
      as (evs & l_d & l_g & s' & E & _ & T & RD & RG & D & G & V & W & Pd & Pg).
    exists evs, l_d, l_g, s'. split_and!; assumption.
  - intros ld X_train bc e Hpos. split.
    + intros t t' Ht Et.
      destruct (epoch_MNIST_run ld X_train bc e t Ht Hpos)
        as (_ & l_d & l_g & t1 & E & _ & D & G & Pd & Pg).
      rewrite E in Et. injection Et as <-. exists l_d, l_g. auto.
    + destruct (epoch_MNIST_losses ld X_train bc e s Hs Hpos)
        as (evs & l_d & l_g & s' & E & T & LD & LG & Ed & Eg & D & G & Pd & Pg).
      exists evs, l_d, l_g, s'. split_and!; assumption.
Qed.

End TrainerOrder.

(** ** The training loop of the convolutional networks *)

Section TrainerCNNFacts.
Import Trainer TrainerCNN.
Context `{Backend}.

Ltac run_cell :=
  cbn [bind ret raise random_seed np_random_normal np_random_rows predict
       set_trainable compile train_on_batch set_d_loss set_g_loss
       d_losses_append_d_loss g_losses_append_g_loss reset_losses
       set_np_rng set_losses
       weights trainable collected kstate np_rng py_rng d_loss g_loss
       d_losses g_losses trace fst snd].

Lemma steps_events_app v (X_train : batch) k1 k2 e1 e2 :
  steps_events v X_train k1 e1 -> steps_events v X_train k2 e2 ->
  steps_events v X_train (k1 + k2) (e1 ++ e2).
Proof.
  intros H1 H2. induction H1 as [|k blk evs Hblk _ IH|k b evs _ IH].
  - exact H2.
  - rewrite <- app_assoc. apply (steps_step v X_train (k + k2)); assumption.
  - apply (steps_plot v X_train (k + k2)). exact IH.
Qed.

Lemma steps_events_updates v (X_train : batch) k evs :
  steps_events v X_train k evs ->
  updates evs = concat (replicate k [Dis; Gen]) /\
  length (train_calls discriminator evs) = k /\
  length (train_calls gan evs) = k.
Proof.
  induction 1 as [|k blk evs Hblk _ (IHu & IHd & IHg)|k b evs _ IH].
  - split_and!; reflexivity.
  - destruct Hblk as (n1 & r & w & l_d & n2 & l_g & -> & _).
    unfold updates, train_calls in *. rewrite !flat_map_app, !length_app.
    rewrite IHu, IHd, IHg. split_and!; reflexivity.
  - exact IH.
Qed.

Lemma discriminator_update_CNN_detail ld (X_train : batch) s :
  collected s discriminator = [Dis] ->
  let r1 := np_normal 0 1 batch_size ld (np_rng s) in
  let r2 := np_randint 0 (length X_train) batch_size r1.2 in
  let image_batch := map (fun i => X_train !!! i) r2.1 in
  let X := np_concatenate image_batch (map (forward Gen (weights s Gen)) r1.1) in
  let Y := discriminator_labels batch_size 1 in
  let loss :=
    Loss.batch_loss Y (map (train_output discriminator (kstate s) (weights s)) X) in
  exists s',
    discriminator_update_CNN ld X_train s = Ok tt s' /\
    trace s' = trace s ++
      [EvDraw Latent r1.1; EvDraw Real image_batch;
       EvTrain discriminator X Y [Dis] loss] /\
    np_rng s' = r2.2 /\
    weights s' Dis = (optimizer_step discriminator (kstate s) (weights s) X Y).1 Dis /\
    weights s' Gen = weights s Gen /\
    d_loss s' = Some loss /\ g_loss s' = g_loss s /\
    d_losses s' = d_losses s /\ g_losses s' = g_losses s /\
    frame s s'.
Proof.
  intros Hc. cbv zeta. eexists. split.
  { unfold discriminator_update_CNN. run_cell.
    rewrite assign_prefix_zeros.
    rewrite trained_discriminator by (try reflexivity; exact Hc).
    reflexivity. }
  run_cell. split; [rewrite <- !app_assoc; reflexivity|].
  split; [reflexivity|].
  split; [rewrite decide_True by (apply list_elem_of_singleton; reflexivity);
          reflexivity|].
  split; [rewrite decide_False by (apply not_in_singleton; discriminate);
          reflexivity|].
  do 4 (split; [reflexivity|]).
  split; reflexivity.
Qed.

Lemma generator_update_CNN_MNIST ld :
  generator_update_CNN ld = generator_update_MNIST ld.
Proof. reflexivity. Qed.

Lemma step_CNN_detail ld (X_train : batch) s :
  compiled s ->
  let r1 := np_normal 0 1 batch_size ld (np_rng s) in
  let r2 := np_randint 0 (length X_train) batch_size r1.2 in
  let r3 := np_normal 0 1 batch_size ld r2.2 in
  let X := map (fun i => X_train !!! i) r2.1
           ++ map (forward Gen (weights s Gen)) r1.1 in
  let Y := replicate batch_size 1 ++ replicate batch_size 0 in
  exists l_d l_g s1 s',
    discriminator_update_CNN ld X_train s = Ok tt s1 /\
    generator_update_CNN ld s1 = Ok tt s' /\
    step_CNN ld X_train s = Ok tt s' /\ compiled s' /\
    trace s' = trace s ++
      [EvDraw Latent r1.1; EvDraw Real (map (fun i => X_train !!! i) r2.1);
       EvTrain discriminator X Y [Dis] l_d;
       EvDraw Latent r3.1;
       EvTrain gan r3.1 (replicate batch_size 1) [Gen] l_g] /\
    weights s1 Dis
    = (optimizer_step discriminator (kstate s) (weights s) X Y).1 Dis /\
    weights s1 Gen = weights s Gen /\
    weights s' Gen
    = (optimizer_step gan (kstate s1) (weights s1) r3.1
         (replicate batch_size 1)).1 Gen /\
    weights s' Dis = weights s1 Dis /\
    d_losses s' = d_losses s /\ g_losses s' = g_losses s /\
    d_loss s' = Some l_d /\ g_loss s' = Some l_g.
Proof.
  intros Hs. pose proof Hs as (Hcd & Hcg & Hflag). cbv zeta.
  destruct (discriminator_update_CNN_detail ld X_train s Hcd)
    as (s1 & E1 & T1 & R1 & WD1 & WG1 & V1 & W1 & D1 & G1 & F1).
  cbv zeta in *.
  destruct (generator_update_MNIST_detail ld s1)
    as (s2 & E2 & T2 & R2 & WD2 & WG2 & W2 & V2 & G2 & D2 & _ & F2).
  { rewrite (frame_collected _ _ F1). exact Hcg. }
  { rewrite (frame_gen_flag _ _ F1). exact Hflag. }
  cbv zeta in *. rewrite R1 in T2, WG2, W2.
  eexists _, _, s1, s2.
  split; [exact E1|]. split; [exact E2|].
  split; [unfold step_CNN, bind; rewrite E1; exact E2|].
  split.
  { eapply frame_compiled; [exact F2|].
    eapply frame_compiled; [exact F1|exact Hs]. }
  split; [rewrite T2, T1, <- !app_assoc; reflexivity|].
  split; [exact WD1|]. split; [exact WG1|]. split; [exact WG2|].
  split; [exact WD2|].
  rewrite D2, G2, D1, G1, V2, V1, W2. split_and!; reflexivity.
Qed.

Lemma step_CNN_run ld (X_train : batch) s :
  compiled s -> (0 < length X_train)%nat ->
  exists blk l_d l_g s',
    step_CNN ld X_train s = Ok tt s' /\ compiled s' /\
    trace s' = trace s ++ blk /\ step_events 1 X_train blk /\
    d_losses s' = d_losses s /\ g_losses s' = g_losses s /\
    d_loss s' = Some l_d /\ g_loss s' = Some l_g.
Proof.
  intros Hs Hpos.
  destruct (step_CNN_detail ld X_train s Hs)
    as (l_d & l_g & s1 & s' & _ & _ & E & Hs' & T & _ & _ & _ & _ & D & G & V & W).
  cbv zeta in *.
  eexists _, l_d, l_g, s'.
  split; [exact E|]. split; [exact Hs'|]. split; [exact T|].
  split; [|split_and!; assumption].
  eexists _, _, _, _, _, _. split; [reflexivity|].
  split; [apply np_normal_rows|].
  split; [rewrite length_map; apply np_randint_size|].
  split; [apply drawn_rows, Hpos|apply np_normal_rows].
Qed.

Lemma steps_CNN_run ld (X_train : batch) es : forall s,
  compiled s -> (0 < length X_train)%nat ->
  exists evs s',
    for_each es (fun _ : nat => step_CNN ld X_train) s = Ok tt s' /\
    compiled s' /\
    trace s' = trace s ++ evs /\
    steps_events 1 X_train (length es) evs /\
    d_losses s' = d_losses s /\ g_losses s' = g_losses s /\
    (es <> [] -> exists l_d l_g, d_loss s' = Some l_d /\ g_loss s' = Some l_g).
Proof.
  induction es as [|e es IH]; intros s Hs Hpos.
  - exists [], s. split; [reflexivity|]. split; [exact Hs|].
    split; [symmetry; apply app_nil_r|]. split; [constructor|].
    split_and!; try reflexivity. congruence.
  - destruct (step_CNN_run ld X_train s Hs Hpos)
      as (blk & l_d & l_g & s1 & E1 & Hs1 & T1 & B1 & D1 & G1 & V1 & W1).
    destruct (IH s1 Hs1 Hpos) as (e2 & s2 & E2 & Hs2 & T2 & S2 & D2 & G2 & L2).
    exists (blk ++ e2), s2.
    split; [cbn [for_each]; unfold bind; rewrite E1; exact E2|].
    split; [exact Hs2|].
    split; [rewrite T2, T1, app_assoc; reflexivity|].
    split; [cbn [length]; constructor; assumption|].
    split; [rewrite D2; exact D1|]. split; [rewrite G2; exact G1|].
    intros _. destruct es as [|e' es].
    + cbn [for_each ret] in E2. injection E2 as <-. eauto.
    + apply L2. discriminate.
Qed.

Lemma epoch_CNN_run ld (X_train : batch) batch_count e s :
  compiled s -> (0 < length X_train)%nat -> (0 < batch_count)%nat ->
  exists evs s',
    epoch_CNN ld X_train batch_count e s = Ok tt s' /\ compiled s' /\
    trace s' = trace s ++ evs /\
    steps_events 1 X_train batch_count evs /\
    length (d_losses s') = S (length (d_losses s)) /\
    length (g_losses s') = S (length (g_losses s)).
Proof.
  intros Hs Hpos Hbc.
  destruct (steps_CNN_run ld X_train (seq 0 batch_count) s Hs Hpos)
    as (e1 & s1 & E1 & Hs1 & T1 & S1 & D1 & G1 & L1).
  rewrite length_seq in S1.
  destruct L1 as (l_d & l_g & V1 & W1);
    [destruct batch_count; [lia|discriminate]|].
  set (s2 := set_losses (d_losses s1 ++ [l_d]) (g_losses s1 ++ [l_g]) s1).
  assert (E2 : epoch_CNN ld X_train batch_count e s
               = (if Nat.eqb (e mod 5) 0
                  then let* noise := np_random_normal Latent 0 1 100 ld in
                       let* generatedImages := predict Gen noise in
                       ret tt
                  else ret tt) s2).
  { unfold epoch_CNN, for_range. unfold bind at 1. rewrite E1.
    unfold bind at 1. unfold d_losses_append_d_loss. rewrite V1.
    unfold bind at 1. unfold g_losses_append_g_loss.
    cbn [g_loss set_losses]. rewrite W1. reflexivity. }
  rewrite E2.
  assert (Hs2 : compiled s2) by exact Hs1.
  assert (T2 : trace s2 = trace s ++ e1) by exact T1.
  assert (D2 : length (d_losses s2) = S (length (d_losses s))).
  { subst s2. cbn [d_losses set_losses]. rewrite length_app, D1. simpl. lia. }
  assert (G2 : length (g_losses s2) = S (length (g_losses s))).
  { subst s2. cbn [g_losses set_losses]. rewrite length_app, G1. simpl. lia. }
  destruct (Nat.eqb (e mod 5) 0).
  - eexists (e1 ++ [EvDraw Latent _]), _.
    split; [run_cell; reflexivity|].
    split; [exact Hs2|].
    split; [run_cell; rewrite T2, app_assoc; reflexivity|].
    split.
    { pose proof (steps_events_app 1 X_train batch_count 0 e1 [EvDraw Latent
        (np_normal 0 1 100 ld (np_rng s2)).1] S1
        (steps_plot 1 X_train 0 _ [] (steps_nil 1 X_train))) as S.
      rewrite Nat.add_0_r in S. exact S. }
    split; [exact D2|exact G2].
  - exists e1, s2. split; [reflexivity|]. split_and!; assumption.
Qed.

Lemma epochs_CNN_run ld (X_train : batch) batch_count es : forall s,
  compiled s -> (0 < length X_train)%nat -> (0 < batch_count)%nat ->
  exists evs s',
    for_each es (epoch_CNN ld X_train batch_count) s = Ok tt s' /\
    trace s' = trace s ++ evs /\
    steps_events 1 X_train (length es * batch_count) evs /\
    length (d_losses s') = (length (d_losses s) + length es)%nat /\
    length (g_losses s') = (length (g_losses s) + length es)%nat.
Proof.
  induction es as [|e es IH]; intros s Hs Hpos Hbc.
  - exists [], s. split; [reflexivity|].
    split; [symmetry; apply app_nil_r|]. split; [constructor|].
    simpl. lia.
  - destruct (epoch_CNN_run ld X_train batch_count e s Hs Hpos Hbc)
      as (e1 & s1 & E1 & Hs1 & T1 & S1 & D1 & G1).
    destruct (IH s1 Hs1 Hpos Hbc) as (e2 & s2 & E2 & T2 & S2 & D2 & G2).
    exists (e1 ++ e2), s2.
    split; [cbn [for_each]; unfold bind; rewrite E1; exact E2|].
    split; [rewrite T2, T1, app_assoc; reflexivity|].
    split; [exact (steps_events_app _ _ _ _ _ _ S1 S2)|].
    rewrite D2, G2, D1, G1. simpl. lia.
Qed.

(** X20: the loop of the convolutional networks on 50000 images of 784
    pixels, [X_train] being the rescaled images.  In every state where the
    model cell has run, a step draws a latent batch and 128 rows of
    [X_train], trains the discriminator on the rows followed by the
    generator's output, with labels 1 for the rows and 0 for the output (no
    label smoothing here), which replaces the discriminator's weights and
    not the generator's; then it trains the composed model on a new latent
    batch, which computes the generator's new weights from the updated
    discriminator and leaves the discriminator's alone.  The training cell
    runs 200 times 390 such steps, with the latent draws of the plots
    between them, and ends with 200 values in each history. *)
Theorem training_cell_CNN_summary (s : trainer) (latent_dim : nat)
  (train_set_images : batch) :
  compiled s ->
  length train_set_images = Z.to_nat 50000 ->
  Forall (fun img : vec => length img = 784%nat) train_set_images ->
  let X_train := rescale train_set_images in
  (forall t, compiled t ->
     let r1 := np_normal 0 1 batch_size latent_dim (np_rng t) in
     let r2 := np_randint 0 (length X_train) batch_size r1.2 in
     let r3 := np_normal 0 1 batch_size latent_dim r2.2 in
     let image_batch := map (fun i => X_train !!! i) r2.1 in
     let X := image_batch ++ map (forward Gen (weights t Gen)) r1.1 in
     let Y := replicate batch_size 1 ++ replicate batch_size 0 in
     exists l_d l_g t1 t',
       discriminator_update_CNN latent_dim X_train t = Ok tt t1 /\
       generator_update_CNN latent_dim t1 = Ok tt t' /\
       step_CNN latent_dim X_train t = Ok tt t' /\ compiled t' /\
       trace t' = trace t ++
         [EvDraw Latent r1.1; EvDraw Real image_batch;
          EvTrain discriminator X Y [Dis] l_d;
          EvDraw Latent r3.1;
          EvTrain gan r3.1 (replicate batch_size 1) [Gen] l_g] /\
       length image_batch = batch_size /\
       Forall (fun img => img ∈ X_train) image_batch /\
       weights t1 Dis
       = (optimizer_step discriminator (kstate t) (weights t) X Y).1 Dis /\
       weights t1 Gen = weights t Gen /\
       weights t' Gen
       = (optimizer_step gan (kstate t1) (weights t1) r3.1
            (replicate batch_size 1)).1 Gen /\
       weights t' Dis = weights t1 Dis) /\
  exists evs s',
    training_cell_CNN latent_dim train_set_images s = Ok tt s' /\
    trace s' = trace s ++ evs /\
    steps_events 1 X_train (200 * 390) evs /\
    updates evs = concat (replicate (200 * 390) [Dis; Gen]) /\
    length (train_calls discriminator evs) = (200 * 390)%nat /\
    length (train_calls gan evs) = (200 * 390)%nat /\
    length (d_losses s') = 200%nat /\ length (g_losses s') = 200%nat.
Proof.
  intros Hs Hlen Hrows X_train.
  assert (Hpos : (0 < length X_train)%nat).
  { subst X_train. rewrite rescale_length, Hlen. lia. }
  split.
  - intros t Ht. cbv zeta.
    destruct (step_CNN_detail latent_dim X_train t Ht)
      as (l_d & l_g & t1 & t' & E1 & E2 & E & Ht' & T & WD1 & WG1 & WG2 & WD2 & _).
    cbv zeta in *.
    exists l_d, l_g, t1, t'.
    split; [exact E1|]. split; [exact E2|]. split; [exact E|].
    split; [exact Ht'|]. split; [exact T|].
    split; [rewrite length_map; apply np_randint_size|].
    split; [apply drawn_rows, Hpos|].
    split_and!; assumption.
  - destruct (reset_losses_run s) as (s0 & E0 & S0 & D0 & G0 & _).
    assert (Hs0 : compiled s0) by (eapply frame_compiled; [apply S0|exact Hs]).
    destruct (epochs_CNN_run latent_dim X_train 390
                (seq 0 epochs_MNIST) s0 Hs0 Hpos ltac:(lia))
      as (evs & s' & E & T & S & D & G).
    rewrite length_seq in S, D, G. rewrite D0 in D. rewrite G0 in G.
    destruct (steps_events_updates _ _ _ _ S) as (U & CD & CG).
    exists evs, s'.
    split.
    { unfold training_cell_CNN, bind. rewrite E0.
      rewrite (reshape_ok _ _ Hlen Hrows).
      fold X_train.
      replace (length X_train / batch_size)%nat with 390%nat; [exact E|].
      subst X_train. rewrite rescale_length, Hlen, batch_count_390.
      reflexivity. }
    destruct S0 as [T0 _ _ _ _]. rewrite app_nil_r in T0.
    split; [rewrite T, T0; reflexivity|].
    split; [exact S|]. split; [exact U|]. split; [exact CD|].
    split; [exact CG|]. split; assumption.
Qed.

End TrainerCNNFacts.

(** ** Runs on the toy backend, continued *)

Section ToyRunsMore.
Import Keras Trainer TrainerCNN Loader LoaderReading Checkpoints.

Lemma discriminator_update_precedes_generator_update_witness :
  compiled (started (toy_boot 0)) /\
  exists evs s1 s2 s',
    discriminator_update_1D 1 (started (toy_boot 0)) = Ok tt s1 /\
    generator_update_1D 1 s1 = Ok tt s2 /\
    step_1D 1 0 (started (toy_boot 0)) = Ok tt s' /\ compiled s' /\
    trace s' = trace (started (toy_boot 0)) ++ evs /\
    updates evs = [Dis; Gen] /\
    weights s1 Gen = weights (started (toy_boot 0)) Gen /\
    weights s2 Dis = weights s1 Dis /\
    weights s' = weights s2.
Proof.
  pose proof (toy_started_compiled 0) as Hs.
  split; [exact Hs|].
  pose proof (proj1 (discriminator_update_precedes_generator_update _ Hs)
                1%nat 0%nat) as Hstep.
  cbv zeta in Hstep.
  destruct Hstep
    as (evs & s1 & s2 & s' & E1 & E2 & E & C & T & U & _ & WG1 & _ & WD2 & W).
  exists evs, s1, s2, s'. split_and!; assumption.
Defined.

Lemma loss_histories_witness :
  compiled (started (toy_boot 0)) /\ (0 < 390)%nat /\
  (exists evs l_d l_g s',
     step_1D 1 0 (started (toy_boot 0)) = Ok tt s' /\
     trace s' = trace (started (toy_boot 0)) ++ evs /\
     returned_losses discriminator evs = [l_d] /\
     returned_losses gan evs = [l_g] /\
     d_losses s' = d_losses (started (toy_boot 0)) ++ [l_d] /\
     g_losses s' = g_losses (started (toy_boot 0)) ++ [l_g] /\
     0 <= l_d /\ 0 <= l_g) /\
  (exists evs l_d l_g s',
     epoch_MNIST 10 (rescale blank_images) 390 0 (started (toy_boot 0))
     = Ok tt s' /\
     trace s' = trace (started (toy_boot 0)) ++ evs /\
     length (returned_losses discriminator evs) = 390%nat /\
     length (returned_losses gan evs) = 390%nat /\
     last (returned_losses discriminator evs) = Some l_d /\
     last (returned_losses gan evs) = Some l_g /\
     d_losses s' = d_losses (started (toy_boot 0)) ++ [l_d] /\
     g_losses s' = g_losses (started (toy_boot 0)) ++ [l_g] /\
     0 <= l_d /\ 0 <= l_g).
Proof.
  pose proof (toy_started_compiled 0) as Hs.
  assert (Hpos : (0 < 390)%nat) by lia.
  split; [exact Hs|]. split; [exact Hpos|]. split.
  - exact (proj2 (proj1 (loss_histories _ Hs) 1%nat 0%nat)).
  - exact (proj2 (proj2 (proj2 (loss_histories _ Hs))
                    10%nat (rescale blank_images) 390%nat 0%nat Hpos)).
Defined.

(** C2 as worded fails on the MNIST loop: a trainer step there appends
    nothing to the histories, the values are appended once per epoch. *)
Lemma mnist_step_appends_no_loss :
  ~ appends_two_losses (step_MNIST 10 (rescale blank_images)).
Proof.
  intros Happ.
  pose proof (toy_started_compiled 0) as Hs.
  destruct (step_MNIST_run 10 (rescale blank_images) _ Hs)
    as (_ & _ & _ & s' & E & _ & D & _).
  destruct (Happ _ s' Hs E) as (l_d & _ & D' & _).
  rewrite D in D'. apply (f_equal length) in D'.
  rewrite length_app in D'. simpl in D'. lia.
Qed.



Lemma training_cell_CNN_summary_witness :
  compiled (started (toy_boot 0)) /\
  length blank_images = Z.to_nat 50000 /\
  Forall (fun img : vec => length img = 784%nat) blank_images /\
  exists evs s',
    training_cell_CNN 10 blank_images (started (toy_boot 0)) = Ok tt s' /\
    trace s' = trace (started (toy_boot 0)) ++ evs /\
    steps_events 1 (rescale blank_images) (200 * 390) evs /\
    updates evs = concat (replicate (200 * 390) [Dis; Gen]) /\
    length (train_calls discriminator evs) = (200 * 390)%nat /\
    length (train_calls gan evs) = (200 * 390)%nat /\
    length (d_losses s') = 200%nat /\ length (g_losses s') = 200%nat.
Proof.
  pose proof (toy_started_compiled 0) as Hs.
  assert (Hlen : length blank_images = Z.to_nat 50000)
    by apply length_replicate.
  assert (Hrows : Forall (fun img : vec => length img = 784%nat) blank_images)
    by (apply Forall_replicate, length_replicate).
  split; [exact Hs|]. split; [exact Hlen|]. split; [exact Hrows|].
  exact (proj2 (training_cell_CNN_summary _ 10%nat blank_images Hs Hlen Hrows)).
Defined.

Lemma step_1D_events_witness :
  compiled (started (toy_boot 0)) /\
  exists l_d l_g noise real noise' p1 p2 s',
    step_1D 1 0 (started (toy_boot 0)) = Ok tt s' /\
    trace s' = trace (started (toy_boot 0)) ++
      [EvDraw Latent noise; EvDraw Real real;
       EvTrain discriminator
         (real ++ map (forward Gen (weights (started (toy_boot 0)) Gen)) noise)
         (replicate n_samples 1 ++ replicate n_samples 0) [Dis] l_d;
       EvDraw Latent noise';
       EvTrain gan noise' (replicate n_samples 1) [Gen] l_g] ++
      [EvDraw Latent p1; EvDraw Real p2].
Proof.
  pose proof (toy_started_compiled 0) as Hs.
  split; [exact Hs|].
  destruct (step_1D_events (started (toy_boot 0)) 1 0 Hs)
    as (l_d & l_g & s' & E & T).
  exists l_d, l_g. eexists _, _, _, _, _, s'.
  split; [exact E|exact T].
Defined.

Lemma plot_advances_numpy_generator_witness :
  compiled (started (toy_boot 0)) /\
  (exists s',
     plot_1D 1 (started (toy_boot 0)) = Ok tt s' /\
     np_rng s' = rng_after_plot_1D 1 (np_rng (started (toy_boot 0))) /\
     weights s' = weights (started (toy_boot 0)) /\
     trainable s' = trainable (started (toy_boot 0)) /\
     d_losses s' = d_losses (started (toy_boot 0)) /\
     g_losses s' = g_losses (started (toy_boot 0))) /\
  (exists s',
     step_1D 1 100 (started (toy_boot 0)) = Ok tt s' /\
     np_rng s'
     = rng_after_plot_1D 1
         (rng_after_step_1D 1 (np_rng (started (toy_boot 0))))).
Proof.
  pose proof (toy_started_compiled 0) as Hs.
  split; [exact Hs|]. split.
  - exact (proj1 (plot_advances_numpy_generator _ 1%nat Hs)).
  - exact (proj2 (plot_advances_numpy_generator _ 1%nat Hs) 100%nat).
Defined.

Lemma discriminator_update_keeps_generator_witness :
  compiled (started (toy_boot 0)) /\
  exists evs s',
    discriminator_update_MNIST 10 (rescale blank_images) (started (toy_boot 0))
    = Ok tt s' /\
    trace s' = trace (started (toy_boot 0)) ++ evs /\ updates evs = [Dis] /\
    weights s' Gen = weights (started (toy_boot 0)) Gen.
Proof.
  pose proof (toy_started_compiled 0) as Hs.
  split; [exact Hs|].
  exact (proj2 (discriminator_update_keeps_generator _ Hs)
           10%nat (rescale blank_images)).
Defined.

Lemma real_batch_from_dataset_witness :
  (0 < length [[0]; [1]])%nat /\
  exists noise image_batch upd loss s',
    discriminator_update_MNIST 10 [[0]; [1]] (started (toy_boot 0)) = Ok tt s' /\
    trace s' = trace (started (toy_boot 0)) ++
      [EvDraw Latent noise; EvDraw Real image_batch;
       EvTrain discriminator
         (image_batch
          ++ map (forward Gen (weights (started (toy_boot 0)) Gen)) noise)
         (replicate batch_size (9 / 10) ++ replicate batch_size 0) upd loss] /\
    length image_batch = batch_size /\
    Forall (fun img => img ∈ [[0]; [1]]) image_batch.
Proof.
  assert (Hpos : (0 < length [[0]; [1]])%nat) by (cbn [length]; lia).
  split; [exact Hpos|].
  exact (real_batch_from_dataset (started (toy_boot 0)) 10 [[0]; [1]] Hpos).
Defined.

Lemma histories_after_training_witness :
  compiled (started (toy_boot 0)) /\
  length blank_images = Z.to_nat 50000 /\
  Forall (fun img : vec => length img = 784%nat) blank_images /\
  (exists s',
     training_cell_1D 1 (started (toy_boot 0)) = Ok tt s' /\
     Z.of_nat (length (d_losses s')) = 10000%Z /\
     Z.of_nat (length (g_losses s')) = 10000%Z) /\
  (exists s',
     training_cell_MNIST 10 blank_images (started (toy_boot 0)) = Ok tt s' /\
     length (d_losses s') = 200%nat /\ length (g_losses s') = 200%nat).
Proof.
  pose proof (toy_started_compiled 0) as Hs.
  assert (Hlen : length blank_images = Z.to_nat 50000)
    by apply length_replicate.
  assert (Hrows : Forall (fun img : vec => length img = 784%nat) blank_images)
    by (apply Forall_replicate, length_replicate).
  split; [exact Hs|]. split; [exact Hlen|]. split; [exact Hrows|]. split.
  - exact (proj1 (histories_after_training _ Hs) 1%nat).
  - exact (proj2 (histories_after_training _ Hs) 10%nat blank_images Hlen Hrows).
Defined.

Lemma loadMNIST_repeats_pixels_witness :
  exists b1,
    length b1 = (length [5%Z] * 784)%nat /\
    (2 < length [5%Z] * 784)%nat /\
    nth 2 b1 0 = 7.
Proof.
  destruct (loadMNIST_repeats_pixels
              {| shape := [2%nat]; data := [7; 8] |}
              {| shape := [2%nat]; data := [7; 8] |}
              {| shape := [2%nat]; data := [7; 8] |} [5%Z] [0%Z] [4%Z])
    as (b1 & _ & _ & _ & L1 & _ & _ & N1 & _).
  assert (Hk : (2 < length [5%Z] * 784)%nat) by (cbn [length]; lia).
  exists b1. split; [exact L1|]. split; [exact Hk|].
  rewrite (N1 2%nat Hk). reflexivity.
Defined.

Lemma checkpoints_distinct_witness :
  (5 < 10)%nat /\ 5 mod 5 = 0%nat /\
  generator_file 5 ∈ files_written 10 /\
  discriminator_file 5 ∈ files_written 10.
Proof.
  assert (Hlt : (5 < 10)%nat) by lia.
  assert (Hmod : 5 mod 5 = 0%nat) by reflexivity.
  split; [exact Hlt|]. split; [exact Hmod|].
  exact (proj2 (proj2 (checkpoints_distinct 10)) 5%nat Hlt Hmod).
Defined.

End ToyRunsMore.
